(** * Daily attendance reconciliation: [attendance_processor.py]

    A shallow embedding of [AttendanceProcessor] (fastapi-backend) and the
    properties of its time calculator, its day classifier, its summary
    writer and its batch loop.

    Conventions of the embedding.
    - A Python [date] is its proleptic ordinal, a [Z]; the last one is
      [date.max], 9999-12-31, ordinal 3652059.  Adding a day to it raises
      [OverflowError].
    - A Python [time] is the number of microseconds since midnight, a [Z]
      in [0, 86400 * 10^6).  Comparing two [time] values in Python compares
      (hour, minute, second, microsecond) lexicographically, which is the
      order of this number.  A [time] object is always truthy (Python 3.5
      and later), so [if shift.start_time_2] only tests for [None].
    - A [datetime] is a date and a time; time zones are not modelled.
    - [int(td.total_seconds() / 60)] truncates towards zero: [Z.quot] on the
      microsecond count.  The float division agrees with the exact quotient
      for every difference the processor can see (well below 2^53
      microseconds).
    - The SQLAlchemy session is a record of tables (lists of rows in table
      order); [query(...).filter(...).first()] is [find].  Rows added with
      [db.add] are visible to the queries that follow.  Relationships
      ([assignment.shift], [request.leave_type], [personnel.work_group],
      [work_group.calendar]) are fields holding the related row.
      [db.commit()] is the identity on this view: whether rows survive the
      end of a request is decided by the [database] module, which is not
      part of the processor.
    - A transient [DailySummary(...)] object holds the keyword arguments of
      its constructor call and nothing else; the column defaults of
      models.py are applied when the row is inserted.
    - Line 122 of the source reads [current_date += timedelta(days=1] without
      the closing parenthesis; it is read as [timedelta(days=1)].
    - The embedded operations raise two exceptions: the
      [ZeroDivisionError] of [days_diff % repetition_period_days], inside
      the per-day [try], and the [OverflowError] of
      [current_date += timedelta(days=1)] at [date.max], inside the per-day
      [try] on the [continue] branches and after it at line 122, from where
      it reaches the per-person [except] of [process_attendance].
    - The [logger] calls are recorded in the state as structured records. *)

From Stdlib Require Import ZArith String List Bool Lia Arith.
From Stdlib Require Import DecimalString.
From Stdlib Require Import Sorted Permutation.
Import ListNotations.
Open Scope string_scope.
Open Scope Z_scope.

(** ** Dates and times *)

Module PyTime.

Definition date := Z.
Definition time := Z.

Definition usec_per_minute : Z := 60 * 1000000.
Definition usec_per_day : Z := 86400 * 1000000.

Definition valid_time (t : time) : Prop := 0 <= t < usec_per_day.

(** [time(h, m)] *)
Definition hm (h m : Z) : time := (h * 60 + m) * usec_per_minute.

Record datetime := mk_datetime { dt_date : date; dt_time : time }.

(** [datetime.combine(d, t)] *)
Definition combine (d : date) (t : time) : datetime := mk_datetime d t.

(** [a < b] on datetimes. *)
Definition dt_ltb (a b : datetime) : bool :=
  (dt_date a <? dt_date b)
  || ((dt_date a =? dt_date b) && (dt_time a <? dt_time b)).

(** [a <= b] on datetimes. *)
Definition dt_leb (a b : datetime) : bool :=
  (dt_date a <? dt_date b)
  || ((dt_date a =? dt_date b) && (dt_time a <=? dt_time b)).

(** [a + timedelta(days=n)] *)
Definition dt_add_days (a : datetime) (n : Z) : datetime :=
  mk_datetime (dt_date a + n) (dt_time a).

(** [a - b], a [timedelta], as a signed count of microseconds. *)
Definition dt_sub (a b : datetime) : Z :=
  (dt_date a - dt_date b) * usec_per_day + (dt_time a - dt_time b).

(** [int(td.total_seconds() / 60)] *)
Definition int_minutes (td : Z) : Z := Z.quot td usec_per_minute.

(** [time.min] and [time.max] *)
Definition time_min : time := 0.
Definition time_max : time := usec_per_day - 1.

End PyTime.
Import PyTime.

(** ** Rows of the tables the calculator reads (models.py) *)

Record Shift := mk_Shift {
  shift_id : Z;
  shift_name : string;
  start_time_1 : time;
  end_time_1 : time;
  start_time_2 : option time;
  end_time_2 : option time;
  allowed_log_start_time : time;
  float_duration_minutes : Z;
  is_night_shift : bool
}.

Record AttendanceLog := mk_AttendanceLog {
  log_id : Z;
  log_personnel_id : Z;
  timestamp : datetime;
  device_id : option string;
  log_type : option string;
  is_processed : bool
}.

(** ** The time calculator *)

(** The [result] dictionary of [_calculate_attendance_times]. *)
Record AttendanceResult := mk_AttendanceResult {
  first_entry_time : option datetime;
  last_exit_time : option datetime;
  presence_duration : Z;
  tardiness_duration : Z;
  overtime_duration : Z;
  undertime_duration : Z;
  absent : bool;
  status : string;
  expected_work_duration : Z;
  notes : option string
}.

(** [_time_diff_minutes], with the value of [date.today()] made explicit. *)
Definition _time_diff_minutes_on (today : date) (start_time end_time : time) : Z :=
  let start_datetime := combine today start_time in
  let end_datetime := combine today end_time in
  let end_datetime :=
    if dt_ltb end_datetime start_datetime
    then dt_add_days end_datetime 1
    else end_datetime in
  int_minutes (dt_sub end_datetime start_datetime).

Definition _time_diff_minutes (start_time end_time : time) : Z :=
  _time_diff_minutes_on 0 start_time end_time.

Definition _datetime_diff_minutes (start_datetime end_datetime : datetime) : Z :=
  int_minutes (dt_sub end_datetime start_datetime).

(** The [while i < len(logs) - 1] loop of [_pair_logs]; [fuel] bounds the
    number of iterations.  The [None] cases of the two index reads are the
    [IndexError] that the loop guard excludes. *)
Fixpoint pair_loop (fuel : nat) (logs : list AttendanceLog) (i : nat)
    (pairs : list (AttendanceLog * AttendanceLog))
    : list (AttendanceLog * AttendanceLog) :=
  match fuel with
  | O => pairs
  | S fuel' =>
      if (Z.of_nat i <? Z.of_nat (length logs) - 1)%Z then
        match nth_error logs i, nth_error logs (i + 1) with
        | Some entry, Some exit => pair_loop fuel' logs (i + 2) (pairs ++ [(entry, exit)])
        | _, _ => pairs
        end
      else pairs
  end.

Definition _pair_logs (logs : list AttendanceLog)
    : list (AttendanceLog * AttendanceLog) :=
  pair_loop (length logs) logs 0 [].

(** [for entry, exit in paired_logs: total_presence += duration] *)
Definition total_presence_of (paired_logs : list (AttendanceLog * AttendanceLog)) : Z :=
  fold_left
    (fun total_presence p =>
       total_presence + _datetime_diff_minutes (timestamp (fst p)) (timestamp (snd p)))
    paired_logs 0.

Definition initial_result : AttendanceResult :=
  mk_AttendanceResult None None 0 0 0 0 false "OK" 0 None.

Module ResultUpdate.
Definition set_first_entry_time v (r : AttendanceResult) :=
  mk_AttendanceResult v (last_exit_time r) (presence_duration r) (tardiness_duration r)
    (overtime_duration r) (undertime_duration r) (absent r) (status r)
    (expected_work_duration r) (notes r).
Definition set_last_exit_time v (r : AttendanceResult) :=
  mk_AttendanceResult (first_entry_time r) v (presence_duration r) (tardiness_duration r)
    (overtime_duration r) (undertime_duration r) (absent r) (status r)
    (expected_work_duration r) (notes r).
Definition set_presence_duration v (r : AttendanceResult) :=
  mk_AttendanceResult (first_entry_time r) (last_exit_time r) v (tardiness_duration r)
    (overtime_duration r) (undertime_duration r) (absent r) (status r)
    (expected_work_duration r) (notes r).
Definition set_tardiness_duration v (r : AttendanceResult) :=
  mk_AttendanceResult (first_entry_time r) (last_exit_time r) (presence_duration r) v
    (overtime_duration r) (undertime_duration r) (absent r) (status r)
    (expected_work_duration r) (notes r).
Definition set_overtime_duration v (r : AttendanceResult) :=
  mk_AttendanceResult (first_entry_time r) (last_exit_time r) (presence_duration r)
    (tardiness_duration r) v (undertime_duration r) (absent r) (status r)
    (expected_work_duration r) (notes r).
Definition set_undertime_duration v (r : AttendanceResult) :=
  mk_AttendanceResult (first_entry_time r) (last_exit_time r) (presence_duration r)
    (tardiness_duration r) (overtime_duration r) v (absent r) (status r)
    (expected_work_duration r) (notes r).
Definition set_absent v (r : AttendanceResult) :=
  mk_AttendanceResult (first_entry_time r) (last_exit_time r) (presence_duration r)
    (tardiness_duration r) (overtime_duration r) (undertime_duration r) v (status r)
    (expected_work_duration r) (notes r).
Definition set_status v (r : AttendanceResult) :=
  mk_AttendanceResult (first_entry_time r) (last_exit_time r) (presence_duration r)
    (tardiness_duration r) (overtime_duration r) (undertime_duration r) (absent r) v
    (expected_work_duration r) (notes r).
Definition set_expected_work_duration v (r : AttendanceResult) :=
  mk_AttendanceResult (first_entry_time r) (last_exit_time r) (presence_duration r)
    (tardiness_duration r) (overtime_duration r) (undertime_duration r) (absent r)
    (status r) v (notes r).
Definition set_notes v (r : AttendanceResult) :=
  mk_AttendanceResult (first_entry_time r) (last_exit_time r) (presence_duration r)
    (tardiness_duration r) (overtime_duration r) (undertime_duration r) (absent r)
    (status r) (expected_work_duration r) v.
End ResultUpdate.
Import ResultUpdate.

(** The expected work duration block (lines 242-248). *)
Definition expected_work_of (shift : Shift) : Z :=
  let work_duration_1 := _time_diff_minutes (start_time_1 shift) (end_time_1 shift) in
  match start_time_2 shift, end_time_2 shift with
  | Some s2, Some e2 =>
      let work_duration_2 := _time_diff_minutes s2 e2 in
      work_duration_1 + work_duration_2
  | _, _ => work_duration_1
  end.

(** The blocks of [_calculate_attendance_times] after the empty-log return,
    one definition per block, each taking and returning the [result]
    dictionary. *)

(** "Get first entry and last exit": [logs[0]] and [logs[-1]]. *)
Definition with_first_and_last (logs : list AttendanceLog) (log0 : AttendanceLog)
    (result : AttendanceResult) : AttendanceResult :=
  let result := set_first_entry_time (Some (timestamp log0)) result in
  set_last_exit_time (Some (timestamp (last logs log0))) result.

(** "Calculate expected work duration" *)
Definition with_expected_work (shift : Shift) (result : AttendanceResult)
    : AttendanceResult :=
  set_expected_work_duration (expected_work_of shift) result.

(** "Calculate presence duration" *)
Definition with_presence (logs : list AttendanceLog) (result : AttendanceResult)
    : AttendanceResult :=
  if (2 <=? length logs)%nat then
    let paired_logs := _pair_logs logs in
    set_presence_duration (total_presence_of paired_logs) result
  else result.

(** "Calculate tardiness" *)
Definition with_tardiness (shift : Shift) (result : AttendanceResult)
    : AttendanceResult :=
  match first_entry_time result with
  | Some first_entry =>
      let entry_time := dt_time first_entry in
      let allowed_start := allowed_log_start_time shift in
      if allowed_start <? entry_time then
        let tardiness_minutes := _time_diff_minutes allowed_start entry_time in
        let tardiness_minutes :=
          Z.max 0 (tardiness_minutes - float_duration_minutes shift) in
        set_tardiness_duration tardiness_minutes result
      else result
  | None => result
  end.

(** "Calculate overtime" *)
Definition with_overtime (shift : Shift) (result : AttendanceResult)
    : AttendanceResult :=
  match last_exit_time result with
  | Some last_exit =>
      let exit_time := dt_time last_exit in
      let expected_end :=
        match end_time_2 shift with
        | Some e2 => e2
        | None => end_time_1 shift
        end in
      if expected_end <? exit_time then
        let overtime_minutes := _time_diff_minutes expected_end exit_time in
        set_overtime_duration overtime_minutes result
      else result
  | None => result
  end.

(** "Calculate undertime" *)
Definition with_undertime (result : AttendanceResult) : AttendanceResult :=
  if presence_duration result <? expected_work_duration result
  then set_undertime_duration
         (expected_work_duration result - presence_duration result) result
  else result.

(** "Check for incomplete logs": [len(logs) % 2 != 0] *)
Definition with_incomplete_flag (logs : list AttendanceLog) (result : AttendanceResult)
    : AttendanceResult :=
  if negb (Nat.eqb (Nat.modulo (length logs) 2) 0)
  then set_notes (Some "Odd number of attendance logs")
         (set_status "IncompleteLog" result)
  else result.

Definition _calculate_attendance_times (logs : list AttendanceLog) (shift : Shift)
    (target_date : date) : AttendanceResult :=
  let result := initial_result in
  match logs with
  | [] => set_status "Absent" (set_absent true result)
  | log0 :: _ =>
      let result := with_first_and_last logs log0 result in
      let result := with_expected_work shift result in
      let result := with_presence logs result in
      let result := with_tardiness shift result in
      let result := with_overtime shift result in
      let result := with_undertime result in
      let result := with_incomplete_flag logs result in
      result
  end.

(** Punches paired by position, as the specification words it:
    [logs[0]] with [logs[1]], [logs[2]] with [logs[3]], and so on; a
    trailing unpaired punch is left out. *)
Fixpoint pairs_by_position (logs : list AttendanceLog)
    : list (AttendanceLog * AttendanceLog) :=
  match logs with
  | entry :: exit :: rest => (entry, exit) :: pairs_by_position rest
  | _ => []
  end.

(** A punch at [h:m] on day [d] for the examples. *)
Definition punch (i : Z) (d : date) (h m : Z) : AttendanceLog :=
  mk_AttendanceLog i 1 (mk_datetime d (hm h m)) None None false.

Definition standard_shift : Shift :=
  mk_Shift 1 "Day" (hm 8 0) (hm 16 0) None None (hm 8 0) 15 false.

Definition night_shift : Shift :=
  mk_Shift 2 "Night" (hm 22 0) (hm 6 0) None None (hm 22 0) 15 true.


(** ** The remaining rows (models.py) *)

Record Calendar := mk_Calendar {
  calendar_id : Z;
  calendar_name : string
}.

Record Holiday := mk_Holiday {
  holiday_id : Z;
  holiday_date : date;
  holiday_name : string;
  holiday_calendar_id : Z
}.

Record WorkGroup := mk_WorkGroup {
  work_group_id : Z;
  repetition_period_days : Z;
  calendar : Calendar;
  wg_start_date : datetime
}.

Record WorkGroupShift := mk_WorkGroupShift {
  wgs_work_group_id : Z;
  day_of_cycle : Z;
  shift : Shift
}.

Record Personnel := mk_Personnel {
  personnel_id : Z;
  start_date : datetime;
  end_date : option datetime;
  work_group : option WorkGroup;
  is_active : bool
}.

Record LeaveType := mk_LeaveType {
  leave_type_name : string;
  leave_counts_as_work : bool
}.

Record LeaveRequest := mk_LeaveRequest {
  leave_personnel_id : Z;
  leave_type : LeaveType;
  leave_start_date : date;
  leave_end_date : date;
  leave_start_time : option time;
  leave_end_time : option time;
  leave_is_hourly : bool;
  leave_status : string
}.

Record MissionType := mk_MissionType {
  mission_type_name : string;
  mission_counts_as_work : bool
}.

Record MissionRequest := mk_MissionRequest {
  mission_personnel_id : Z;
  mission_type : MissionType;
  mission_start_date : date;
  mission_end_date : date;
  mission_start_time : option time;
  mission_end_time : option time;
  mission_is_hourly : bool;
  mission_status : string;
  destination : option string
}.

(** A row of [daily_summaries]. *)
Record DailySummary := mk_DailySummary {
  ds_id : Z;
  ds_personnel_id : Z;
  ds_date : date;
  ds_shift_id : option Z;
  ds_presence_duration : Z;
  ds_tardiness_duration : Z;
  ds_overtime_duration : Z;
  ds_undertime_duration : Z;
  ds_absent : bool;
  ds_status : string;
  ds_first_entry_time : option datetime;
  ds_last_exit_time : option datetime;
  ds_expected_work_duration : Z;
  ds_notes : option string
}.

(** [summary.__dict__] of a [DailySummary(...)] object that was built by the
    constructor and not yet flushed: it holds exactly the keyword arguments
    of the call.  [None] is a key that is not in the dictionary; column
    defaults ([default=0], [default='OK'], ...) are filled in by the INSERT,
    not by the constructor.  [id] is never passed. *)
Record SummaryAttrs := mk_SummaryAttrs {
  a_personnel_id : option Z;
  a_date : option date;
  a_shift_id : option (option Z);
  a_presence_duration : option Z;
  a_tardiness_duration : option Z;
  a_overtime_duration : option Z;
  a_undertime_duration : option Z;
  a_absent : option bool;
  a_status : option string;
  a_first_entry_time : option (option datetime);
  a_last_exit_time : option (option datetime);
  a_expected_work_duration : option Z;
  a_notes : option (option string)
}.

(** [dict.get(key, old)] for one attribute. *)
Definition attr_or {A} (a : option A) (old : A) : A :=
  match a with Some v => v | None => old end.

(** [for key, value in summary.__dict__.items(): if key != 'id' and not
    key.startswith('_'): setattr(existing, key, getattr(summary, key))] *)
Definition overlay (summary : SummaryAttrs) (existing : DailySummary) : DailySummary :=
  mk_DailySummary
    (ds_id existing)
    (attr_or (a_personnel_id summary) (ds_personnel_id existing))
    (attr_or (a_date summary) (ds_date existing))
    (attr_or (a_shift_id summary) (ds_shift_id existing))
    (attr_or (a_presence_duration summary) (ds_presence_duration existing))
    (attr_or (a_tardiness_duration summary) (ds_tardiness_duration existing))
    (attr_or (a_overtime_duration summary) (ds_overtime_duration existing))
    (attr_or (a_undertime_duration summary) (ds_undertime_duration existing))
    (attr_or (a_absent summary) (ds_absent existing))
    (attr_or (a_status summary) (ds_status existing))
    (attr_or (a_first_entry_time summary) (ds_first_entry_time existing))
    (attr_or (a_last_exit_time summary) (ds_last_exit_time existing))
    (attr_or (a_expected_work_duration summary) (ds_expected_work_duration existing))
    (attr_or (a_notes summary) (ds_notes existing)).

(** The row the INSERT of a new [DailySummary] writes: the attributes that
    were set, and the column default of models.py for the others. *)
Definition inserted_row (new_id : Z) (summary : SummaryAttrs) : DailySummary :=
  overlay summary
    (mk_DailySummary new_id 0 0 None 0 0 0 0 false "OK" None None 0 None).

(** ** The session *)

Inductive Exn := ZeroDivisionError | OverflowError.

Inductive result (A : Type) :=
| Ok (a : A)
| Raise (e : Exn).
Arguments Ok {A} a.
Arguments Raise {A} e.

Inductive LogLevel := WARNING | ERROR.

Inductive LogMessage :=
| NoWorkGroup (pid : Z)
    (* "Personnel {personnel.id} has no work group assigned" *)
| DayError (pid : Z) (d : date) (e : Exn)
    (* "Error processing personnel {personnel.id} on {current_date}: {e}" *)
| PersonnelError (pid : Z) (e : Exn)
    (* "Error processing personnel {personnel.id}: {e}" *).

Record DB := mk_DB {
  personnel_table : list Personnel;
  holidays : list Holiday;
  leave_requests : list LeaveRequest;
  mission_requests : list MissionRequest;
  work_group_shifts : list WorkGroupShift;
  attendance_logs : list AttendanceLog;
  daily_summaries : list DailySummary;
  logger : list (LogLevel * LogMessage)
}.

Definition set_attendance_logs (v : list AttendanceLog) (db : DB) : DB :=
  mk_DB (personnel_table db) (holidays db) (leave_requests db) (mission_requests db)
    (work_group_shifts db) v (daily_summaries db) (logger db).

Definition set_daily_summaries (v : list DailySummary) (db : DB) : DB :=
  mk_DB (personnel_table db) (holidays db) (leave_requests db) (mission_requests db)
    (work_group_shifts db) (attendance_logs db) v (logger db).

(** [logger.warning(...)] and [logger.error(...)] *)
Definition log_to (lvl : LogLevel) (msg : LogMessage) (db : DB) : DB :=
  mk_DB (personnel_table db) (holidays db) (leave_requests db) (mission_requests db)
    (work_group_shifts db) (attendance_logs db) (daily_summaries db)
    (logger db ++ [(lvl, msg)]).

(** [filter(DailySummary.personnel_id == pid, DailySummary.date == d)] *)
Definition summary_for (pid : Z) (d : date) (s : DailySummary) : bool :=
  (ds_personnel_id s =? pid) && (ds_date s =? d).

(** [self.db.query(DailySummary).filter(...).first()] *)
Definition existing_summary (db : DB) (pid : Z) (d : date) : option DailySummary :=
  find (summary_for pid d) (daily_summaries db).

(** Mutating the object that [.first()] returned: the first row that matches
    is replaced, the other rows stay. *)
Fixpoint update_first {A} (p : A -> bool) (f : A -> A) (l : list A) : list A :=
  match l with
  | [] => []
  | x :: rest => if p x then f x :: rest else x :: update_first p f rest
  end.

(** The next value of the autoincrement primary key. *)
Definition next_id (rows : list DailySummary) : Z :=
  1 + fold_right (fun s m => Z.max (ds_id s) m) 0 rows.

(** The tail shared by the five [_create_*_summary] methods: "Update
    existing or create new". *)
Definition upsert_summary (db : DB) (pid : Z) (d : date) (summary : SummaryAttrs) : DB :=
  match existing_summary db pid d with
  | Some _ =>
      set_daily_summaries
        (update_first (summary_for pid d) (overlay summary) (daily_summaries db)) db
  | None =>
      set_daily_summaries
        (daily_summaries db ++ [inserted_row (next_id (daily_summaries db)) summary]) db
  end.

Definition no_attrs : SummaryAttrs :=
  mk_SummaryAttrs None None None None None None None None None None None None None.

Definition _create_holiday_summary (db : DB) (personnel : Personnel) (target_date : date)
    (holiday : Holiday) : DB :=
  let summary :=
    mk_SummaryAttrs (Some (personnel_id personnel)) (Some target_date)
      None None None None None None
      (Some "Holiday")
      None None None
      (Some (Some ("Holiday: " ++ holiday_name holiday)%string)) in
  upsert_summary db (personnel_id personnel) target_date summary.

Definition _create_no_shift_summary (db : DB) (personnel : Personnel) (target_date : date)
    : DB :=
  let summary :=
    mk_SummaryAttrs (Some (personnel_id personnel)) (Some target_date)
      None None None None None None
      (Some "NoShift")
      None None None
      (Some (Some "No shift assigned for this day")) in
  upsert_summary db (personnel_id personnel) target_date summary.

Definition _create_or_update_daily_summary (db : DB) (personnel : Personnel)
    (target_date : date) (sh : Shift) (r : AttendanceResult) : DB :=
  let summary :=
    mk_SummaryAttrs (Some (personnel_id personnel)) (Some target_date)
      (Some (Some (shift_id sh)))
      (Some (presence_duration r))
      (Some (tardiness_duration r))
      (Some (overtime_duration r))
      (Some (undertime_duration r))
      (Some (absent r))
      (Some (status r))
      (Some (first_entry_time r))
      (Some (last_exit_time r))
      (Some (expected_work_duration r))
      (Some (notes r)) in
  upsert_summary db (personnel_id personnel) target_date summary.

(** [f"{n}"] for an [int]. *)
Definition str_of_int (n : Z) : string := NilZero.string_of_int (Z.to_int n).

(** [f"{s}"] for an optional string. *)
Definition str_of_opt (s : option string) : string :=
  match s with Some v => v | None => "None" end.

(** The duration, status and note the leave summary starts with. *)
Definition leave_duration_status_notes (leave_request : LeaveRequest)
    : Z * string * string :=
  match leave_is_hourly leave_request,
        leave_start_time leave_request, leave_end_time leave_request with
  | true, Some st, Some et =>
      let leave_duration := _time_diff_minutes st et in
      (leave_duration, "PartialLeave",
       ("Hourly leave: " ++ leave_type_name (leave_type leave_request)
          ++ " (" ++ str_of_int leave_duration ++ " minutes)")%string)
  | _, _, _ =>
      (480, "OnLeave",
       ("Daily leave: " ++ leave_type_name (leave_type leave_request))%string)
  end.

Definition _create_leave_summary (db : DB) (personnel : Personnel) (target_date : date)
    (leave_request : LeaveRequest) : DB :=
  let '(leave_duration, status, notes) := leave_duration_status_notes leave_request in
  let presence_duration :=
    if leave_counts_as_work (leave_type leave_request) then leave_duration else 0 in
  let summary :=
    mk_SummaryAttrs (Some (personnel_id personnel)) (Some target_date)
      None
      (Some presence_duration) (Some 0) (Some 0) (Some 0)
      (Some false)
      (Some status)
      None None
      (Some leave_duration)
      (Some (Some notes)) in
  upsert_summary db (personnel_id personnel) target_date summary.

Definition mission_duration_status_notes (mission_request : MissionRequest)
    : Z * string * string :=
  match mission_is_hourly mission_request,
        mission_start_time mission_request, mission_end_time mission_request with
  | true, Some st, Some et =>
      let mission_duration := _time_diff_minutes st et in
      (mission_duration, "PartialMission",
       ("Hourly mission: " ++ mission_type_name (mission_type mission_request)
          ++ " to " ++ str_of_opt (destination mission_request)
          ++ " (" ++ str_of_int mission_duration ++ " minutes)")%string)
  | _, _, _ =>
      (480, "OnMission",
       ("Daily mission: " ++ mission_type_name (mission_type mission_request)
          ++ " to " ++ str_of_opt (destination mission_request))%string)
  end.

Definition _create_mission_summary (db : DB) (personnel : Personnel) (target_date : date)
    (mission_request : MissionRequest) : DB :=
  let '(mission_duration, status, notes) := mission_duration_status_notes mission_request in
  let presence_duration :=
    if mission_counts_as_work (mission_type mission_request) then mission_duration else 0 in
  let summary :=
    mk_SummaryAttrs (Some (personnel_id personnel)) (Some target_date)
      None
      (Some presence_duration) (Some 0) (Some 0) (Some 0)
      (Some false)
      (Some status)
      None None
      (Some mission_duration)
      (Some (Some notes)) in
  upsert_summary db (personnel_id personnel) target_date summary.

(** ** One day *)

(** [days_diff % work_group.repetition_period_days + 1]: Python's [%] takes
    the sign of the divisor, as [Z.modulo] does, and raises on a zero
    divisor. *)
Definition day_of_cycle_for (wg : WorkGroup) (target_date : date) : result Z :=
  let days_diff := target_date - dt_date (wg_start_date wg) in
  if repetition_period_days wg =? 0 then Raise ZeroDivisionError
  else Ok (days_diff mod repetition_period_days wg + 1).

Definition _get_shift_for_date (db : DB) (wg : WorkGroup) (target_date : date)
    : result (option Shift) :=
  match day_of_cycle_for wg target_date with
  | Raise e => Raise e
  | Ok doc =>
      let assignment :=
        find (fun a => (wgs_work_group_id a =? work_group_id wg) && (day_of_cycle a =? doc))
             (work_group_shifts db) in
      Ok (match assignment with Some a => Some (shift a) | None => None end)
  end.

(** [order_by(AttendanceLog.timestamp)]: rows with equal timestamps keep
    their table order. *)
Fixpoint insert_by_timestamp (x : AttendanceLog) (l : list AttendanceLog)
    : list AttendanceLog :=
  match l with
  | [] => [x]
  | y :: rest =>
      if dt_ltb (timestamp x) (timestamp y) then x :: l
      else y :: insert_by_timestamp x rest
  end.

Definition order_by_timestamp (l : list AttendanceLog) : list AttendanceLog :=
  fold_left (fun sorted x => insert_by_timestamp x sorted) l [].

Definition in_day (pid : Z) (target_date : date) (l : AttendanceLog) : bool :=
  let start_datetime := combine target_date time_min in
  let end_datetime := combine target_date time_max in
  (log_personnel_id l =? pid)
  && dt_leb start_datetime (timestamp l)
  && dt_leb (timestamp l) end_datetime.

Definition _get_day_logs (db : DB) (pid : Z) (target_date : date) : list AttendanceLog :=
  order_by_timestamp (filter (in_day pid target_date) (attendance_logs db)).

Definition set_is_processed (v : bool) (l : AttendanceLog) : AttendanceLog :=
  mk_AttendanceLog (log_id l) (log_personnel_id l) (timestamp l) (device_id l)
    (log_type l) v.

(** [for log in logs: log.is_processed = True]: the fetched objects are the
    rows of the table, found again here by primary key. *)
Definition mark_processed (logs : list AttendanceLog) (table : list AttendanceLog)
    : list AttendanceLog :=
  map (fun row =>
         if existsb (fun l => log_id l =? log_id row) logs
         then set_is_processed true row else row)
      table.

Definition holiday_on (db : DB) (cal : Calendar) (target_date : date) : option Holiday :=
  find (fun h => (holiday_calendar_id h =? calendar_id cal)
                 && (holiday_date h =? target_date))
       (holidays db).

Definition approved_leave_on (db : DB) (pid : Z) (target_date : date)
    : option LeaveRequest :=
  find (fun r => (leave_personnel_id r =? pid)
                 && String.eqb (leave_status r) "approved"
                 && (leave_start_date r <=? target_date)
                 && (target_date <=? leave_end_date r))
       (leave_requests db).

Definition approved_mission_on (db : DB) (pid : Z) (target_date : date)
    : option MissionRequest :=
  find (fun r => (mission_personnel_id r =? pid)
                 && String.eqb (mission_status r) "approved"
                 && (mission_start_date r <=? target_date)
                 && (target_date <=? mission_end_date r))
       (mission_requests db).

Definition _process_personnel_day (db : DB) (personnel : Personnel) (wg : WorkGroup)
    (cal : Calendar) (target_date : date) : result DB :=
  match holiday_on db cal target_date with
  | Some holiday => Ok (_create_holiday_summary db personnel target_date holiday)
  | None =>
  match approved_leave_on db (personnel_id personnel) target_date with
  | Some leave_request => Ok (_create_leave_summary db personnel target_date leave_request)
  | None =>
  match approved_mission_on db (personnel_id personnel) target_date with
  | Some mission_request =>
      Ok (_create_mission_summary db personnel target_date mission_request)
  | None =>
  match _get_shift_for_date db wg target_date with
  | Raise e => Raise e
  | Ok None => Ok (_create_no_shift_summary db personnel target_date)
  | Ok (Some sh) =>
      let logs := _get_day_logs db (personnel_id personnel) target_date in
      let r := _calculate_attendance_times logs sh target_date in
      let db := _create_or_update_daily_summary db personnel target_date sh r in
      let db := set_attendance_logs (mark_processed logs (attendance_logs db)) db in
      Ok db
  end end end end.

(** ** The batch *)

Record AttendanceProcessingRequest := mk_Request {
  req_start_date : date;
  req_end_date : date;
  personnel_ids : option (list Z);
  force_reprocess : bool
}.

Record AttendanceProcessingResponse := mk_Response {
  processed_days : Z;
  processed_personnel : Z;
  errors : list string;
  warnings : list string
}.

(** [date.max], 9999-12-31, as a proleptic Gregorian ordinal. *)
Definition date_max : date := 3652059.

(** [current_date + timedelta(days=1)]: [date.__add__] raises
    [OverflowError("date value out of range")] past [date.max]. *)
Definition tomorrow (current_date : date) : result date :=
  if current_date <? date_max then Ok (current_date + 1) else Raise OverflowError.

(** [str(e)].  Of the two exceptions only [OverflowError] reaches the
    [except] of [process_attendance] that formats it: a [ZeroDivisionError]
    is caught by the per-day [except], whose log record stays structured. *)
Definition str_of_exn (e : Exn) : string :=
  match e with
  | OverflowError => "date value out of range"
  | ZeroDivisionError => "integer division or modulo by zero"
  end.

(** The body of the [while] loop of [_process_personnel_attendance] for one
    [current_date]: the [try] block and its [except], up to the increments
    of [current_date], which [date_loop] performs. *)
Definition process_date (db : DB) (personnel : Personnel) (wg : WorkGroup) (cal : Calendar)
    (current_date : date) (force : bool) (processed_days : Z) : Z * DB :=
  if current_date <? dt_date (start_date personnel) then (processed_days, db)
  else if match end_date personnel with
          | Some e => dt_date e <? current_date
          | None => false
          end then (processed_days, db)
  else
    match existing_summary db (personnel_id personnel) current_date, force with
    | Some _, false => (processed_days, db)
    | _, _ =>
        match _process_personnel_day db personnel wg cal current_date with
        | Ok db' => (processed_days + 1, db')
        | Raise e =>
            (processed_days,
             log_to ERROR (DayError (personnel_id personnel) current_date e) db)
        end
    end.

(** Whether the [try] block for [current_date] takes one of its three
    [continue] branches (l.96-98, l.101-103, l.111-113), each of which
    increments [current_date] itself, inside the [try]. *)
Definition continues (db : DB) (personnel : Personnel) (current_date : date)
    (force : bool) : bool :=
  if current_date <? dt_date (start_date personnel) then true
  else if match end_date personnel with
          | Some e => dt_date e <? current_date
          | None => false
          end then true
  else
    match existing_summary db (personnel_id personnel) current_date, force with
    | Some _, false => true
    | _, _ => false
    end.

(** [while current_date <= end_date: ...; current_date += timedelta(days=1)].
    The session is returned in both outcomes: what the loop wrote before an
    exception left it stays written.  At [date.max] the increment raises.
    In a [continue] branch it does so inside the [try]: the [except] of
    l.119 logs it, and the increment of l.122 raises again, outside the
    [try]; in the other branches only the increment of l.122 is reached.
    The count of the days processed so far is lost with the frame. *)
Fixpoint date_loop (fuel : nat) (db : DB) (personnel : Personnel) (wg : WorkGroup)
    (cal : Calendar) (current_date end_date : date) (force : bool) (processed_days : Z)
    : result Z * DB :=
  match fuel with
  | O => (Ok processed_days, db)
  | S fuel' =>
      if current_date <=? end_date then
        let continued := continues db personnel current_date force in
        let '(processed_days, db) :=
          process_date db personnel wg cal current_date force processed_days in
        match tomorrow current_date with
        | Ok current_date =>
            date_loop fuel' db personnel wg cal current_date end_date force processed_days
        | Raise e =>
            (Raise e,
             if continued
             then log_to ERROR (DayError (personnel_id personnel) current_date e) db
             else db)
        end
      else (Ok processed_days, db)
  end.

(** One turn of the same loop with the increments where the source has
    them.  [increment_in_try] is [current_date += timedelta(days=1);
    continue] inside the [try]: the new date and a jump to the loop guard,
    or, when the increment raises, the log record of the [except] and no
    new date. *)
Definition increment_in_try (db : DB) (personnel : Personnel) (current_date : date)
    (processed_days : Z) : option date * Z * DB :=
  match tomorrow current_date with
  | Ok current_date => (Some current_date, processed_days, db)
  | Raise e =>
      (None, processed_days,
       log_to ERROR (DayError (personnel_id personnel) current_date e) db)
  end.

Definition try_block (db : DB) (personnel : Personnel) (wg : WorkGroup) (cal : Calendar)
    (current_date : date) (force : bool) (processed_days : Z) : option date * Z * DB :=
  if current_date <? dt_date (start_date personnel)
  then increment_in_try db personnel current_date processed_days
  else if match end_date personnel with
          | Some e => dt_date e <? current_date
          | None => false
          end
  then increment_in_try db personnel current_date processed_days
  else
    match existing_summary db (personnel_id personnel) current_date, force with
    | Some _, false => increment_in_try db personnel current_date processed_days
    | _, _ =>
        match _process_personnel_day db personnel wg cal current_date with
        | Ok db' => (None, processed_days + 1, db')
        | Raise e =>
            (None, processed_days,
             log_to ERROR (DayError (personnel_id personnel) current_date e) db)
        end
    end.

(** The [try] statement, then the increment of l.122 unless a [continue]
    was taken: the next date and the count, or the exception that leaves
    the function. *)
Definition loop_turn (db : DB) (personnel : Personnel) (wg : WorkGroup) (cal : Calendar)
    (current_date : date) (force : bool) (processed_days : Z) : result (date * Z) * DB :=
  match try_block db personnel wg cal current_date force processed_days with
  | (Some current_date, processed_days, db) => (Ok (current_date, processed_days), db)
  | (None, processed_days, db) =>
      match tomorrow current_date with
      | Ok current_date => (Ok (current_date, processed_days), db)
      | Raise e => (Raise e, db)
      end
  end.

(** The number of dates in [start_date .. end_date]. *)
Definition days_in_range (start_date end_date : date) : nat :=
  Z.to_nat (end_date - start_date + 1).

Definition _process_personnel_attendance (db : DB) (personnel : Personnel)
    (start_date end_date : date) (force_reprocess : bool) : result Z * DB :=
  match work_group personnel with
  | None => (Ok 0, log_to WARNING (NoWorkGroup (personnel_id personnel)) db)
  | Some wg =>
      date_loop (days_in_range start_date end_date) db personnel wg (calendar wg)
        start_date end_date force_reprocess 0
  end.

(** The personnel query of [process_attendance]. *)
Definition select_personnel (db : DB) (request : AttendanceProcessingRequest)
    : list Personnel :=
  match personnel_ids request with
  | Some (i :: ids) =>
      filter (fun p => existsb (Z.eqb (personnel_id p)) (i :: ids) && is_active p)
             (personnel_table db)
  | _ => filter is_active (personnel_table db)
  end.

(** The text of the per-person [except] of [process_attendance] (l.55-57). *)
Definition personnel_error_text (personnel : Personnel) (e : Exn) : string :=
  "Error processing personnel " ++ str_of_int (personnel_id personnel) ++ ": "
  ++ str_of_exn e.

(** [for personnel in personnel_list: try: processed_days += ...
    except Exception as e: logger.error(...); errors.append(...)]. *)
Fixpoint personnel_loop (db : DB) (personnel_list : list Personnel)
    (request : AttendanceProcessingRequest) (processed_days : Z) (errors : list string)
    : Z * list string * DB :=
  match personnel_list with
  | [] => (processed_days, errors, db)
  | personnel :: rest =>
      match _process_personnel_attendance db personnel (req_start_date request)
              (req_end_date request) (force_reprocess request) with
      | (Ok days_processed, db) =>
          personnel_loop db rest request (processed_days + days_processed) errors
      | (Raise e, db) =>
          let db := log_to ERROR (PersonnelError (personnel_id personnel) e) db in
          let errors := (errors ++ [personnel_error_text personnel e])%list in
          personnel_loop db rest request processed_days errors
      end
  end.

(** The outer [except] of l.66-74 has no counterpart: inside its [try],
    whatever raises does so within the per-person [try] of l.50. *)
Definition process_attendance (db : DB) (request : AttendanceProcessingRequest)
    : AttendanceProcessingResponse * DB :=
  let errors : list string := [] in
  let warnings : list string := [] in
  let personnel_list := select_personnel db request in
  match personnel_list with
  | [] =>
      let errors := (errors ++ ["No active personnel found for processing"])%list in
      (mk_Response 0 0 errors warnings, db)
  | _ =>
      let processed_personnel := Z.of_nat (length personnel_list) in
      let '(processed_days, errors, db) :=
        personnel_loop db personnel_list request 0 errors in
      (mk_Response processed_days processed_personnel errors warnings, db)
  end.

(** Whether the loop over the dates gets as far as [date.max]. *)
Definition reaches_date_max (request : AttendanceProcessingRequest) : bool :=
  (req_start_date request <=? req_end_date request)
  && (date_max <=? req_end_date request).

Definition has_work_group (personnel : Personnel) : bool :=
  match work_group personnel with
  | Some _ => true
  | None => false
  end.

(** The [errors] of a run whose range reaches [date.max]. *)
Definition overflow_errors (request : AttendanceProcessingRequest)
    (personnel_list : list Personnel) : list string :=
  map (fun p => personnel_error_text p OverflowError)
      (filter (fun p => has_work_group p && reaches_date_max request) personnel_list).

(** The last two dates there are, for a person with a work group and one
    without. *)
Definition last_two_days : AttendanceProcessingRequest :=
  mk_Request (date_max - 1) date_max None false.

Definition last_days_db : DB :=
  mk_DB [mk_Personnel 1 (mk_datetime 1 0) None
           (Some (mk_WorkGroup 1 7 (mk_Calendar 1 "Official") (mk_datetime 1 0))) true;
         mk_Personnel 2 (mk_datetime 1 0) None None true]
    [] [] [] [] [] [] [].

(** A person who left on day 50. *)
Definition leaver : Personnel :=
  mk_Personnel 5 (mk_datetime 1 0) (Some (mk_datetime 50 0))
    (Some (mk_WorkGroup 1 7 (mk_Calendar 1 "Official") (mk_datetime 1 0))) true.

(** The dates the loop over [cur .. stop] reaches: those of the range up
    to [date.max], where the increment raises. *)
Definition reached (cur stop d : date) : Prop :=
  cur <= d <= stop /\ d <= Z.max cur date_max.

(** What a call that counted no day hands to the loop over the personnel:
    the count it started from, or an exception. *)
Definition counts_nothing (n : Z) (r : result Z) : Prop :=
  r = Ok n \/ exists e, r = Raise e.

(** The duration of an interval as the specification words it: an end
    earlier than the start is moved 24 hours on before differencing. *)
Definition interval_minutes (s e : time) : Z :=
  if e <? s then (e + usec_per_day - s) ÷ usec_per_minute
  else (e - s) ÷ usec_per_minute.

Definition valid_shift (sh : Shift) : Prop :=
  valid_time (start_time_1 sh) /\ valid_time (end_time_1 sh)
  /\ (forall t, start_time_2 sh = Some t -> valid_time t)
  /\ (forall t, end_time_2 sh = Some t -> valid_time t).

(** ** Data for the examples *)

Definition three_punches : list AttendanceLog :=
  [punch 1 100 9 0; punch 2 100 12 0; punch 3 100 13 0].

Definition weekly_group : WorkGroup :=
  mk_WorkGroup 1 7 (mk_Calendar 1 "Official") (mk_datetime 100 0).

Definition worker : Personnel :=
  mk_Personnel 1 (mk_datetime 0 0) None (Some weekly_group) true.

Definition nowruz : Holiday := mk_Holiday 1 100 "Nowruz" 1.

(** The summary of a worked day: 480 minutes present, 5 minutes late. *)
Definition worked_summary : DailySummary :=
  mk_DailySummary 7 1 100 (Some 1) 480 5 0 0 false "OK"
    (Some (mk_datetime 100 (hm 8 20))) (Some (mk_datetime 100 (hm 16 20))) 480 None.

Definition annual_leave : LeaveType := mk_LeaveType "Annual" true.
Definition unpaid_leave : LeaveType := mk_LeaveType "Unpaid" false.

Definition hourly_unpaid : LeaveRequest :=
  mk_LeaveRequest 1 unpaid_leave 100 100 (Some (hm 9 0)) (Some (hm 11 0)) true "approved".

Definition full_day_leave : LeaveRequest :=
  mk_LeaveRequest 1 annual_leave 100 100 None None false "approved".

(** A worked day that is then entered as a holiday, with a leave request
    approved for the same date. *)
Definition worked_db : DB :=
  mk_DB [worker] [nowruz] [full_day_leave] [] [] [] [worked_summary] [].

Definition empty_db : DB := mk_DB [] [] [] [] [] [] [] [].

(** The duration of a leave as the specification words it. *)
Definition leave_minutes (leave_request : LeaveRequest) : Z :=
  match leave_is_hourly leave_request,
        leave_start_time leave_request, leave_end_time leave_request with
  | true, Some st, Some et => _time_diff_minutes st et
  | _, _, _ => 480
  end.

Definition leave_label (leave_request : LeaveRequest) : string :=
  match leave_is_hourly leave_request,
        leave_start_time leave_request, leave_end_time leave_request with
  | true, Some _, Some _ => "PartialLeave"
  | _, _, _ => "OnLeave"
  end.

(** The statuses written by the branches that return before the punches
    are fetched. *)
Definition early_statuses : list string :=
  ["Holiday"; "OnLeave"; "PartialLeave"; "OnMission"; "PartialMission"; "NoShift"].

(** A day with one punch and a shift on every day of a one-day cycle. *)
Definition daily_group : WorkGroup :=
  mk_WorkGroup 2 1 (mk_Calendar 1 "Official") (mk_datetime 0 0).

Definition punched_db : DB :=
  mk_DB [] [nowruz] [] [] [mk_WorkGroupShift 2 1 standard_shift]
    [punch 1 100 8 20; punch 2 101 8 0] [] [].

(** ** Relations between two states of the session *)

(** The tables that the processor only reads are the same. *)
Definition static_eq (db db' : DB) : Prop :=
  personnel_table db' = personnel_table db
  /\ holidays db' = holidays db
  /\ leave_requests db' = leave_requests db
  /\ mission_requests db' = mission_requests db
  /\ work_group_shifts db' = work_group_shifts db.

(** [db'] comes after [db] in a run: the read-only tables are the same, the
    log has only grown, and without [force_reprocess] the summaries have
    only been added to. *)
Definition follows (force : bool) (db db' : DB) : Prop :=
  static_eq db db'
  /\ (exists msgs, logger db' = (logger db ++ msgs)%list)
  /\ (force = false ->
      exists rows, daily_summaries db' = (daily_summaries db ++ rows)%list).

(** Nothing but the log differs. *)
Definition quiet (db db' : DB) : Prop :=
  static_eq db db'
  /\ daily_summaries db' = daily_summaries db
  /\ attendance_logs db' = attendance_logs db.

(** The date is outside the employment window of the person. *)
Definition outside_window (personnel : Personnel) (d : date) : bool :=
  (d <? dt_date (start_date personnel))
  || match end_date personnel with
     | Some e => dt_date e <? d
     | None => false
     end.

(** A date that a run without [force_reprocess] passes over: outside the
    employment window, already summarised, or failing on its own. *)
Definition settled (db : DB) (personnel : Personnel) (wg : WorkGroup) (d : date) : Prop :=
  outside_window personnel d = true
  \/ existing_summary db (personnel_id personnel) d <> None
  \/ exists e, _process_personnel_day db personnel wg (calendar wg) d = Raise e.

Definition unassigned : Personnel := mk_Personnel 2 (mk_datetime 0 0) None None true.

Definition unassigned_db : DB := mk_DB [unassigned] [] [] [] [] [] [] [].

Definition three_days : AttendanceProcessingRequest := mk_Request 100 102 None false.

(** A person on a weekly cycle that starts on day 100, with a shift on the
    second day of the cycle only, a holiday on day 100 and two punches on
    day 101; and a person without a work group. *)
Definition office_db : DB :=
  mk_DB [worker; unassigned] [nowruz] [] []
    [mk_WorkGroupShift 1 2 standard_shift]
    [punch 1 101 8 0; punch 2 101 16 0] [] [].

(** ** Chronological punch lists *)

(** A [datetime] as a count of microseconds. *)
Definition abs_usec (t : datetime) : Z := dt_date t * usec_per_day + dt_time t.

Definition ts_le (a b : AttendanceLog) : Prop :=
  abs_usec (timestamp a) <= abs_usec (timestamp b).

(** The punches are in the order of their timestamps. *)
Definition chronological (logs : list AttendanceLog) : Prop :=
  StronglySorted ts_le logs.

(** [shift.end_time_2 if shift.end_time_2 else shift.end_time_1] *)
Definition expected_end_of (sh : Shift) : time :=
  match end_time_2 sh with
  | Some e2 => e2
  | None => end_time_1 sh
  end.

(** The punch is stamped on date [d]. *)
Definition on_day (d : date) (l : AttendanceLog) : Prop := dt_date (timestamp l) = d.

(** The key of a summary: person and date. *)
Definition summary_key (s : DailySummary) : Z * date :=
  (ds_personnel_id s, ds_date s).

(** At most one summary per person and date. *)
Definition one_summary_per_day (db : DB) : Prop :=
  NoDup (map summary_key (daily_summaries db)).

(** The same punch, up to the [is_processed] flag, which may have been set
    but not cleared. *)
Definition same_punch (before after : AttendanceLog) : Prop :=
  log_id after = log_id before
  /\ log_personnel_id after = log_personnel_id before
  /\ timestamp after = timestamp before
  /\ device_id after = device_id before
  /\ log_type after = log_type before
  /\ (is_processed before = true -> is_processed after = true).

Definition punches_kept (db0 db : DB) : Prop :=
  Forall2 same_punch (attendance_logs db0) (attendance_logs db).

(** The day reaches the punches: no holiday, no approved leave, no approved
    mission, and the cycle gives shift [sh]. *)
Definition punch_path (db : DB) (personnel : Personnel) (wg : WorkGroup) (cal : Calendar)
    (d : date) (sh : Shift) : Prop :=
  holiday_on db cal d = None
  /\ approved_leave_on db (personnel_id personnel) d = None
  /\ approved_mission_on db (personnel_id personnel) d = None
  /\ _get_shift_for_date db wg d = Ok (Some sh).

(** The duration and the label of a mission, as for a leave. *)
Definition mission_minutes (mission_request : MissionRequest) : Z :=
  match mission_is_hourly mission_request,
        mission_start_time mission_request, mission_end_time mission_request with
  | true, Some st, Some et => _time_diff_minutes st et
  | _, _, _ => 480
  end.

Definition mission_label (mission_request : MissionRequest) : string :=
  match mission_is_hourly mission_request,
        mission_start_time mission_request, mission_end_time mission_request with
  | true, Some _, Some _ => "PartialMission"
  | _, _, _ => "OnMission"
  end.

Definition forced_three_days : AttendanceProcessingRequest := mk_Request 100 102 None true.

Definition site_visit : MissionRequest :=
  mk_MissionRequest 1 (mk_MissionType "Site" true) 101 101 None None false "approved" None.

(** An hourly mission from 13:00 to 15:45. *)
Definition afternoon_visit : MissionRequest :=
  mk_MissionRequest 1 (mk_MissionType "Site" true) 101 101
    (Some (hm 13 0)) (Some (hm 15 45)) true "approved" (Some "Plant").

(** The office with an approved leave and an approved mission on day 101. *)
Definition busy_db : DB :=
  mk_DB [worker] [nowruz]
    [mk_LeaveRequest 1 unpaid_leave 101 101 None None false "approved"]
    [site_visit]
    [mk_WorkGroupShift 1 2 standard_shift]
    [punch 1 101 8 0; punch 2 101 16 0] [] [].

(** The request that the status endpoints of the leave and mission routers
    build when a request is approved (leave_requests.py, lines 215-220). *)
Definition approval_reprocessing (pid : Z) (first_day last_day : date)
    : AttendanceProcessingRequest :=
  mk_Request first_day last_day (Some [pid]) true.

(** The statuses of a day that an approved leave covers. *)
Definition leave_day_statuses : list string := ["Holiday"; "OnLeave"; "PartialLeave"].

(** The summary of person [pid] on date [d] has one of the [statuses]. *)
Definition summarised_as (statuses : list string) (pid : Z) (d : date) (db : DB) : Prop :=
  exists s, existing_summary db pid d = Some s /\ In (ds_status s) statuses.

(** A person hired on day 200. *)
Definition newcomer : Personnel :=
  mk_Personnel 3 (mk_datetime 200 0) None (Some weekly_group) true.

(** The office with a leave of the worker approved for days 101 to 102. *)
Definition leave_db : DB :=
  mk_DB [worker] [nowruz]
    [mk_LeaveRequest 1 annual_leave 101 102 None None false "approved"] []
    [mk_WorkGroupShift 1 2 standard_shift]
    [punch 1 101 8 0; punch 2 101 16 0] [] [].

(** ** The callers of the processor (routers) *)

(** What an endpoint gives back: its return value, or the [HTTPException]
    it raises, with the exception it reports when there is one. *)
Inductive HTTP (A : Type) :=
| Returns (a : A)
| HTTPException (status_code : Z) (detail : string) (cause : option Exn).
Arguments Returns {A} a.
Arguments HTTPException {A} status_code detail cause.

Definition set_leave_requests (v : list LeaveRequest) (db : DB) : DB :=
  mk_DB (personnel_table db) (holidays db) v (mission_requests db)
    (work_group_shifts db) (attendance_logs db) (daily_summaries db) (logger db).

(** The body of a [POST /leave-requests/] (schemas.py, [LeaveRequestCreate]);
    the requester's notes play no part. *)
Record LeaveRequestCreate := mk_LeaveRequestCreate {
  new_personnel_id : Z;
  new_leave_type_id : Z;
  new_start_date : date;
  new_end_date : date;
  new_start_time : option time;
  new_end_time : option time;
  new_is_hourly : bool
}.

(** [LeaveRequest.status.in_(['pending', 'approved'])] *)
Definition pending_or_approved (r : LeaveRequest) : bool :=
  String.eqb (leave_status r) "pending" || String.eqb (leave_status r) "approved".

(** [create_leave_request] of routers/leave_requests.py.  [leave_types] is
    the table of leave types, each row with its id.  The new row gets the
    column default ['pending'] as its status. *)
Definition create_leave_request (leave_types : list (Z * LeaveType)) (db : DB)
    (leave_request : LeaveRequestCreate) : HTTP (LeaveRequest * DB) :=
  match find (fun p => personnel_id p =? new_personnel_id leave_request)
             (personnel_table db) with
  | None => HTTPException 404 "Personnel not found" None
  | Some _ =>
  match find (fun t => fst t =? new_leave_type_id leave_request) leave_types with
  | None => HTTPException 404 "Leave type not found" None
  | Some (_, leave_type) =>
  if new_end_date leave_request <? new_start_date leave_request then
    HTTPException 400 "Start date cannot be after end date" None
  else
  match
    (if new_is_hourly leave_request then
       match new_start_time leave_request, new_end_time leave_request with
       | Some st, Some et =>
           if et <=? st then Some "Start time cannot be after end time" else None
       | _, _ => Some "Start and end times are required for hourly leaves"
       end
     else None)
  with
  | Some detail => HTTPException 400 detail None
  | None =>
  let existing_request :=
    find (fun r => (leave_personnel_id r =? new_personnel_id leave_request)
                   && pending_or_approved r
                   && (leave_start_date r <=? new_end_date leave_request)
                   && (new_start_date leave_request <=? leave_end_date r))
         (leave_requests db) in
  match existing_request with
  | Some _ => HTTPException 400 "Overlapping leave request exists" None
  | None =>
      let db_leave_request :=
        mk_LeaveRequest (new_personnel_id leave_request) leave_type
          (new_start_date leave_request) (new_end_date leave_request)
          (new_start_time leave_request) (new_end_time leave_request)
          (new_is_hourly leave_request) "pending" in
      Returns (db_leave_request,
               set_leave_requests (leave_requests db ++ [db_leave_request])%list db)
  end end end end.

(** [reprocess_daily_summary] of routers/daily_summary.py. *)
Definition reprocess_daily_summary (db : DB) (pid : Z) (target_date : date) : HTTP DB :=
  match find (fun p => personnel_id p =? pid) (personnel_table db) with
  | None => HTTPException 404 "Personnel not found" None
  | Some personnel =>
      match work_group personnel with
      | None => HTTPException 400 "Personnel has no work group assigned" None
      | Some wg =>
          match _process_personnel_day db personnel wg (calendar wg) target_date with
          | Ok db' => Returns db'
          | Raise e => HTTPException 500 "Error reprocessing daily summary: " (Some e)
          end
      end
  end.

(** Two leave requests of one person that are pending or approved do not
    share a date. *)
Definition disjoint_leaves (a b : LeaveRequest) : Prop :=
  leave_personnel_id a = leave_personnel_id b ->
  pending_or_approved a = true -> pending_or_approved b = true ->
  leave_end_date a < leave_start_date b \/ leave_end_date b < leave_start_date a.

Definition no_overlapping_leaves (db : DB) : Prop :=
  ForallOrdPairs disjoint_leaves (leave_requests db).

Definition leave_type_table : list (Z * LeaveType) :=
  [(1, annual_leave); (2, unpaid_leave)].

Definition hourly_request : LeaveRequestCreate :=
  mk_LeaveRequestCreate 1 2 110 110 (Some (hm 9 0)) (Some (hm 11 0)) true.

(** The office, with the newcomer and a person who has left. *)
Definition staff_db : DB :=
  mk_DB [worker; newcomer; mk_Personnel 4 (mk_datetime 0 0) None (Some weekly_group) false]
    [nowruz] [] [] [mk_WorkGroupShift 1 2 standard_shift] [] [] [].

(** What [for log in logs: log.is_processed = True] does to one row of the
    table. *)
Definition flag_if_fetched (logs : list AttendanceLog) (row : AttendanceLog)
    : AttendanceLog :=
  if existsb (fun l => log_id l =? log_id row) logs
  then set_is_processed true row else row.

(** * Properties *)

(** ** Time differences *)

Section TimeDiff.

Lemma dt_ltb_combine (d : date) (a b : time) :
  dt_ltb (combine d a) (combine d b) = (a <? b).
Proof.
  unfold dt_ltb, combine; simpl.
  rewrite Z.ltb_irrefl, Z.eqb_refl. reflexivity.
Qed.

(** The day on which [date.today()] is evaluated does not matter. *)
Lemma time_diff_today (today : date) (s e : time) :
  _time_diff_minutes_on today s e = _time_diff_minutes s e.
Proof.
  unfold _time_diff_minutes, _time_diff_minutes_on.
  rewrite !dt_ltb_combine.
  destruct (e <? s); unfold dt_sub, dt_add_days, combine;
    cbn [dt_date dt_time]; f_equal; lia.
Qed.

Lemma time_diff_forward (s e : time) :
  s <= e -> _time_diff_minutes s e = (e - s) ÷ usec_per_minute.
Proof.
  intros Hle. unfold _time_diff_minutes, _time_diff_minutes_on.
  rewrite dt_ltb_combine.
  destruct (Z.ltb_spec e s) as [Hlt|_]; [lia|].
  unfold int_minutes, dt_sub, combine; cbn [dt_date dt_time]. f_equal; lia.
Qed.

Lemma time_diff_wrap (s e : time) :
  e < s -> _time_diff_minutes s e = (e + usec_per_day - s) ÷ usec_per_minute.
Proof.
  intros Hlt. unfold _time_diff_minutes, _time_diff_minutes_on.
  rewrite dt_ltb_combine.
  destruct (Z.ltb_spec e s) as [_|Hge]; [|lia].
  unfold int_minutes, dt_sub, dt_add_days, combine; cbn [dt_date dt_time].
  f_equal; lia.
Qed.

Lemma time_diff_interval (s e : time) :
  _time_diff_minutes s e = interval_minutes s e.
Proof.
  unfold interval_minutes.
  destruct (Z.ltb_spec e s).
  - now apply time_diff_wrap.
  - now apply time_diff_forward.
Qed.

Lemma interval_minutes_bounds (s e : time) :
  valid_time s -> valid_time e -> 0 <= interval_minutes s e < 1440.
Proof.
  unfold valid_time, interval_minutes, usec_per_day, usec_per_minute.
  intros Hs He.
  destruct (Z.ltb_spec e s).
  - split.
    + apply Z.quot_pos; lia.
    + apply Z.quot_lt_upper_bound; lia.
  - split.
    + apply Z.quot_pos; lia.
    + apply Z.quot_lt_upper_bound; lia.
Qed.

End TimeDiff.

(** ** Pairing by position *)

Section Pairing.

Lemma pair_loop_positions (fuel : nat) :
  forall (rest pre : list AttendanceLog) acc,
    (length rest <= fuel)%nat ->
    pair_loop fuel (pre ++ rest) (length pre) acc = (acc ++ pairs_by_position rest)%list.
Proof.
  induction fuel as [|fuel IH]; intros rest pre acc Hlen.
  - destruct rest; [|simpl in Hlen; lia].
    simpl. now rewrite app_nil_r.
  - destruct rest as [|entry [|exit rest]].
    + simpl. rewrite !app_nil_r.
      destruct (Z.ltb_spec (Z.of_nat (length pre)) (Z.of_nat (length pre) - 1)); [lia|].
      reflexivity.
    + simpl. rewrite length_app. simpl.
      destruct (Z.ltb_spec (Z.of_nat (length pre))
                  (Z.of_nat (length pre + 1) - 1)); [lia|].
      now rewrite app_nil_r.
    + cbn [pair_loop pairs_by_position].
      rewrite length_app. cbn [length].
      destruct (Z.ltb_spec (Z.of_nat (length pre))
                  (Z.of_nat (length pre + S (S (length rest))) - 1)) as [_|Hge]; [|lia].
      rewrite nth_error_app2 by lia.
      replace (length pre - length pre)%nat with 0%nat by lia. cbn [nth_error].
      rewrite nth_error_app2 by lia.
      replace (length pre + 1 - length pre)%nat with 1%nat by lia. cbn [nth_error].
      replace (pre ++ entry :: exit :: rest)%list
        with ((pre ++ [entry; exit]) ++ rest)%list
        by (rewrite <- app_assoc; reflexivity).
      replace (length pre + 2)%nat with (length (pre ++ [entry; exit])%list)
        by (rewrite length_app; reflexivity).
      rewrite IH by (simpl in Hlen; lia).
      rewrite <- app_assoc. reflexivity.
Qed.

(** The loop of [_pair_logs] computes the positional pairing. *)
Lemma pair_logs_positions (logs : list AttendanceLog) :
  _pair_logs logs = pairs_by_position logs.
Proof.
  unfold _pair_logs.
  exact (pair_loop_positions (length logs) logs [] [] (le_n _)).
Qed.

(** Induction two elements at a time. *)
Lemma list_pair_ind {A} (P : list A -> Prop) :
  P [] -> (forall a, P [a]) -> (forall a b l, P l -> P (a :: b :: l)) ->
  forall l, P l.
Proof.
  intros H0 H1 H2.
  fix rec 1.
  intros [|a [|b l]]; [exact H0 | exact (H1 a) | exact (H2 a b l (rec l))].
Qed.

Lemma odd_length_SS {A} (a b : A) (l : list A) :
  Nat.odd (length (a :: b :: l)) = Nat.odd (length l).
Proof. reflexivity. Qed.

(** With an odd number of punches the last one takes no part in a pair. *)
Lemma pairs_drop_trailing (logs : list AttendanceLog) :
  Nat.odd (length logs) = true ->
  pairs_by_position logs = pairs_by_position (removelast logs).
Proof.
  induction logs as [| a | a b l IH] using list_pair_ind; intros Hodd.
  - discriminate.
  - reflexivity.
  - rewrite odd_length_SS in Hodd.
    destruct l as [|c l]; [discriminate|].
    change (removelast (a :: b :: c :: l)) with (a :: b :: removelast (c :: l)).
    cbn [pairs_by_position]. f_equal. now apply IH.
Qed.

Lemma odd_mod2 (n : nat) :
  Nat.odd n = true -> negb (Nat.eqb (Nat.modulo n 2) 0) = true.
Proof.
  intros H. apply Nat.odd_spec in H. destruct H as [k ->].
  replace (2 * k + 1)%nat with (1 + k * 2)%nat by lia.
  rewrite Nat.Div0.mod_add. reflexivity.
Qed.

End Pairing.

(** ** The calculator, field by field *)

Ltac unfold_setters :=
  unfold set_first_entry_time, set_last_exit_time, set_presence_duration,
    set_tardiness_duration, set_overtime_duration, set_undertime_duration,
    set_absent, set_status, set_expected_work_duration, set_notes.

Ltac project :=
  cbn [first_entry_time last_exit_time presence_duration tardiness_duration
       overtime_duration undertime_duration absent status expected_work_duration
       notes].

(** A field that a block does not assign is read through the block. *)
Ltac frame :=
  intros;
  match goal with r : AttendanceResult |- _ => destruct r end;
  unfold with_first_and_last, with_expected_work, with_presence, with_tardiness,
    with_overtime, with_undertime, with_incomplete_flag;
  project;
  repeat match goal with
         | |- context [if ?c then _ else _] => destruct c
         | |- context [match ?o with Some _ => _ | None => _ end] => destruct o
         end;
  unfold_setters; project; reflexivity.

Create Rewrite HintDb calc.

Section Frames.

Variables (logs : list AttendanceLog) (log0 : AttendanceLog) (sh : Shift).
Variable r : AttendanceResult.

Lemma first_entry_first_and_last :
  first_entry_time (with_first_and_last logs log0 r) = Some (timestamp log0).
Proof. frame. Qed.
Lemma last_exit_first_and_last :
  last_exit_time (with_first_and_last logs log0 r) = Some (timestamp (last logs log0)).
Proof. frame. Qed.
Lemma status_first_and_last : status (with_first_and_last logs log0 r) = status r.
Proof. frame. Qed.
Lemma notes_first_and_last : notes (with_first_and_last logs log0 r) = notes r.
Proof. frame. Qed.
Lemma tardiness_first_and_last :
  tardiness_duration (with_first_and_last logs log0 r) = tardiness_duration r.
Proof. frame. Qed.
Lemma presence_first_and_last :
  presence_duration (with_first_and_last logs log0 r) = presence_duration r.
Proof. frame. Qed.

Lemma expected_expected_work :
  expected_work_duration (with_expected_work sh r) = expected_work_of sh.
Proof. frame. Qed.
Lemma first_entry_expected_work :
  first_entry_time (with_expected_work sh r) = first_entry_time r.
Proof. frame. Qed.
Lemma last_exit_expected_work :
  last_exit_time (with_expected_work sh r) = last_exit_time r.
Proof. frame. Qed.
Lemma status_expected_work : status (with_expected_work sh r) = status r.
Proof. frame. Qed.
Lemma notes_expected_work : notes (with_expected_work sh r) = notes r.
Proof. frame. Qed.
Lemma tardiness_expected_work :
  tardiness_duration (with_expected_work sh r) = tardiness_duration r.
Proof. frame. Qed.
Lemma presence_expected_work :
  presence_duration (with_expected_work sh r) = presence_duration r.
Proof. frame. Qed.

Lemma presence_presence :
  presence_duration (with_presence logs r) =
    if (2 <=? length logs)%nat then total_presence_of (_pair_logs logs)
    else presence_duration r.
Proof. frame. Qed.
Lemma expected_presence :
  expected_work_duration (with_presence logs r) = expected_work_duration r.
Proof. frame. Qed.
Lemma first_entry_presence : first_entry_time (with_presence logs r) = first_entry_time r.
Proof. frame. Qed.
Lemma last_exit_presence : last_exit_time (with_presence logs r) = last_exit_time r.
Proof. frame. Qed.
Lemma status_presence : status (with_presence logs r) = status r.
Proof. frame. Qed.
Lemma notes_presence : notes (with_presence logs r) = notes r.
Proof. frame. Qed.
Lemma tardiness_presence :
  tardiness_duration (with_presence logs r) = tardiness_duration r.
Proof. frame. Qed.

Lemma tardiness_tardiness :
  tardiness_duration (with_tardiness sh r) =
    match first_entry_time r with
    | Some first_entry =>
        if allowed_log_start_time sh <? dt_time first_entry
        then Z.max 0 (_time_diff_minutes (allowed_log_start_time sh) (dt_time first_entry)
                      - float_duration_minutes sh)
        else tardiness_duration r
    | None => tardiness_duration r
    end.
Proof. frame. Qed.
Lemma expected_tardiness :
  expected_work_duration (with_tardiness sh r) = expected_work_duration r.
Proof. frame. Qed.
Lemma presence_tardiness : presence_duration (with_tardiness sh r) = presence_duration r.
Proof. frame. Qed.
Lemma last_exit_tardiness : last_exit_time (with_tardiness sh r) = last_exit_time r.
Proof. frame. Qed.
Lemma status_tardiness : status (with_tardiness sh r) = status r.
Proof. frame. Qed.
Lemma notes_tardiness : notes (with_tardiness sh r) = notes r.
Proof. frame. Qed.

Lemma expected_overtime :
  expected_work_duration (with_overtime sh r) = expected_work_duration r.
Proof. frame. Qed.
Lemma presence_overtime : presence_duration (with_overtime sh r) = presence_duration r.
Proof. frame. Qed.
Lemma tardiness_overtime : tardiness_duration (with_overtime sh r) = tardiness_duration r.
Proof. frame. Qed.
Lemma last_exit_overtime : last_exit_time (with_overtime sh r) = last_exit_time r.
Proof. frame. Qed.
Lemma status_overtime : status (with_overtime sh r) = status r.
Proof. frame. Qed.
Lemma notes_overtime : notes (with_overtime sh r) = notes r.
Proof. frame. Qed.

Lemma expected_undertime :
  expected_work_duration (with_undertime r) = expected_work_duration r.
Proof. frame. Qed.
Lemma presence_undertime : presence_duration (with_undertime r) = presence_duration r.
Proof. frame. Qed.
Lemma tardiness_undertime : tardiness_duration (with_undertime r) = tardiness_duration r.
Proof. frame. Qed.
Lemma last_exit_undertime : last_exit_time (with_undertime r) = last_exit_time r.
Proof. frame. Qed.
Lemma status_undertime : status (with_undertime r) = status r.
Proof. frame. Qed.
Lemma notes_undertime : notes (with_undertime r) = notes r.
Proof. frame. Qed.

Lemma expected_incomplete_flag :
  expected_work_duration (with_incomplete_flag logs r) = expected_work_duration r.
Proof. frame. Qed.
Lemma presence_incomplete_flag :
  presence_duration (with_incomplete_flag logs r) = presence_duration r.
Proof. frame. Qed.
Lemma tardiness_incomplete_flag :
  tardiness_duration (with_incomplete_flag logs r) = tardiness_duration r.
Proof. frame. Qed.
Lemma last_exit_incomplete_flag :
  last_exit_time (with_incomplete_flag logs r) = last_exit_time r.
Proof. frame. Qed.
Lemma status_incomplete_flag :
  status (with_incomplete_flag logs r) =
    if negb (Nat.eqb (Nat.modulo (length logs) 2) 0) then "IncompleteLog" else status r.
Proof. frame. Qed.
Lemma notes_incomplete_flag :
  notes (with_incomplete_flag logs r) =
    if negb (Nat.eqb (Nat.modulo (length logs) 2) 0)
    then Some "Odd number of attendance logs" else notes r.
Proof. frame. Qed.

End Frames.

#[local] Hint Rewrite
  first_entry_first_and_last last_exit_first_and_last status_first_and_last
  notes_first_and_last tardiness_first_and_last presence_first_and_last
  expected_expected_work first_entry_expected_work last_exit_expected_work
  status_expected_work notes_expected_work tardiness_expected_work
  presence_expected_work
  presence_presence expected_presence first_entry_presence last_exit_presence
  status_presence notes_presence tardiness_presence
  tardiness_tardiness expected_tardiness presence_tardiness last_exit_tardiness
  status_tardiness notes_tardiness
  expected_overtime presence_overtime tardiness_overtime last_exit_overtime
  status_overtime notes_overtime
  expected_undertime presence_undertime tardiness_undertime last_exit_undertime
  status_undertime notes_undertime
  expected_incomplete_flag presence_incomplete_flag tardiness_incomplete_flag
  last_exit_incomplete_flag status_incomplete_flag notes_incomplete_flag
  : calc.

(** Read one field of the result of a non-empty log list. *)
Ltac calc_field :=
  unfold _calculate_attendance_times; cbv zeta; autorewrite with calc.

Section Calculator.

Variables (log0 : AttendanceLog) (rest : list AttendanceLog).
Variables (sh : Shift) (target_date : date).

Lemma calc_expected_work_duration :
  expected_work_duration (_calculate_attendance_times (log0 :: rest) sh target_date)
  = expected_work_of sh.
Proof. calc_field. reflexivity. Qed.

Lemma calc_last_exit_time :
  last_exit_time (_calculate_attendance_times (log0 :: rest) sh target_date)
  = Some (timestamp (last (log0 :: rest) log0)).
Proof. calc_field. reflexivity. Qed.

Lemma calc_presence_duration :
  presence_duration (_calculate_attendance_times (log0 :: rest) sh target_date)
  = total_presence_of (pairs_by_position (log0 :: rest)).
Proof.
  calc_field. rewrite pair_logs_positions.
  destruct rest as [|log1 rest']; reflexivity.
Qed.

Lemma calc_tardiness_duration :
  tardiness_duration (_calculate_attendance_times (log0 :: rest) sh target_date) =
    if allowed_log_start_time sh <? dt_time (timestamp log0)
    then Z.max 0 (_time_diff_minutes (allowed_log_start_time sh) (dt_time (timestamp log0))
                  - float_duration_minutes sh)
    else 0.
Proof. calc_field. reflexivity. Qed.

Lemma calc_status_odd :
  Nat.odd (length (log0 :: rest)) = true ->
  status (_calculate_attendance_times (log0 :: rest) sh target_date) = "IncompleteLog"
  /\ notes (_calculate_attendance_times (log0 :: rest) sh target_date)
     = Some "Odd number of attendance logs".
Proof.
  intros Hodd. pose proof (odd_mod2 _ Hodd) as Hm.
  split; calc_field; rewrite Hm; reflexivity.
Qed.

End Calculator.

(** ** Examples of the calculator *)

Example calc_odd :
  let r := _calculate_attendance_times
             [punch 1 100 9 0; punch 2 100 12 0; punch 3 100 13 0] standard_shift 100 in
  presence_duration r = 180 /\ status r = "IncompleteLog"
  /\ last_exit_time r = Some (mk_datetime 100 (hm 13 0))
  /\ tardiness_duration r = 45 /\ undertime_duration r = 300.
Proof. vm_compute. repeat split; reflexivity. Qed.

(** ** The time calculator: odd punch counts, expected work, tardiness *)

Lemma nth_error_last (l : list AttendanceLog) (d : AttendanceLog) :
  l <> [] -> nth_error l (length l - 1) = Some (last l d).
Proof.
  induction l as [|a l IH]; intros Hne; [congruence|].
  destruct l as [|b l]; [reflexivity|].
  replace (length (a :: b :: l) - 1)%nat with (S (length (b :: l) - 1))
    by (cbn [length]; lia).
  cbn [nth_error]. rewrite IH by discriminate. reflexivity.
Qed.

(** C1.  With an odd number of punches the calculator pairs the punches by
    position, leaves the trailing punch out of the presence sum, sets the
    status to "IncompleteLog" with the note "Odd number of attendance logs",
    and still takes the exit time from the last punch. *)
Theorem C1_odd_punch_count (logs : list AttendanceLog) (sh : Shift) (d : date) :
  Nat.odd (length logs) = true ->
  let r := _calculate_attendance_times logs sh d in
  _pair_logs logs = pairs_by_position logs
  /\ pairs_by_position logs = pairs_by_position (removelast logs)
  /\ presence_duration r = total_presence_of (pairs_by_position (removelast logs))
  /\ status r = "IncompleteLog"
  /\ notes r = Some "Odd number of attendance logs"
  /\ exists l, nth_error logs (length logs - 1) = Some l
               /\ last_exit_time r = Some (timestamp l).
Proof.
  intros Hodd r.
  destruct logs as [|log0 rest] eqn:E; [discriminate|]. rewrite <- E in *.
  assert (Hdrop := pairs_drop_trailing logs Hodd).
  split; [apply pair_logs_positions|].
  split; [exact Hdrop|].
  subst r. rewrite E in *.
  split; [rewrite calc_presence_duration; now rewrite Hdrop|].
  destruct (calc_status_odd log0 rest sh d Hodd) as [Hs Hn].
  split; [exact Hs|]. split; [exact Hn|].
  exists (last (log0 :: rest) log0). split.
  - apply nth_error_last. discriminate.
  - apply calc_last_exit_time.
Qed.

(** The example of the specification: punches at 09:00, 12:00 and 13:00 on
    a 08:00-16:00 shift. *)
Lemma C1_three_punches :
  Nat.odd (length three_punches) = true
  /\ presence_duration (_calculate_attendance_times three_punches standard_shift 100) = 180
  /\ status (_calculate_attendance_times three_punches standard_shift 100) = "IncompleteLog"
  /\ last_exit_time (_calculate_attendance_times three_punches standard_shift 100)
     = Some (mk_datetime 100 (hm 13 0)).
Proof.
  destruct (C1_odd_punch_count three_punches standard_shift 100 eq_refl)
    as (_ & _ & Hp & Hs & _ & l & Hl & Hx).
  split; [reflexivity|].
  split; [rewrite Hp; reflexivity|].
  split; [exact Hs|].
  rewrite Hx. vm_compute in Hl. injection Hl as <-. reflexivity.
Defined.

(** C6.  For a non-empty log list the expected work duration is the
    duration of interval 1 plus that of interval 2 when both its ends are
    set, an interval whose end is earlier than its start being counted
    across midnight; it is not negative, and a 22:00-06:00 shift expects
    480 minutes. *)
Theorem C6_expected_work_duration (logs : list AttendanceLog) (sh : Shift) (d : date) :
  logs <> [] ->
  let r := _calculate_attendance_times logs sh d in
  expected_work_duration r =
    interval_minutes (start_time_1 sh) (end_time_1 sh)
    + match start_time_2 sh, end_time_2 sh with
      | Some s2, Some e2 => interval_minutes s2 e2
      | _, _ => 0
      end
  /\ (valid_shift sh -> 0 <= expected_work_duration r)
  /\ (start_time_1 sh = hm 22 0 -> end_time_1 sh = hm 6 0 ->
      start_time_2 sh = None \/ end_time_2 sh = None ->
      expected_work_duration r = 480).
Proof.
  intros Hne r. destruct logs as [|log0 rest]; [congruence|].
  assert (Heq : expected_work_duration r =
                interval_minutes (start_time_1 sh) (end_time_1 sh)
                + match start_time_2 sh, end_time_2 sh with
                  | Some s2, Some e2 => interval_minutes s2 e2
                  | _, _ => 0
                  end).
  { subst r. rewrite calc_expected_work_duration. unfold expected_work_of.
    rewrite time_diff_interval.
    destruct (start_time_2 sh), (end_time_2 sh);
      rewrite ?time_diff_interval; lia. }
  split; [exact Heq|]. split.
  - intros (H1 & H2 & H3 & H4). rewrite Heq.
    pose proof (interval_minutes_bounds _ _ H1 H2).
    destruct (start_time_2 sh) as [s2|] eqn:E1, (end_time_2 sh) as [e2|] eqn:E2; try lia.
    pose proof (interval_minutes_bounds _ _ (H3 _ eq_refl) (H4 _ eq_refl)). lia.
  - intros Hs He Hnone. rewrite Heq, Hs, He.
    destruct Hnone as [-> | ->]; [|destruct (start_time_2 sh)]; reflexivity.
Qed.

Lemma C6_night_shift :
  three_punches <> []
  /\ expected_work_duration (_calculate_attendance_times three_punches night_shift 100)
     = 480.
Proof.
  split; [discriminate|].
  refine (proj2 (proj2 (C6_expected_work_duration three_punches night_shift 100 _))
            eq_refl eq_refl (or_introl eq_refl)).
  discriminate.
Defined.

(** C7.  For a non-empty log list, when the time of day of the first punch
    is later than [allowed_log_start_time] the tardiness is the gap in
    minutes less the float, floored at 0; otherwise it is 0. *)
Theorem C7_tardiness (logs : list AttendanceLog) (sh : Shift) (d : date)
    (log0 : AttendanceLog) :
  hd_error logs = Some log0 ->
  let entry_time := dt_time (timestamp log0) in
  let gap_in_minutes := (entry_time - allowed_log_start_time sh) ÷ usec_per_minute in
  tardiness_duration (_calculate_attendance_times logs sh d) =
    if allowed_log_start_time sh <? entry_time
    then Z.max 0 (gap_in_minutes - float_duration_minutes sh)
    else 0.
Proof.
  intros Hhd entry_time gap.
  destruct logs as [|l0 rest]; [discriminate|]. injection Hhd as ->.
  rewrite calc_tardiness_duration. fold entry_time.
  destruct (Z.ltb_spec (allowed_log_start_time sh) entry_time) as [Hlt|Hge];
    [|reflexivity].
  rewrite time_diff_forward by lia. reflexivity.
Qed.

(** Allowed start 08:00 and float 15: a first punch at 08:20 is 5 minutes
    late, a first punch at 08:10 is not late. *)
Lemma C7_float_examples :
  tardiness_duration (_calculate_attendance_times [punch 1 100 8 20] standard_shift 100) = 5
  /\ tardiness_duration (_calculate_attendance_times [punch 1 100 8 10] standard_shift 100)
     = 0.
Proof.
  split.
  - rewrite (C7_tardiness [punch 1 100 8 20] standard_shift 100 _ eq_refl). reflexivity.
  - rewrite (C7_tardiness [punch 1 100 8 10] standard_shift 100 _ eq_refl). reflexivity.
Defined.

(** ** The shift resolver *)

(** C8.  With a cycle of at least one day the resolver looks up
    [((date - start_date) mod repetition_period_days) + 1], the modulo being
    the floor modulo, so the day of cycle lies in [1, repetition_period_days]
    also for dates before the start of the cycle. *)
Theorem C8_day_of_cycle (db : DB) (wg : WorkGroup) (target_date : date) :
  1 <= repetition_period_days wg ->
  let n := repetition_period_days wg in
  let days_diff := target_date - dt_date (wg_start_date wg) in
  let doc := days_diff mod n + 1 in
  day_of_cycle_for wg target_date = Ok doc
  /\ doc = days_diff - n * (days_diff / n) + 1
  /\ 1 <= doc <= n
  /\ _get_shift_for_date db wg target_date =
       Ok (option_map shift
             (find (fun a => (wgs_work_group_id a =? work_group_id wg)
                             && (day_of_cycle a =? doc))
                   (work_group_shifts db))).
Proof.
  intros Hn n days_diff doc.
  assert (Hdoc : day_of_cycle_for wg target_date = Ok doc).
  { unfold day_of_cycle_for. fold n.
    destruct (Z.eqb_spec n 0) as [H0|_]; [lia|reflexivity]. }
  split; [exact Hdoc|]. split.
  - subst doc. rewrite Z.mod_eq by lia. reflexivity.
  - split.
    + subst doc. pose proof (Z.mod_pos_bound days_diff n ltac:(lia)). lia.
    + unfold _get_shift_for_date. rewrite Hdoc.
      destruct (find _ (work_group_shifts db)); reflexivity.
Qed.

(** Three days before the start of a weekly cycle is day 5 of the cycle. *)
Lemma C8_before_start :
  1 <= repetition_period_days weekly_group
  /\ day_of_cycle_for weekly_group 97 = Ok 5.
Proof.
  split; [vm_compute; discriminate|].
  exact (proj1 (C8_day_of_cycle (mk_DB [] [] [] [] [] [] [] []) weekly_group 97
                  ltac:(vm_compute; discriminate))).
Defined.

(** ** The summary writer *)

Section Upsert.

Lemma find_update_first {A} (p : A -> bool) (f : A -> A) (l : list A) (x : A) :
  find p l = Some x -> p (f x) = true ->
  find p (update_first p f l) = Some (f x).
Proof.
  induction l as [|y l IH]; intros Hfind Hp; [discriminate|].
  cbn [find update_first] in *.
  destruct (p y) eqn:Hy.
  - injection Hfind as ->. cbn [find]. now rewrite Hp.
  - cbn [find]. rewrite Hy. now apply IH.
Qed.

Lemma length_update_first {A} (p : A -> bool) (f : A -> A) (l : list A) :
  length (update_first p f l) = length l.
Proof.
  induction l as [|y l IH]; [reflexivity|].
  cbn [update_first]. destruct (p y); cbn [length]; congruence.
Qed.

Lemma find_app_last {A} (p : A -> bool) (l : list A) (y : A) :
  find p l = None -> p y = true -> find p (l ++ [y]) = Some y.
Proof.
  induction l as [|x l IH]; intros Hnone Hy; cbn [find app] in *.
  - now rewrite Hy.
  - destruct (p x); [discriminate|]. now apply IH.
Qed.

Lemma find_app_some {A} (p : A -> bool) (l l' : list A) (x : A) :
  find p l = Some x -> find p (l ++ l') = Some x.
Proof.
  induction l as [|y l IH]; intros H; [discriminate|].
  cbn [find app] in *. destruct (p y); auto.
Qed.

Lemma find_exists {A} (p : A -> bool) (l : list A) (x : A) :
  In x l -> p x = true -> exists y, find p l = Some y.
Proof.
  intros Hin Hp. destruct (find p l) as [y|] eqn:E; [now exists y|].
  pose proof (find_none p l E x Hin). congruence.
Qed.

Variables (db : DB) (pid : Z) (d : date) (summary : SummaryAttrs).
Hypothesis Hpid : a_personnel_id summary = Some pid.
Hypothesis Hdate : a_date summary = Some d.

Lemma overlay_keeps_key (row : DailySummary) :
  summary_for pid d (overlay summary row) = true.
Proof.
  unfold summary_for, overlay; cbn [ds_personnel_id ds_date].
  rewrite Hpid, Hdate. cbn [attr_or]. now rewrite !Z.eqb_refl.
Qed.

(** After the upsert the query for the key finds the overlaid row when one
    was there, and the inserted row otherwise. *)
Lemma upsert_lookup :
  existing_summary (upsert_summary db pid d summary) pid d =
    Some (match existing_summary db pid d with
          | Some old => overlay summary old
          | None => inserted_row (next_id (daily_summaries db)) summary
          end).
Proof.
  unfold upsert_summary.
  destruct (existing_summary db pid d) as [old|] eqn:E;
    unfold existing_summary in *; cbn [daily_summaries set_daily_summaries].
  - apply find_update_first; [exact E|apply overlay_keeps_key].
  - apply find_app_last; [exact E|apply overlay_keeps_key].
Qed.

End Upsert.

Lemma upsert_attendance_logs db pid d summary :
  attendance_logs (upsert_summary db pid d summary) = attendance_logs db.
Proof. unfold upsert_summary. destruct (existing_summary db pid d); reflexivity. Qed.

(** C9.  The leave summary credits the leave duration as presence when the
    leave type counts as work and credits 0 otherwise; in both cases the
    expected work duration is the leave duration: the minutes from
    [start_time] to [end_time] for an hourly leave with both times, 480
    otherwise. *)
Theorem C9_leave_summary (db : DB) (personnel : Personnel) (target_date : date)
    (leave_request : LeaveRequest) :
  exists s,
    existing_summary (_create_leave_summary db personnel target_date leave_request)
      (personnel_id personnel) target_date = Some s
    /\ ds_presence_duration s =
         (if leave_counts_as_work (leave_type leave_request)
          then leave_minutes leave_request else 0)
    /\ ds_expected_work_duration s = leave_minutes leave_request
    /\ ds_status s = leave_label leave_request
    /\ (forall st et,
          leave_is_hourly leave_request = true ->
          leave_start_time leave_request = Some st ->
          leave_end_time leave_request = Some et ->
          st <= et ->
          leave_minutes leave_request = (et - st) ÷ usec_per_minute).
Proof.
  assert (Hd : leave_duration_status_notes leave_request =
               (leave_minutes leave_request, leave_label leave_request,
                snd (leave_duration_status_notes leave_request))).
  { unfold leave_duration_status_notes, leave_minutes, leave_label.
    destruct (leave_is_hourly leave_request), (leave_start_time leave_request),
      (leave_end_time leave_request); reflexivity. }
  unfold _create_leave_summary. rewrite Hd.
  rewrite upsert_lookup by reflexivity.
  eexists. split; [reflexivity|].
  split; [|split; [|split]].
  - destruct (existing_summary db (personnel_id personnel) target_date); reflexivity.
  - destruct (existing_summary db (personnel_id personnel) target_date); reflexivity.
  - destruct (existing_summary db (personnel_id personnel) target_date); reflexivity.
  - intros st et Hh Hs He Hle. unfold leave_minutes. rewrite Hh, Hs, He.
    now apply time_diff_forward.
Qed.

(** Hourly leave 09:00-11:00 of a type that does not count as work. *)
Lemma C9_hourly_unpaid :
  exists s,
    existing_summary (_create_leave_summary empty_db worker 100 hourly_unpaid) 1 100
    = Some s
    /\ ds_presence_duration s = 0
    /\ ds_expected_work_duration s = 120
    /\ ds_status s = "PartialLeave".
Proof.
  destruct (C9_leave_summary empty_db worker 100 hourly_unpaid)
    as (s & Hs & Hp & He & Hl & _).
  exists s. repeat split; [exact Hs | rewrite Hp | rewrite He | rewrite Hl]; reflexivity.
Defined.

(** C4.  A defect of [_create_holiday_summary] on a day that already has
    a summary: a day worked for 480 minutes, 5 of them late, and then
    written as a holiday gets the status "Holiday" but keeps its 480 minutes
    of presence, its tardiness and its expected work, where the leave, the
    mission and the punch writers reset every duration; the record the
    claim describes (all durations zero, the note the name of the holiday)
    is not the one written. *)
Lemma C4_durations_not_reset :
  exists s,
    existing_summary worked_db 1 100 = Some worked_summary
    /\ existing_summary (_create_holiday_summary worked_db worker 100 nowruz) 1 100
       = Some s
    /\ ds_presence_duration s = 480
    /\ ds_tardiness_duration s = 5
    /\ ds_expected_work_duration s = 480
    /\ ~ (ds_status s = "Holiday"
          /\ ds_presence_duration s = 0
          /\ ds_tardiness_duration s = 0
          /\ ds_overtime_duration s = 0
          /\ ds_undertime_duration s = 0
          /\ ds_expected_work_duration s = 0
          /\ ds_notes s = Some (holiday_name nowruz)).
Proof.
  eexists. split; [reflexivity|]. split; [vm_compute; reflexivity|].
  repeat split. intros (_ & H & _). discriminate H.
Qed.

(** ** The order of the checks of a day *)

(** C2.  When the date is a holiday of the calendar and an approved leave
    request covers it, the day is written by the holiday branch: the
    summary has status "Holiday", not "OnLeave", and neither the leave, the
    mission, the shift nor the punches are looked at. *)
Theorem C2_holiday_before_leave (db : DB) (personnel : Personnel) (wg : WorkGroup)
    (cal : Calendar) (target_date : date) (h : Holiday) (lr : LeaveRequest) :
  In h (holidays db) ->
  holiday_calendar_id h = calendar_id cal ->
  holiday_date h = target_date ->
  In lr (leave_requests db) ->
  leave_personnel_id lr = personnel_id personnel ->
  leave_status lr = "approved" ->
  leave_start_date lr <= target_date <= leave_end_date lr ->
  approved_leave_on db (personnel_id personnel) target_date <> None
  /\ exists holiday s,
       holiday_on db cal target_date = Some holiday
       /\ _process_personnel_day db personnel wg cal target_date
          = Ok (_create_holiday_summary db personnel target_date holiday)
       /\ existing_summary (_create_holiday_summary db personnel target_date holiday)
            (personnel_id personnel) target_date = Some s
       /\ ds_status s = "Holiday"
       /\ ds_status s <> "OnLeave"
       /\ attendance_logs (_create_holiday_summary db personnel target_date holiday)
          = attendance_logs db.
Proof.
  intros Hin Hcal Hdate Hlin Hpid Hst [Hlo Hhi].
  split.
  - destruct (find_exists
                (fun r => (leave_personnel_id r =? personnel_id personnel)
                          && String.eqb (leave_status r) "approved"
                          && (leave_start_date r <=? target_date)
                          && (target_date <=? leave_end_date r))
                (leave_requests db) lr Hlin) as [y Hy].
    + rewrite Hpid, Hst, Z.eqb_refl. cbn [andb String.eqb].
      apply andb_true_intro; split; apply Z.leb_le; assumption.
    + unfold approved_leave_on. rewrite Hy. discriminate.
  - destruct (find_exists
                (fun x => (holiday_calendar_id x =? calendar_id cal)
                          && (holiday_date x =? target_date))
                (holidays db) h Hin) as [holiday Hh].
    + now rewrite Hcal, Hdate, !Z.eqb_refl.
    + assert (Hlook := upsert_lookup db (personnel_id personnel) target_date
                         (mk_SummaryAttrs (Some (personnel_id personnel)) (Some target_date)
                            None None None None None None (Some "Holiday") None None None
                            (Some (Some ("Holiday: " ++ holiday_name holiday)%string)))
                         eq_refl eq_refl).
      eexists holiday, _. split; [exact Hh|].
      split; [unfold _process_personnel_day, holiday_on in *; now rewrite Hh|].
      split; [exact Hlook|].
      split; [|split].
      * destruct (existing_summary db (personnel_id personnel) target_date); reflexivity.
      * destruct (existing_summary db (personnel_id personnel) target_date); discriminate.
      * apply upsert_attendance_logs.
Qed.

Lemma C2_holiday_and_leave :
  exists s,
    holiday_on worked_db (calendar weekly_group) 100 = Some nowruz
    /\ approved_leave_on worked_db 1 100 = Some full_day_leave
    /\ _process_personnel_day worked_db worker weekly_group (calendar weekly_group) 100
       = Ok (_create_holiday_summary worked_db worker 100 nowruz)
    /\ existing_summary (_create_holiday_summary worked_db worker 100 nowruz) 1 100
       = Some s
    /\ ds_status s = "Holiday".
Proof.
  destruct (C2_holiday_before_leave worked_db worker weekly_group (calendar weekly_group)
              100 nowruz full_day_leave
              (or_introl eq_refl) eq_refl eq_refl (or_introl eq_refl) eq_refl eq_refl
              (conj (Z.le_refl 100) (Z.le_refl 100)))
    as (_ & holiday & s & Hh & Hday & Hs & Hst & _).
  assert (Hn : holiday = nowruz)
    by (vm_compute in Hh; injection Hh as <-; reflexivity).
  subst holiday.
  exists s. repeat split; assumption || reflexivity.
Defined.

(** ** The punches of a day and their flag *)

Lemma calc_status_values (logs : list AttendanceLog) (sh : Shift) (d : date) :
  status (_calculate_attendance_times logs sh d) = "Absent"
  \/ status (_calculate_attendance_times logs sh d) = "OK"
  \/ status (_calculate_attendance_times logs sh d) = "IncompleteLog".
Proof.
  destruct logs as [|log0 rest]; [left; reflexivity|].
  right. calc_field.
  destruct (negb (Nat.eqb (Nat.modulo (length (log0 :: rest)) 2) 0)); auto.
Qed.

Lemma not_early_status (s : string) :
  s = "Absent" \/ s = "OK" \/ s = "IncompleteLog" -> ~ In s early_statuses.
Proof.
  intros [-> | [-> | ->]] Hin; cbn in Hin;
    repeat (destruct Hin as [Hin|Hin]; [discriminate|]); exact Hin.
Qed.

Lemma leave_summary_attendance_logs db personnel target_date leave_request :
  attendance_logs (_create_leave_summary db personnel target_date leave_request)
  = attendance_logs db.
Proof.
  unfold _create_leave_summary.
  destruct (leave_duration_status_notes leave_request) as [[? ?] ?].
  apply upsert_attendance_logs.
Qed.

Lemma mission_summary_attendance_logs db personnel target_date mission_request :
  attendance_logs (_create_mission_summary db personnel target_date mission_request)
  = attendance_logs db.
Proof.
  unfold _create_mission_summary.
  destruct (mission_duration_status_notes mission_request) as [[? ?] ?].
  apply upsert_attendance_logs.
Qed.

(** On the punch path the summary carries the status of the calculation. *)
Lemma punch_path_status db personnel target_date sh r logs s :
  existing_summary
    (set_attendance_logs logs
       (_create_or_update_daily_summary db personnel target_date sh r))
    (personnel_id personnel) target_date = Some s ->
  ds_status s = status r.
Proof.
  unfold _create_or_update_daily_summary. intros H.
  change (existing_summary (set_attendance_logs logs ?x) ?p ?d)
    with (existing_summary x p d) in H.
  rewrite upsert_lookup in H by reflexivity.
  injection H as <-.
  destruct (existing_summary db (personnel_id personnel) target_date); reflexivity.
Qed.

(** C10.  A day whose summary is written as a holiday, a leave, a mission or
    a day without shift leaves the attendance logs, and so their
    [is_processed] flags, as they were: the flag is only set on the path
    that fetches the punches. *)
Theorem C10_flag_only_on_punch_path (db db' : DB) (personnel : Personnel)
    (wg : WorkGroup) (cal : Calendar) (target_date : date) (s : DailySummary) :
  _process_personnel_day db personnel wg cal target_date = Ok db' ->
  existing_summary db' (personnel_id personnel) target_date = Some s ->
  In (ds_status s) early_statuses ->
  attendance_logs db' = attendance_logs db.
Proof.
  unfold _process_personnel_day. intros Hday Hs Hin.
  destruct (holiday_on db cal target_date) as [holiday|].
  { injection Hday as <-. apply upsert_attendance_logs. }
  destruct (approved_leave_on db (personnel_id personnel) target_date) as [lr|].
  { injection Hday as <-. apply leave_summary_attendance_logs. }
  destruct (approved_mission_on db (personnel_id personnel) target_date) as [mr|].
  { injection Hday as <-. apply mission_summary_attendance_logs. }
  destruct (_get_shift_for_date db wg target_date) as [[sh|]|e]; [| |discriminate].
  - exfalso. injection Hday as <-.
    apply punch_path_status in Hs.
    rewrite Hs in Hin.
    exact (not_early_status _ (calc_status_values _ _ _) Hin).
  - injection Hday as <-. apply upsert_attendance_logs.
Qed.

(** The holiday of day 100 leaves the punch of that day unprocessed. *)
Lemma C10_holiday_keeps_flag :
  exists db' s,
    _process_personnel_day punched_db worker daily_group (calendar daily_group) 100
    = Ok db'
    /\ existing_summary db' 1 100 = Some s
    /\ ds_status s = "Holiday"
    /\ attendance_logs db' = attendance_logs punched_db
    /\ map is_processed (attendance_logs db') = [false; false].
Proof.
  eexists _, _.
  split; [reflexivity|]. split; [reflexivity|]. split; [reflexivity|].
  assert (H := C10_flag_only_on_punch_path punched_db _ worker daily_group
                 (calendar daily_group) 100 _ eq_refl eq_refl (or_introl eq_refl)).
  split; [exact H|]. rewrite H. reflexivity.
Defined.

(** The day after, a work day, is calculated and its punch is flagged. *)
Lemma punch_path_sets_flag :
  exists db' s,
    _process_personnel_day punched_db worker daily_group (calendar daily_group) 101
    = Ok db'
    /\ existing_summary db' 1 101 = Some s
    /\ ds_status s = "IncompleteLog"
    /\ map is_processed (attendance_logs db') = [false; true].
Proof.
  eexists _, _.
  split; [vm_compute; reflexivity|]. repeat split.
Qed.

(** ** What a run changes *)

Section Follows.

Lemma static_eq_refl db : static_eq db db.
Proof. repeat split. Qed.

Lemma static_eq_trans a b c : static_eq a b -> static_eq b c -> static_eq a c.
Proof.
  intros (H1 & H2 & H3 & H4 & H5) (K1 & K2 & K3 & K4 & K5).
  repeat split; congruence.
Qed.

Lemma follows_refl force db : follows force db db.
Proof.
  split; [apply static_eq_refl|].
  split; [exists []|intros _; exists []]; now rewrite app_nil_r.
Qed.

Lemma follows_trans force a b c : follows force a b -> follows force b c -> follows force a c.
Proof.
  intros (S1 & [m1 L1] & R1) (S2 & [m2 L2] & R2).
  split; [eapply static_eq_trans; eassumption|]. split.
  - exists (m1 ++ m2)%list. now rewrite L2, L1, app_assoc.
  - intros Hf. destruct (R1 Hf) as [r1 E1]. destruct (R2 Hf) as [r2 E2].
    exists (r1 ++ r2)%list. now rewrite E2, E1, app_assoc.
Qed.

Lemma follows_log_to force lvl msg db : follows force db (log_to lvl msg db).
Proof.
  split; [repeat split|]. split.
  - now exists [(lvl, msg)].
  - intros _. exists []. cbn [log_to daily_summaries]. now rewrite app_nil_r.
Qed.

Lemma follows_set_attendance_logs force v db : follows force db (set_attendance_logs v db).
Proof.
  split; [repeat split|]. split.
  - exists []. cbn [set_attendance_logs logger]. now rewrite app_nil_r.
  - intros _. exists []. cbn [set_attendance_logs daily_summaries]. now rewrite app_nil_r.
Qed.

Lemma follows_upsert force db pid d summary :
  (force = false -> existing_summary db pid d = None) ->
  follows force db (upsert_summary db pid d summary).
Proof.
  intros Hnone. unfold upsert_summary.
  destruct (existing_summary db pid d) as [old|] eqn:E.
  - split; [repeat split|]. split.
    + exists []. cbn [set_daily_summaries logger]. now rewrite app_nil_r.
    + intros Hf. specialize (Hnone Hf). discriminate.
  - split; [repeat split|]. split.
    + exists []. cbn [set_daily_summaries logger]. now rewrite app_nil_r.
    + intros _. eexists. reflexivity.
Qed.

Lemma follows_process_day force db db' personnel wg cal d :
  (force = false -> existing_summary db (personnel_id personnel) d = None) ->
  _process_personnel_day db personnel wg cal d = Ok db' ->
  follows force db db'.
Proof.
  intros Hnone. unfold _process_personnel_day.
  destruct (holiday_on db cal d) as [holiday|].
  { intros H; injection H as <-. now apply follows_upsert. }
  destruct (approved_leave_on db (personnel_id personnel) d) as [lr|].
  { intros H; injection H as <-. unfold _create_leave_summary.
    destruct (leave_duration_status_notes lr) as [[? ?] ?]. now apply follows_upsert. }
  destruct (approved_mission_on db (personnel_id personnel) d) as [mr|].
  { intros H; injection H as <-. unfold _create_mission_summary.
    destruct (mission_duration_status_notes mr) as [[? ?] ?]. now apply follows_upsert. }
  destruct (_get_shift_for_date db wg d) as [[sh|]|e]; [| |discriminate].
  - intros H; injection H as <-.
    eapply follows_trans; [|apply follows_set_attendance_logs].
    now apply follows_upsert.
  - intros H; injection H as <-. now apply follows_upsert.
Qed.

Lemma follows_process_date db personnel wg cal d force n :
  follows force db (snd (process_date db personnel wg cal d force n)).
Proof.
  unfold process_date.
  destruct (d <? dt_date (start_date personnel)); [apply follows_refl|].
  destruct (match end_date personnel with Some e => dt_date e <? d | None => false end);
    [apply follows_refl|].
  destruct (existing_summary db (personnel_id personnel) d) as [old|] eqn:E, force;
    try apply follows_refl;
    destruct (_process_personnel_day db personnel wg cal d) as [db'|e] eqn:P;
    cbn [snd]; try apply follows_log_to;
    eapply follows_process_day; try eassumption; try discriminate; auto.
Qed.

Lemma follows_date_loop fuel :
  forall db personnel wg cal current_date end_date force n,
    follows force db
      (snd (date_loop fuel db personnel wg cal current_date end_date force n)).
Proof.
  induction fuel as [|fuel IH]; intros db personnel wg cal cur stop force n;
    cbn [date_loop]; [apply follows_refl|].
  destruct (cur <=? stop); [|apply follows_refl].
  cbv zeta.
  pose proof (follows_process_date db personnel wg cal cur force n) as H.
  destruct (process_date db personnel wg cal cur force n) as [n' db1].
  destruct (tomorrow cur) as [next|e].
  - eapply follows_trans; [exact H|apply IH].
  - cbn [snd] in *. destruct (continues db personnel cur force); [|exact H].
    eapply follows_trans; [exact H|apply follows_log_to].
Qed.

Lemma follows_personnel_attendance db personnel s e force :
  follows force db (snd (_process_personnel_attendance db personnel s e force)).
Proof.
  unfold _process_personnel_attendance.
  destruct (work_group personnel); [apply follows_date_loop|apply follows_log_to].
Qed.

Lemma follows_personnel_loop personnel_list :
  forall db request n errs,
    follows (force_reprocess request) db
      (snd (personnel_loop db personnel_list request n errs)).
Proof.
  induction personnel_list as [|p rest IH]; intros; cbn [personnel_loop];
    [apply follows_refl|].
  pose proof (follows_personnel_attendance db p (req_start_date request)
                (req_end_date request) (force_reprocess request)) as H.
  destruct (_process_personnel_attendance db p (req_start_date request)
              (req_end_date request) (force_reprocess request)) as [[k|e] db1];
    cbn [snd] in H.
  - eapply follows_trans; [exact H|apply IH].
  - eapply follows_trans; [exact H|].
    eapply follows_trans; [apply follows_log_to|apply IH].
Qed.

Lemma follows_process_attendance db request :
  follows (force_reprocess request) db (snd (process_attendance db request)).
Proof.
  unfold process_attendance.
  destruct (select_personnel db request) as [|p rest] eqn:E; [apply follows_refl|].
  pose proof (follows_personnel_loop (p :: rest) db request 0 []) as H.
  destruct (personnel_loop db (p :: rest) request 0 []) as [[k errs] db1]. exact H.
Qed.

End Follows.

(** One turn of the [while] loop. *)
Lemma date_loop_eq fuel db personnel wg cal cur stop force n :
  date_loop (S fuel) db personnel wg cal cur stop force n
  = if cur <=? stop then
      let continued := continues db personnel cur force in
      let '(k, db1) := process_date db personnel wg cal cur force n in
      match tomorrow cur with
      | Ok next => date_loop fuel db1 personnel wg cal next stop force k
      | Raise e =>
          (Raise e,
           if continued
           then log_to ERROR (DayError (personnel_id personnel) cur e) db1
           else db1)
      end
    else (Ok n, db).
Proof. reflexivity. Qed.

(** [date_loop] takes the turns of the source. *)
Lemma date_loop_turn fuel db personnel wg cal cur stop force n :
  date_loop (S fuel) db personnel wg cal cur stop force n
  = if cur <=? stop then
      match loop_turn db personnel wg cal cur force n with
      | (Ok (next, k), db1) => date_loop fuel db1 personnel wg cal next stop force k
      | (Raise e, db1) => (Raise e, db1)
      end
    else (Ok n, db).
Proof.
  rewrite date_loop_eq. destruct (cur <=? stop); [|reflexivity].
  unfold loop_turn, try_block, increment_in_try, process_date, continues.
  destruct (cur <? dt_date (start_date personnel));
    [destruct (tomorrow cur); reflexivity|].
  destruct (match end_date personnel with Some e => dt_date e <? cur | None => false end);
    [destruct (tomorrow cur); reflexivity|].
  destruct (existing_summary db (personnel_id personnel) cur), force;
    try (destruct (tomorrow cur); reflexivity);
    destruct (_process_personnel_day db personnel wg cal cur);
    destruct (tomorrow cur); reflexivity.
Qed.

(** The [while] loop over the dates ends by its guard: fuel beyond the
    number of dates in the range changes nothing. *)
Lemma date_loop_fuel fuel :
  forall db personnel wg cal cur stop force n,
    (Z.to_nat (stop - cur + 1) <= fuel)%nat ->
    date_loop (S fuel) db personnel wg cal cur stop force n
    = date_loop fuel db personnel wg cal cur stop force n.
Proof.
  induction fuel as [|fuel IH]; intros db personnel wg cal cur stop force n Hfuel.
  - cbn [date_loop]. destruct (Z.leb_spec cur stop); [lia|reflexivity].
  - rewrite (date_loop_eq (S fuel)), (date_loop_eq fuel).
    destruct (Z.leb_spec cur stop); [|reflexivity].
    cbv zeta.
    destruct (process_date db personnel wg cal cur force n) as [k db1].
    unfold tomorrow. destruct (Z.ltb_spec cur date_max); [|reflexivity].
    apply IH. lia.
Qed.

(** ** Ranges that end before [date.max] *)

(** The increment of [current_date] raises at [date.max] only, so a range
    that ends earlier is walked to its end and the count is returned. *)
Lemma date_loop_returns fuel :
  forall db personnel wg cal cur stop force n,
    stop < date_max \/ stop < cur ->
    exists k, fst (date_loop fuel db personnel wg cal cur stop force n) = Ok k.
Proof.
  induction fuel as [|fuel IH]; intros db personnel wg cal cur stop force n Hstop.
  - now exists n.
  - rewrite date_loop_eq. destruct (Z.leb_spec cur stop); [|now exists n].
    cbv zeta. destruct (process_date db personnel wg cal cur force n) as [k db1].
    unfold tomorrow. destruct (Z.ltb_spec cur date_max); [|lia].
    apply IH. lia.
Qed.

(** A range that is not empty and ends at [date.max] is left by the
    [OverflowError] of the last increment. *)
Lemma date_loop_overflows fuel :
  forall db personnel wg cal cur stop force n,
    cur <= stop -> date_max <= stop ->
    (Z.to_nat (stop - cur + 1) <= fuel)%nat ->
    fst (date_loop fuel db personnel wg cal cur stop force n) = Raise OverflowError.
Proof.
  induction fuel as [|fuel IH];
    intros db personnel wg cal cur stop force n Hcur Hstop Hfuel; [lia|].
  rewrite date_loop_eq. destruct (Z.leb_spec cur stop); [|lia].
  cbv zeta. destruct (process_date db personnel wg cal cur force n) as [k db1].
  unfold tomorrow. destruct (Z.ltb_spec cur date_max); [|reflexivity].
  apply IH; lia.
Qed.

Lemma reaches_date_max_spec request :
  reaches_date_max request = false ->
  req_end_date request < date_max \/ req_end_date request < req_start_date request.
Proof.
  unfold reaches_date_max. intros H. apply andb_false_iff in H.
  destruct H as [H|H]; [right; apply Z.leb_gt in H|left; apply Z.leb_gt in H]; lia.
Qed.

Lemma personnel_attendance_outcome db personnel request :
  fst (_process_personnel_attendance db personnel (req_start_date request)
         (req_end_date request) (force_reprocess request))
  = Raise OverflowError /\ has_work_group personnel && reaches_date_max request = true
  \/ (exists k,
        fst (_process_personnel_attendance db personnel (req_start_date request)
               (req_end_date request) (force_reprocess request)) = Ok k)
     /\ has_work_group personnel && reaches_date_max request = false.
Proof.
  unfold _process_personnel_attendance, has_work_group.
  destruct (work_group personnel) as [wg|]; [|right; split; [now exists 0|reflexivity]].
  cbn [andb]. destruct (reaches_date_max request) eqn:R.
  - left. split; [|reflexivity]. unfold reaches_date_max in R.
    apply andb_prop in R. destruct R as [R1 R2].
    apply Z.leb_le in R1. apply Z.leb_le in R2.
    apply date_loop_overflows; [exact R1|exact R2|apply Nat.le_refl].
  - right. split; [|reflexivity]. apply date_loop_returns.
    now apply reaches_date_max_spec.
Qed.

(** The [errors] the loop over the personnel appends: one for each person
    with a work group when the range reaches [date.max], none otherwise. *)
Lemma personnel_loop_errors personnel_list :
  forall db request n errs,
    snd (fst (personnel_loop db personnel_list request n errs))
    = (errs ++ overflow_errors request personnel_list)%list.
Proof.
  unfold overflow_errors.
  induction personnel_list as [|p rest IH]; intros db request n errs;
    [cbn [personnel_loop filter map fst snd]; now rewrite app_nil_r|].
  cbn [personnel_loop filter].
  destruct (personnel_attendance_outcome db p request) as [[Hr Hb]|[[k Hr] Hb]];
    rewrite Hb;
    destruct (_process_personnel_attendance db p (req_start_date request)
                (req_end_date request) (force_reprocess request)) as [[k'|e] db1];
    cbn [fst] in Hr; try discriminate.
  - injection Hr as ->. cbv zeta. rewrite IH. cbn [map]. now rewrite <- app_assoc.
  - apply IH.
Qed.

Lemma filter_andb_false {A} (f : A -> bool) (l : list A) :
  filter (fun x => f x && false) l = [].
Proof.
  induction l as [|x l IH]; [reflexivity|].
  cbn [filter]. now rewrite andb_false_r.
Qed.

Lemma personnel_loop_no_error personnel_list :
  forall db request n errs,
    req_end_date request < date_max ->
    snd (fst (personnel_loop db personnel_list request n errs)) = errs.
Proof.
  intros db request n errs Hlast. rewrite personnel_loop_errors.
  unfold overflow_errors, reaches_date_max.
  destruct (Z.leb_spec date_max (req_end_date request)); [lia|].
  rewrite andb_false_r, filter_andb_false. apply app_nil_r.
Qed.

(** ** Personnel without a work group *)

Lemma personnel_loop_warns personnel_list :
  forall db request n errs personnel,
    In personnel personnel_list ->
    work_group personnel = None ->
    In (WARNING, NoWorkGroup (personnel_id personnel))
       (logger (snd (personnel_loop db personnel_list request n errs))).
Proof.
  induction personnel_list as [|p rest IH]; intros db request n errs personnel Hin Hwg;
    [contradiction|].
  cbn [personnel_loop].
  destruct Hin as [-> | Hin].
  - unfold _process_personnel_attendance. rewrite Hwg.
    destruct (follows_personnel_loop rest
                (log_to WARNING (NoWorkGroup (personnel_id personnel)) db) request (n + 0)
                errs)
      as (_ & [msgs Hl] & _).
    rewrite Hl. cbn [log_to logger].
    apply in_or_app. left. apply in_or_app. right. now left.
  - destruct (_process_personnel_attendance db p (req_start_date request)
                (req_end_date request) (force_reprocess request)) as [[k|e] db1];
      now apply IH.
Qed.

(** C3 (as amended).  For a selected active person without a work group
    the per-person call returns zero processed days without raising, so the
    person adds no entry to [errors], and it changes no table; the warning
    goes to the logger only, and the [warnings] list of the response is
    empty.  The [errors] list of the whole response is empty when the range
    ends before [date.max]; at [date.max] the other selected persons, those
    with a work group, each leave an entry. *)
Theorem C3_no_work_group (db : DB) (request : AttendanceProcessingRequest)
    (personnel : Personnel) :
  In personnel (select_personnel db request) ->
  work_group personnel = None ->
  let response := fst (process_attendance db request) in
  (forall db0,
     _process_personnel_attendance db0 personnel (req_start_date request)
       (req_end_date request) (force_reprocess request)
     = (Ok 0, log_to WARNING (NoWorkGroup (personnel_id personnel)) db0))
  /\ (req_end_date request < date_max -> errors response = [])
  /\ warnings response = []
  /\ In (WARNING, NoWorkGroup (personnel_id personnel))
        (logger (snd (process_attendance db request))).
Proof.
  intros Hin Hwg response. split.
  { intros db0. unfold _process_personnel_attendance. now rewrite Hwg. }
  subst response. unfold process_attendance.
  destruct (select_personnel db request) as [|p rest] eqn:E; [contradiction|].
  pose proof (personnel_loop_warns (p :: rest) db request 0 [] personnel Hin Hwg)
    as Hlog.
  pose proof (personnel_loop_no_error (p :: rest) db request 0 []) as Herr.
  destruct (personnel_loop db (p :: rest) request 0 []) as [[k errs] db1].
  cbn [fst snd errors warnings] in *. repeat split; assumption.
Qed.

Lemma C3_unassigned_person :
  errors (fst (process_attendance unassigned_db three_days)) = []
  /\ warnings (fst (process_attendance unassigned_db three_days)) = []
  /\ In (WARNING, NoWorkGroup 2)
        (logger (snd (process_attendance unassigned_db three_days))).
Proof.
  destruct (C3_no_work_group unassigned_db three_days unassigned
              (or_introl eq_refl) eq_refl) as (_ & Herr & Hwarn & Hlog).
  exact (conj (Herr eq_refl) (conj Hwarn Hlog)).
Defined.

(** C3 as the specification states it does not hold: the response of a run over a
    person without a work group carries no warning. *)
Lemma C3_no_warning_returned :
  In unassigned (select_personnel unassigned_db three_days)
  /\ work_group unassigned = None
  /\ processed_days (fst (process_attendance unassigned_db three_days)) = 0
  /\ ~ (exists w, In w (warnings (fst (process_attendance unassigned_db three_days)))).
Proof.
  split; [now left|]. split; [reflexivity|]. split; [reflexivity|].
  intros [w Hw]. exact Hw.
Qed.

(** ** Running the batch twice without [force_reprocess] *)

Section Idempotence.

Lemma process_day_raise_static db db' personnel wg cal d e :
  static_eq db db' ->
  _process_personnel_day db personnel wg cal d = Raise e ->
  _process_personnel_day db' personnel wg cal d = Raise e.
Proof.
  intros (_ & Hh & Hl & Hm & Hw).
  unfold _process_personnel_day, holiday_on, approved_leave_on, approved_mission_on,
    _get_shift_for_date.
  rewrite Hh, Hl, Hm, Hw.
  destruct (find _ (holidays db)); [discriminate|].
  destruct (find _ (leave_requests db)); [discriminate|].
  destruct (find _ (mission_requests db)); [discriminate|].
  destruct (day_of_cycle_for wg d); [|congruence].
  destruct (find _ (work_group_shifts db)); discriminate.
Qed.

Lemma settled_transfer db db' personnel wg d :
  static_eq db db' ->
  (existing_summary db (personnel_id personnel) d <> None ->
   existing_summary db' (personnel_id personnel) d <> None) ->
  settled db personnel wg d -> settled db' personnel wg d.
Proof.
  intros Hs Hk [Hw | [He | [e Hr]]].
  - now left.
  - right; left. now apply Hk.
  - right; right. exists e. now apply (process_day_raise_static db).
Qed.

Lemma existing_summary_app db db' rows pid d s :
  daily_summaries db' = (daily_summaries db ++ rows)%list ->
  existing_summary db pid d = Some s -> existing_summary db' pid d = Some s.
Proof.
  unfold existing_summary. intros -> H. now apply find_app_some.
Qed.

Lemma settled_follows db db' personnel wg d :
  follows false db db' -> settled db personnel wg d -> settled db' personnel wg d.
Proof.
  intros (Hs & _ & Hrows). destruct (Hrows eq_refl) as [rows Hr].
  apply settled_transfer; [exact Hs|].
  intros Hne. destruct (existing_summary db (personnel_id personnel) d) as [s|] eqn:E;
    [|congruence].
  now rewrite (existing_summary_app db db' rows _ _ s Hr E).
Qed.

Lemma settled_quiet db db' personnel wg d :
  quiet db db' -> settled db personnel wg d -> settled db' personnel wg d.
Proof.
  intros (Hs & Hd & _). apply settled_transfer; [exact Hs|].
  unfold existing_summary. now rewrite Hd.
Qed.

Lemma quiet_refl db : quiet db db.
Proof. split; [apply static_eq_refl|split; reflexivity]. Qed.

Lemma quiet_trans a b c : quiet a b -> quiet b c -> quiet a c.
Proof.
  intros (S1 & D1 & L1) (S2 & D2 & L2).
  split; [eapply static_eq_trans; eassumption|split; congruence].
Qed.

Lemma quiet_log_to lvl msg db : quiet db (log_to lvl msg db).
Proof. repeat split. Qed.

(** A day that is processed has a summary afterwards. *)
Lemma process_day_writes db db' personnel wg cal d :
  _process_personnel_day db personnel wg cal d = Ok db' ->
  existing_summary db' (personnel_id personnel) d <> None.
Proof.
  unfold _process_personnel_day.
  destruct (holiday_on db cal d) as [holiday|].
  { intros H; injection H as <-. unfold _create_holiday_summary.
    rewrite upsert_lookup by reflexivity. discriminate. }
  destruct (approved_leave_on db (personnel_id personnel) d) as [lr|].
  { intros H; injection H as <-. unfold _create_leave_summary.
    destruct (leave_duration_status_notes lr) as [[? ?] ?].
    rewrite upsert_lookup by reflexivity. discriminate. }
  destruct (approved_mission_on db (personnel_id personnel) d) as [mr|].
  { intros H; injection H as <-. unfold _create_mission_summary.
    destruct (mission_duration_status_notes mr) as [[? ?] ?].
    rewrite upsert_lookup by reflexivity. discriminate. }
  destruct (_get_shift_for_date db wg d) as [[sh|]|e]; [| |discriminate].
  - intros H; injection H as <-. unfold _create_or_update_daily_summary.
    match goal with
    | |- existing_summary (set_attendance_logs ?v ?x) ?p ?t <> None =>
        change (existing_summary x p t <> None)
    end.
    rewrite upsert_lookup by reflexivity. discriminate.
  - intros H; injection H as <-. unfold _create_no_shift_summary.
    rewrite upsert_lookup by reflexivity. discriminate.
Qed.

Variables (personnel : Personnel) (wg : WorkGroup).

Lemma process_date_settles db d n :
  settled (snd (process_date db personnel wg (calendar wg) d false n)) personnel wg d.
Proof.
  unfold process_date, settled, outside_window.
  destruct (d <? dt_date (start_date personnel)); [now left|].
  destruct (match end_date personnel with Some e => dt_date e <? d | None => false end);
    [now left|].
  right.
  destruct (existing_summary db (personnel_id personnel) d) as [old|] eqn:E.
  - left. cbn [snd]. congruence.
  - destruct (_process_personnel_day db personnel wg (calendar wg) d) as [db'|e] eqn:P;
      cbn [snd].
    + left. eapply process_day_writes; eassumption.
    + right. exists e.
      apply (process_day_raise_static db); [repeat split|exact P].
Qed.

Lemma date_loop_settles fuel :
  forall db cur stop n,
    fuel = Z.to_nat (stop - cur + 1) ->
    forall d, reached cur stop d ->
      settled (snd (date_loop fuel db personnel wg (calendar wg) cur stop false n))
        personnel wg d.
Proof.
  unfold reached.
  induction fuel as [|fuel IH]; intros db cur stop n Hfuel d Hd; [lia|].
  rewrite date_loop_eq.
  destruct (Z.leb_spec cur stop) as [_|Hgt]; [|lia].
  cbv zeta.
  pose proof (process_date_settles db cur n) as Hcur.
  destruct (process_date db personnel wg (calendar wg) cur false n) as [n1 db1].
  cbn [fst snd] in *.
  unfold tomorrow. destruct (Z.ltb_spec cur date_max) as [Hlt|Hge].
  - destruct (Z.eq_dec d cur) as [->|Hne].
    + eapply settled_follows; [apply follows_date_loop|exact Hcur].
    + apply IH; lia.
  - assert (d = cur) as -> by lia. cbn [snd].
    destruct (continues db personnel cur false); [|exact Hcur].
    eapply settled_quiet; [apply quiet_log_to|exact Hcur].
Qed.

Lemma process_date_quiet db d n :
  settled db personnel wg d ->
  exists db', process_date db personnel wg (calendar wg) d false n = (n, db')
              /\ quiet db db'.
Proof.
  unfold process_date, settled, outside_window. intros Hs.
  destruct (d <? dt_date (start_date personnel)); [eexists; split; [reflexivity|apply quiet_refl]|].
  destruct (match end_date personnel with Some e => dt_date e <? d | None => false end);
    [eexists; split; [reflexivity|apply quiet_refl]|].
  destruct Hs as [Hw | [He | [e Hr]]]; [discriminate| |].
  - destruct (existing_summary db (personnel_id personnel) d); [|congruence].
    eexists; split; [reflexivity|apply quiet_refl].
  - destruct (existing_summary db (personnel_id personnel) d);
      [eexists; split; [reflexivity|apply quiet_refl]|].
    rewrite Hr. eexists; split; [reflexivity|apply quiet_log_to].
Qed.

Lemma date_loop_quiet fuel :
  forall db cur stop n,
    (forall d, reached cur stop d -> settled db personnel wg d) ->
    exists r db', date_loop fuel db personnel wg (calendar wg) cur stop false n = (r, db')
                  /\ counts_nothing n r /\ quiet db db'.
Proof.
  unfold reached.
  induction fuel as [|fuel IH]; intros db cur stop n Hall.
  - do 2 eexists; split; [reflexivity|split; [now left|apply quiet_refl]].
  - rewrite date_loop_eq.
    destruct (Z.leb_spec cur stop) as [Hle|Hgt];
      [|do 2 eexists; split; [reflexivity|split; [now left|apply quiet_refl]]].
    cbv zeta.
    destruct (process_date_quiet db cur n (Hall cur ltac:(lia))) as (db1 & -> & Hq1).
    unfold tomorrow. destruct (Z.ltb_spec cur date_max) as [Hlt|Hge].
    + destruct (IH db1 (cur + 1) stop n) as (r & db2 & -> & Hr & Hq2).
      * intros d Hd. apply (settled_quiet db); [exact Hq1|]. apply Hall. lia.
      * do 2 eexists; split; [reflexivity|]. split; [exact Hr|].
        eapply quiet_trans; eassumption.
    + do 2 eexists; split; [reflexivity|]. split; [right; now eexists|].
      destruct (continues db personnel cur false); [|exact Hq1].
      eapply quiet_trans; [exact Hq1|apply quiet_log_to].
Qed.

End Idempotence.

Section Batch.

Variable request : AttendanceProcessingRequest.
Hypothesis no_force : force_reprocess request = false.

Lemma personnel_loop_settles personnel_list :
  forall db n errs p wg d,
    In p personnel_list ->
    work_group p = Some wg ->
    reached (req_start_date request) (req_end_date request) d ->
    settled (snd (personnel_loop db personnel_list request n errs)) p wg d.
Proof.
  induction personnel_list as [|a rest IH]; intros db n errs p wg d Hin Hwg Hd;
    [contradiction|].
  cbn [personnel_loop].
  destruct Hin as [-> | Hin].
  - assert (Hp : settled
                   (snd (_process_personnel_attendance db p (req_start_date request)
                           (req_end_date request) (force_reprocess request))) p wg d).
    { unfold _process_personnel_attendance. rewrite Hwg, no_force.
      apply date_loop_settles; [reflexivity|exact Hd]. }
    destruct (_process_personnel_attendance db p (req_start_date request)
                (req_end_date request) (force_reprocess request)) as [[k|e] db1];
      cbn [fst snd] in *.
    + eapply settled_follows; [|exact Hp].
      rewrite <- no_force. apply follows_personnel_loop.
    + eapply settled_follows;
        [rewrite <- no_force; apply follows_personnel_loop|].
      eapply settled_quiet; [apply quiet_log_to|exact Hp].
  - destruct (_process_personnel_attendance db a (req_start_date request)
                (req_end_date request) (force_reprocess request)) as [[k|e] db1];
      now apply IH.
Qed.

Lemma personnel_loop_quiet personnel_list :
  forall db n errs,
    (forall p wg d,
       In p personnel_list -> work_group p = Some wg ->
       reached (req_start_date request) (req_end_date request) d ->
       settled db p wg d) ->
    exists errs' db',
      personnel_loop db personnel_list request n errs = (n, errs', db') /\ quiet db db'.
Proof.
  induction personnel_list as [|a rest IH]; intros db n errs Hall; cbn [personnel_loop].
  - do 2 eexists; split; [reflexivity|apply quiet_refl].
  - assert (Hstep : exists r db1,
               _process_personnel_attendance db a (req_start_date request)
                 (req_end_date request) (force_reprocess request) = (r, db1)
               /\ counts_nothing 0 r /\ quiet db db1).
    { unfold _process_personnel_attendance. rewrite no_force.
      destruct (work_group a) as [wg|] eqn:Hwg.
      - apply date_loop_quiet. intros d Hd. apply Hall; [now left|exact Hwg|exact Hd].
      - do 2 eexists; split; [reflexivity|split; [now left|apply quiet_log_to]]. }
    destruct Hstep as (r & db1 & -> & [-> | [e ->]] & Hq1).
    + destruct (IH db1 (n + 0) errs) as (errs2 & db2 & -> & Hq2).
      * intros p wg d Hin Hwg Hd. apply (settled_quiet db); [exact Hq1|].
        apply Hall; [now right|exact Hwg|exact Hd].
      * exists errs2, db2. split; [now rewrite Z.add_0_r|].
        eapply quiet_trans; eassumption.
    + cbv zeta.
      assert (Hq : quiet db (log_to ERROR (PersonnelError (personnel_id a) e) db1))
        by (eapply quiet_trans; [exact Hq1|apply quiet_log_to]).
      destruct (IH (log_to ERROR (PersonnelError (personnel_id a) e) db1) n
                  (errs ++ [personnel_error_text a e])%list) as (errs2 & db2 & -> & Hq2).
      * intros p wg d Hin Hwg Hd. apply (settled_quiet db); [exact Hq|].
        apply Hall; [now right|exact Hwg|exact Hd].
      * exists errs2, db2. split; [reflexivity|]. eapply quiet_trans; eassumption.
Qed.

Lemma process_attendance_selected db p rest :
  select_personnel db request = p :: rest ->
  process_attendance db request =
    (mk_Response (fst (fst (personnel_loop db (p :: rest) request 0 [])))
       (Z.of_nat (length (p :: rest)))
       (snd (fst (personnel_loop db (p :: rest) request 0 []))) [],
     snd (personnel_loop db (p :: rest) request 0 [])).
Proof.
  intros E. unfold process_attendance. rewrite E.
  destruct (personnel_loop db (p :: rest) request 0 []) as [[k errs] db1]; reflexivity.
Qed.

Lemma select_personnel_static db db' :
  static_eq db db' -> select_personnel db' request = select_personnel db request.
Proof. intros (Hp & _). unfold select_personnel. now rewrite Hp. Qed.

End Batch.

(** A date that has a summary is passed over without [force_reprocess]:
    nothing is computed and nothing is counted. *)
Lemma process_date_skips db personnel wg cal d n :
  existing_summary db (personnel_id personnel) d <> None ->
  process_date db personnel wg cal d false n = (n, db).
Proof.
  intros Hne. unfold process_date.
  destruct (d <? dt_date (start_date personnel)); [reflexivity|].
  destruct (match end_date personnel with Some e => dt_date e <? d | None => false end);
    [reflexivity|].
  destruct (existing_summary db (personnel_id personnel) d); [reflexivity|congruence].
Qed.

(** C5.  Without [force_reprocess] a date that already has a summary is
    skipped, so a run leaves every summary that was there as it was, and
    a second run over the same range counts zero processed days and leaves
    the summaries and the attendance logs of the first run as they are. *)
Theorem C5_second_run_is_idle (db : DB) (request : AttendanceProcessingRequest) :
  force_reprocess request = false ->
  let run1 := process_attendance db request in
  let run2 := process_attendance (snd run1) request in
  (forall db0 personnel wg cal d n,
     existing_summary db0 (personnel_id personnel) d <> None ->
     process_date db0 personnel wg cal d (force_reprocess request) n = (n, db0))
  /\ (forall pid d s,
        existing_summary db pid d = Some s ->
        existing_summary (snd run1) pid d = Some s)
  /\ daily_summaries (snd run2) = daily_summaries (snd run1)
  /\ attendance_logs (snd run2) = attendance_logs (snd run1)
  /\ processed_days (fst run2) = 0.
Proof.
  intros Hf run1 run2.
  split.
  { intros db0 personnel wg cal d n Hne. rewrite Hf. now apply process_date_skips. }
  pose proof (follows_process_attendance db request) as Hfol. rewrite Hf in Hfol.
  fold run1 in Hfol.
  split.
  { intros pid d s Hs. destruct Hfol as (_ & _ & Hrows).
    destruct (Hrows eq_refl) as [rows Hr].
    exact (existing_summary_app db (snd run1) rows pid d s Hr Hs). }
  subst run2.
  destruct (select_personnel db request) as [|p rest] eqn:E.
  - assert (Hrun1 : run1 = (mk_Response 0 0 ["No active personnel found for processing"] [],
                            db)).
    { subst run1. unfold process_attendance. now rewrite E. }
    rewrite Hrun1. cbn [snd]. unfold process_attendance. rewrite E. repeat split.
  - assert (Hsel : select_personnel (snd run1) request = p :: rest).
    { rewrite (select_personnel_static request db (snd run1)); [exact E|apply Hfol]. }
    rewrite (process_attendance_selected request (snd run1) p rest Hsel).
    cbn [fst snd processed_days].
    destruct (personnel_loop_quiet request Hf (p :: rest) (snd run1) 0 [])
      as (errs2 & db2 & Hloop & (_ & Hd & Hl)).
    + intros q wg d Hin Hwg Hd. subst run1.
      rewrite (process_attendance_selected request db p rest E). cbn [snd].
      now apply personnel_loop_settles.
    + rewrite Hloop. cbn [fst snd]. repeat split; assumption.
Qed.

(** Three days for one person: a holiday, a worked day and a day without
    shift are summarised by the first run; the second run counts nothing
    and changes no summary. *)
Lemma C5_office_twice :
  processed_days (fst (process_attendance office_db three_days)) = 3
  /\ map ds_status (daily_summaries (snd (process_attendance office_db three_days)))
     = ["Holiday"; "OK"; "NoShift"]
  /\ daily_summaries
       (snd (process_attendance (snd (process_attendance office_db three_days)) three_days))
     = daily_summaries (snd (process_attendance office_db three_days))
  /\ processed_days
       (fst (process_attendance (snd (process_attendance office_db three_days)) three_days))
     = 0.
Proof.
  destruct (C5_second_run_is_idle office_db three_days eq_refl)
    as (_ & _ & Hd & _ & Hz).
  split; [vm_compute; reflexivity|]. split; [vm_compute; reflexivity|].
  split; [exact Hd|exact Hz].
Defined.

(** * Further properties of the calculator *)

Section MoreFrames.

Variables (logs : list AttendanceLog) (log0 : AttendanceLog) (sh : Shift).
Variable r : AttendanceResult.

Lemma overtime_first_and_last :
  overtime_duration (with_first_and_last logs log0 r) = overtime_duration r.
Proof. frame. Qed.
Lemma overtime_expected_work :
  overtime_duration (with_expected_work sh r) = overtime_duration r.
Proof. frame. Qed.
Lemma overtime_presence : overtime_duration (with_presence logs r) = overtime_duration r.
Proof. frame. Qed.
Lemma overtime_tardiness : overtime_duration (with_tardiness sh r) = overtime_duration r.
Proof. frame. Qed.
Lemma overtime_overtime :
  overtime_duration (with_overtime sh r) =
    match last_exit_time r with
    | Some last_exit =>
        if expected_end_of sh <? dt_time last_exit
        then _time_diff_minutes (expected_end_of sh) (dt_time last_exit)
        else overtime_duration r
    | None => overtime_duration r
    end.
Proof. unfold expected_end_of. frame. Qed.
Lemma overtime_undertime : overtime_duration (with_undertime r) = overtime_duration r.
Proof. frame. Qed.
Lemma overtime_incomplete_flag :
  overtime_duration (with_incomplete_flag logs r) = overtime_duration r.
Proof. frame. Qed.

Lemma undertime_first_and_last :
  undertime_duration (with_first_and_last logs log0 r) = undertime_duration r.
Proof. frame. Qed.
Lemma undertime_expected_work :
  undertime_duration (with_expected_work sh r) = undertime_duration r.
Proof. frame. Qed.
Lemma undertime_presence : undertime_duration (with_presence logs r) = undertime_duration r.
Proof. frame. Qed.
Lemma undertime_tardiness : undertime_duration (with_tardiness sh r) = undertime_duration r.
Proof. frame. Qed.
Lemma undertime_overtime : undertime_duration (with_overtime sh r) = undertime_duration r.
Proof. frame. Qed.
Lemma undertime_undertime :
  undertime_duration (with_undertime r) =
    if presence_duration r <? expected_work_duration r
    then expected_work_duration r - presence_duration r
    else undertime_duration r.
Proof. frame. Qed.
Lemma undertime_incomplete_flag :
  undertime_duration (with_incomplete_flag logs r) = undertime_duration r.
Proof. frame. Qed.

Lemma absent_first_and_last : absent (with_first_and_last logs log0 r) = absent r.
Proof. frame. Qed.
Lemma absent_expected_work : absent (with_expected_work sh r) = absent r.
Proof. frame. Qed.
Lemma absent_presence : absent (with_presence logs r) = absent r.
Proof. frame. Qed.
Lemma absent_tardiness : absent (with_tardiness sh r) = absent r.
Proof. frame. Qed.
Lemma absent_overtime : absent (with_overtime sh r) = absent r.
Proof. frame. Qed.
Lemma absent_undertime : absent (with_undertime r) = absent r.
Proof. frame. Qed.
Lemma absent_incomplete_flag : absent (with_incomplete_flag logs r) = absent r.
Proof. frame. Qed.

Lemma first_entry_tardiness : first_entry_time (with_tardiness sh r) = first_entry_time r.
Proof. frame. Qed.
Lemma first_entry_overtime : first_entry_time (with_overtime sh r) = first_entry_time r.
Proof. frame. Qed.
Lemma first_entry_undertime : first_entry_time (with_undertime r) = first_entry_time r.
Proof. frame. Qed.
Lemma first_entry_incomplete_flag :
  first_entry_time (with_incomplete_flag logs r) = first_entry_time r.
Proof. frame. Qed.

End MoreFrames.

#[local] Hint Rewrite
  overtime_first_and_last overtime_expected_work overtime_presence overtime_tardiness
  overtime_overtime overtime_undertime overtime_incomplete_flag
  undertime_first_and_last undertime_expected_work undertime_presence
  undertime_tardiness undertime_overtime undertime_undertime undertime_incomplete_flag
  absent_first_and_last absent_expected_work absent_presence absent_tardiness
  absent_overtime absent_undertime absent_incomplete_flag
  first_entry_tardiness first_entry_overtime first_entry_undertime
  first_entry_incomplete_flag
  : calc.

Lemma even_mod2 (n : nat) :
  Nat.odd n = false -> negb (Nat.eqb (Nat.modulo n 2) 0) = false.
Proof.
  intros Hodd. rewrite <- Nat.negb_even in Hodd. apply negb_false_iff in Hodd.
  apply Nat.even_spec in Hodd. destruct Hodd as [k ->].
  now rewrite Nat.mul_comm, Nat.Div0.mod_mul.
Qed.

(** X1.  Overtime is measured against the end of the second interval when
    the shift has one and against the end of the first otherwise: when the
    last punch is later, overtime is the gap in minutes, and it is 0
    otherwise; it is never negative. *)
Theorem overtime_rule (log0 : AttendanceLog) (rest : list AttendanceLog) (sh : Shift)
    (d : date) :
  let exit_time := dt_time (timestamp (last (log0 :: rest) log0)) in
  let r := _calculate_attendance_times (log0 :: rest) sh d in
  overtime_duration r =
    (if expected_end_of sh <? exit_time
     then (exit_time - expected_end_of sh) ÷ usec_per_minute
     else 0)
  /\ 0 <= overtime_duration r.
Proof.
  intros exit_time r.
  assert (H : overtime_duration r =
              if expected_end_of sh <? exit_time
              then (exit_time - expected_end_of sh) ÷ usec_per_minute else 0).
  { subst r. calc_field. cbn [dt_time]. fold exit_time.
    destruct (Z.ltb_spec (expected_end_of sh) exit_time); [|reflexivity].
    apply time_diff_forward. lia. }
  split; [exact H|]. rewrite H.
  destruct (Z.ltb_spec (expected_end_of sh) exit_time); [|lia].
  apply Z.quot_pos; unfold usec_per_minute; lia.
Qed.

(** X2.  Undertime is the shortfall of presence against the expected work,
    floored at 0, so presence plus undertime always covers the expected
    work. *)
Theorem undertime_rule (log0 : AttendanceLog) (rest : list AttendanceLog) (sh : Shift)
    (d : date) :
  let r := _calculate_attendance_times (log0 :: rest) sh d in
  undertime_duration r = Z.max 0 (expected_work_duration r - presence_duration r)
  /\ expected_work_duration r <= presence_duration r + undertime_duration r.
Proof.
  intros r.
  assert (H : undertime_duration r
              = Z.max 0 (expected_work_duration r - presence_duration r)).
  { subst r. calc_field.
    match goal with |- (if ?a <? ?b then _ else _) = _ =>
      destruct (Z.ltb_spec a b)
    end.
    - rewrite Z.max_r by lia. reflexivity.
    - rewrite Z.max_l by lia. reflexivity. }
  split; [exact H|]. rewrite H. lia.
Qed.

(** X3.  A day with at least one punch is never marked absent; its first
    entry is the first punch; its status is "OK" with no note when the
    number of punches is even. *)
Theorem logged_day_flags (log0 : AttendanceLog) (rest : list AttendanceLog) (sh : Shift)
    (d : date) :
  let r := _calculate_attendance_times (log0 :: rest) sh d in
  absent r = false
  /\ first_entry_time r = Some (timestamp log0)
  /\ (Nat.odd (length (log0 :: rest)) = false -> status r = "OK" /\ notes r = None).
Proof.
  intros r. subst r. split; [|split].
  - calc_field. reflexivity.
  - calc_field. reflexivity.
  - intros Hodd. pose proof (even_mod2 _ Hodd) as Hm.
    split; calc_field; rewrite Hm; reflexivity.
Qed.

Lemma logged_day_even_example :
  let r := _calculate_attendance_times [punch 1 100 8 0; punch 2 100 16 0]
             standard_shift 100 in
  Nat.odd (length [punch 1 100 8 0; punch 2 100 16 0]) = false
  /\ status r = "OK" /\ notes r = None.
Proof.
  split; [reflexivity|].
  exact (proj2 (proj2 (logged_day_flags (punch 1 100 8 0) [punch 2 100 16 0]
                         standard_shift 100)) eq_refl).
Defined.

(** ** Presence of a chronological punch list *)

Section Presence.

Lemma total_presence_acc (ps : list (AttendanceLog * AttendanceLog)) :
  forall acc,
    fold_left
      (fun total_presence p =>
         total_presence + _datetime_diff_minutes (timestamp (fst p)) (timestamp (snd p)))
      ps acc
    = acc + total_presence_of ps.
Proof.
  unfold total_presence_of.
  induction ps as [|p ps IH]; intros acc; cbn [fold_left]; [lia|].
  rewrite IH. rewrite (IH (0 + _)). lia.
Qed.

Lemma total_presence_cons (a b : AttendanceLog) ps :
  total_presence_of ((a, b) :: ps)
  = _datetime_diff_minutes (timestamp a) (timestamp b) + total_presence_of ps.
Proof.
  unfold total_presence_of at 1. cbn [fold_left fst snd].
  rewrite total_presence_acc. lia.
Qed.

Lemma datetime_diff_abs (a b : datetime) :
  _datetime_diff_minutes a b = (abs_usec b - abs_usec a) ÷ usec_per_minute.
Proof.
  unfold _datetime_diff_minutes, int_minutes, dt_sub, abs_usec. f_equal. lia.
Qed.

Lemma minutes_of_gap (x : Z) :
  0 <= x -> 0 <= x ÷ usec_per_minute /\ usec_per_minute * (x ÷ usec_per_minute) <= x.
Proof.
  intros Hx. unfold usec_per_minute. split.
  - apply Z.quot_pos; lia.
  - apply Z.mul_quot_le; lia.
Qed.

Lemma last_cons_default {A} (l : list A) :
  forall c d d', last (c :: l) d = last (c :: l) d'.
Proof.
  induction l as [|x l IH]; intros c d d'; [reflexivity|].
  change (last (x :: l) d = last (x :: l) d'). apply IH.
Qed.

Lemma presence_span (logs : list AttendanceLog) :
  chronological logs ->
  0 <= total_presence_of (pairs_by_position logs)
  /\ forall a, hd_error logs = Some a ->
       usec_per_minute * total_presence_of (pairs_by_position logs)
       <= abs_usec (timestamp (last logs a)) - abs_usec (timestamp a).
Proof.
  unfold chronological.
  induction logs as [| a | a b l IH] using list_pair_ind; intros Hs.
  - split; [reflexivity|]. discriminate.
  - split; [reflexivity|]. intros a' Ha. injection Ha as <-.
    cbn [pairs_by_position last]. unfold total_presence_of. cbn [fold_left]. lia.
  - apply StronglySorted_inv in Hs. destruct Hs as [Hs Ha].
    apply StronglySorted_inv in Hs. destruct Hs as [Hs Hb].
    apply Forall_inv in Ha. unfold ts_le in Ha.
    destruct (IH Hs) as [Hpos Hspan].
    cbn [pairs_by_position]. rewrite total_presence_cons, datetime_diff_abs.
    destruct (minutes_of_gap (abs_usec (timestamp b) - abs_usec (timestamp a)))
      as [Hq Hm]; [lia|].
    split; [lia|].
    intros a' Ha'. injection Ha' as <-.
    destruct l as [|c l'].
    + cbn [pairs_by_position last] in *. unfold total_presence_of in *.
      cbn [fold_left] in *. lia.
    + specialize (Hspan c eq_refl).
      apply Forall_inv in Hb. unfold ts_le in Hb.
      change (last (a :: b :: c :: l') a) with (last (c :: l') a).
      rewrite (last_cons_default l' c a c).
      lia.
Qed.

End Presence.

Lemma presence_le_span (log0 : AttendanceLog) (rest : list AttendanceLog)
    (sh : Shift) (d : date) :
  chronological (log0 :: rest) ->
  0 <= presence_duration (_calculate_attendance_times (log0 :: rest) sh d)
       <= _datetime_diff_minutes (timestamp log0) (timestamp (last (log0 :: rest) log0)).
Proof.
  intros Hc. rewrite calc_presence_duration.
  destruct (presence_span (log0 :: rest) Hc) as [Hpos Hspan].
  split; [exact Hpos|].
  rewrite datetime_diff_abs.
  apply Z.quot_le_lower_bound; [unfold usec_per_minute; lia|].
  exact (Hspan log0 eq_refl).
Qed.

(** X4.  For punches in chronological order the presence is not negative and
    not more than the minutes between the first and the last punch. *)
Theorem presence_within_span (log0 : AttendanceLog) (rest : list AttendanceLog)
    (sh : Shift) (d : date) :
  chronological (log0 :: rest) ->
  let r := _calculate_attendance_times (log0 :: rest) sh d in
  0 <= presence_duration r
       <= _datetime_diff_minutes (timestamp log0) (timestamp (last (log0 :: rest) log0)).
Proof. intros Hc r. exact (presence_le_span log0 rest sh d Hc). Qed.

Lemma three_punches_chronological : chronological three_punches.
Proof.
  unfold chronological, three_punches.
  repeat (constructor; [|repeat (constructor; try (vm_compute; discriminate))]).
  constructor.
Qed.

(** ** The punches of one day *)

Section DayLogs.

Lemma insert_by_timestamp_perm (x : AttendanceLog) (l : list AttendanceLog) :
  Permutation (insert_by_timestamp x l) (x :: l).
Proof.
  induction l as [|y l IH]; cbn [insert_by_timestamp]; [apply Permutation_refl|].
  destruct (dt_ltb (timestamp x) (timestamp y)); [apply Permutation_refl|].
  eapply Permutation_trans; [apply perm_skip, IH|apply perm_swap].
Qed.

Lemma order_by_timestamp_acc (l : list AttendanceLog) :
  forall acc,
    Permutation (fold_left (fun sorted x => insert_by_timestamp x sorted) l acc)
      (l ++ acc).
Proof.
  induction l as [|x l IH]; intros acc; cbn [fold_left app]; [apply Permutation_refl|].
  eapply Permutation_trans; [apply IH|].
  eapply Permutation_trans;
    [apply Permutation_app_head, insert_by_timestamp_perm|].
  apply Permutation_sym, Permutation_middle.
Qed.

Lemma order_by_timestamp_perm (l : list AttendanceLog) :
  Permutation (order_by_timestamp l) l.
Proof.
  unfold order_by_timestamp.
  eapply Permutation_trans; [apply order_by_timestamp_acc|].
  rewrite app_nil_r. apply Permutation_refl.
Qed.

Variables (pid : Z) (d : date).

(** What the filter of [_get_day_logs] accepts. *)
Lemma in_day_true (l : AttendanceLog) :
  in_day pid d l = true ->
  log_personnel_id l = pid /\ dt_date (timestamp l) = d
  /\ 0 <= dt_time (timestamp l) <= time_max.
Proof.
  unfold in_day, dt_leb, combine, time_min. cbn [dt_date dt_time].
  intros H. apply andb_prop in H. destruct H as [H H3].
  apply andb_prop in H. destruct H as [H1 H2].
  apply Z.eqb_eq in H1.
  apply orb_prop in H2. apply orb_prop in H3.
  split; [exact H1|].
  destruct H2 as [H2|H2], H3 as [H3|H3];
    repeat match goal with
           | H : (_ && _)%bool = true |- _ => apply andb_prop in H; destruct H
           | H : (_ <? _) = true |- _ => apply Z.ltb_lt in H
           | H : (_ <=? _) = true |- _ => apply Z.leb_le in H
           | H : (_ =? _) = true |- _ => apply Z.eqb_eq in H
           end; lia.
Qed.

Lemma in_day_intro (l : AttendanceLog) :
  log_personnel_id l = pid -> dt_date (timestamp l) = d ->
  valid_time (dt_time (timestamp l)) ->
  in_day pid d l = true.
Proof.
  unfold in_day, dt_leb, combine, time_min, time_max, valid_time.
  cbn [dt_date dt_time]. intros -> -> [H0 H1].
  rewrite !Z.eqb_refl, Z.ltb_irrefl. cbn [andb orb].
  apply andb_true_intro; split; apply Z.leb_le; lia.
Qed.

Lemma insert_keeps_order (x : AttendanceLog) (l : list AttendanceLog) :
  on_day d x -> Forall (on_day d) l -> chronological l ->
  chronological (insert_by_timestamp x l).
Proof.
  unfold chronological, on_day. intros Hx Hl Hs.
  induction l as [|y l IH]; cbn [insert_by_timestamp].
  - constructor; constructor.
  - apply StronglySorted_inv in Hs. destruct Hs as [Hs Hy].
    pose proof (Forall_inv Hl) as Hyd. pose proof (Forall_inv_tail Hl) as Hld.
    unfold dt_ltb. rewrite Hx, Hyd, Z.ltb_irrefl, Z.eqb_refl. cbn [orb andb].
    destruct (Z.ltb_spec (dt_time (timestamp x)) (dt_time (timestamp y))) as [Hlt|Hge].
    + constructor; [constructor; assumption|].
      assert (Hxy : ts_le x y) by (unfold ts_le, abs_usec; rewrite Hx, Hyd; lia).
      constructor; [exact Hxy|].
      eapply Forall_impl; [|exact Hy]. unfold ts_le in *. intros z Hz. lia.
    + constructor; [apply IH; assumption|].
      eapply Permutation_Forall;
        [apply Permutation_sym, insert_by_timestamp_perm|].
      constructor; [|exact Hy].
      unfold ts_le, abs_usec. rewrite Hx, Hyd. lia.
Qed.

Lemma order_keeps_order (l : list AttendanceLog) :
  forall acc,
    Forall (on_day d) l -> Forall (on_day d) acc -> chronological acc ->
    chronological (fold_left (fun sorted x => insert_by_timestamp x sorted) l acc).
Proof.
  induction l as [|x l IH]; intros acc Hl Hacc Hs; cbn [fold_left]; [exact Hs|].
  apply IH.
  - exact (Forall_inv_tail Hl).
  - eapply Permutation_Forall;
      [apply Permutation_sym, insert_by_timestamp_perm|].
    constructor; [exact (Forall_inv Hl)|exact Hacc].
  - apply insert_keeps_order; [exact (Forall_inv Hl)|exact Hacc|exact Hs].
Qed.

End DayLogs.

Lemma day_logs_perm (db : DB) (pid : Z) (d : date) :
  Permutation (_get_day_logs db pid d) (filter (in_day pid d) (attendance_logs db)).
Proof. apply order_by_timestamp_perm. Qed.

Lemma day_logs_in_day (db : DB) (pid : Z) (d : date) (l : AttendanceLog) :
  In l (_get_day_logs db pid d) -> In l (attendance_logs db) /\ in_day pid d l = true.
Proof.
  intros Hl. apply (Permutation_in _ (day_logs_perm db pid d)) in Hl.
  now apply filter_In in Hl.
Qed.

Lemma day_logs_chronological (db : DB) (pid : Z) (d : date) :
  chronological (_get_day_logs db pid d).
Proof.
  unfold _get_day_logs, order_by_timestamp.
  apply (order_keeps_order d); [|constructor|constructor].
  apply Forall_forall. intros l Hl. apply filter_In in Hl.
  destruct Hl as [_ Hl]. apply in_day_true in Hl. apply Hl.
Qed.

(** X5.  The punches fetched for a person and a date are the rows of that
    person whose timestamp falls on that date, each once, in chronological
    order. *)
Theorem day_logs_selected (db : DB) (pid : Z) (d : date) :
  Permutation (_get_day_logs db pid d) (filter (in_day pid d) (attendance_logs db))
  /\ chronological (_get_day_logs db pid d)
  /\ (forall l, In l (_get_day_logs db pid d) ->
        In l (attendance_logs db) /\ log_personnel_id l = pid
        /\ dt_date (timestamp l) = d)
  /\ (forall l, In l (attendance_logs db) -> log_personnel_id l = pid ->
        dt_date (timestamp l) = d -> valid_time (dt_time (timestamp l)) ->
        In l (_get_day_logs db pid d)).
Proof.
  split; [apply day_logs_perm|]. split; [apply day_logs_chronological|]. split.
  - intros l Hl. apply day_logs_in_day in Hl. destruct Hl as [Hin Hl].
    apply in_day_true in Hl. tauto.
  - intros l Hin Hp Hd Hv.
    apply (Permutation_in _ (Permutation_sym (day_logs_perm db pid d))).
    apply filter_In. split; [exact Hin|]. now apply in_day_intro.
Qed.

(** X6.  The presence computed from the punches fetched for a day is at
    least 0 and at most 1439 minutes. *)
Theorem day_presence_bounds (db : DB) (pid : Z) (d : date) (sh : Shift) :
  0 <= presence_duration
         (_calculate_attendance_times (_get_day_logs db pid d) sh d) <= 1439.
Proof.
  pose proof (day_logs_chronological db pid d) as Hc.
  assert (Hday : forall l, In l (_get_day_logs db pid d) -> in_day pid d l = true).
  { intros l Hl. now apply day_logs_in_day in Hl. }
  destruct (_get_day_logs db pid d) as [|log0 rest] eqn:E.
  - cbn. lia.
  - pose proof (presence_le_span log0 rest sh d Hc) as [Hlo Hhi].
    split; [exact Hlo|].
    eapply Z.le_trans; [exact Hhi|].
    rewrite datetime_diff_abs.
    destruct (in_day_true pid d log0 (Hday log0 (or_introl eq_refl)))
      as (_ & Hd0 & Ht0).
    assert (Hinl : In (last (log0 :: rest) log0) (log0 :: rest)).
    { clear. generalize log0 at 1 3. induction rest as [|x l IH]; intros c.
      - now left.
      - right. change (last (c :: x :: l) log0) with (last (x :: l) log0).
        destruct (IH x) as [H|H]; [left; exact H|right; exact H]. }
    destruct (in_day_true pid d _ (Hday _ Hinl)) as (_ & Hd1 & Ht1).
    unfold abs_usec. rewrite Hd0, Hd1.
    replace 1439 with ((usec_per_day - 1) ÷ usec_per_minute) by reflexivity.
    apply Z.quot_le_mono; unfold time_max, usec_per_day, usec_per_minute in *; lia.
Qed.

(** * Invariants of a run *)

(** A property of the session that the three writes of the processor keep
    is kept by a day, by a person's date range and by the whole batch. *)
Section RunInvariant.

Variable P : DB -> Prop.
Hypothesis P_log : forall lvl msg db, P db -> P (log_to lvl msg db).
Hypothesis P_upsert :
  forall db pid d a,
    a_personnel_id a = Some pid -> a_date a = Some d ->
    P db -> P (upsert_summary db pid d a).
Hypothesis P_mark :
  forall db logs,
    P db -> P (set_attendance_logs (mark_processed logs (attendance_logs db)) db).

Lemma process_day_keeps db db' personnel wg cal d :
  P db -> _process_personnel_day db personnel wg cal d = Ok db' -> P db'.
Proof.
  intros HP. unfold _process_personnel_day.
  destruct (holiday_on db cal d) as [holiday|].
  { intros H; injection H as <-. now apply P_upsert. }
  destruct (approved_leave_on db (personnel_id personnel) d) as [lr|].
  { intros H; injection H as <-. unfold _create_leave_summary.
    destruct (leave_duration_status_notes lr) as [[? ?] ?]. now apply P_upsert. }
  destruct (approved_mission_on db (personnel_id personnel) d) as [mr|].
  { intros H; injection H as <-. unfold _create_mission_summary.
    destruct (mission_duration_status_notes mr) as [[? ?] ?]. now apply P_upsert. }
  destruct (_get_shift_for_date db wg d) as [[sh|]|e]; [| |discriminate].
  - intros H; injection H as <-. apply P_mark. now apply P_upsert.
  - intros H; injection H as <-. now apply P_upsert.
Qed.

Lemma process_date_keeps db personnel wg cal d force n :
  P db -> P (snd (process_date db personnel wg cal d force n)).
Proof.
  intros HP. unfold process_date.
  destruct (d <? dt_date (start_date personnel)); [exact HP|].
  destruct (match end_date personnel with Some e => dt_date e <? d | None => false end);
    [exact HP|].
  destruct (existing_summary db (personnel_id personnel) d), force; try exact HP;
    destruct (_process_personnel_day db personnel wg cal d) as [db'|e] eqn:E;
    cbn [snd]; try (now apply P_log); eapply process_day_keeps; eassumption.
Qed.

Lemma date_loop_keeps fuel :
  forall db personnel wg cal cur stop force n,
    P db -> P (snd (date_loop fuel db personnel wg cal cur stop force n)).
Proof.
  induction fuel as [|fuel IH]; intros db personnel wg cal cur stop force n HP;
    [exact HP|].
  rewrite date_loop_eq.
  destruct (cur <=? stop); [|exact HP].
  cbv zeta.
  pose proof (process_date_keeps db personnel wg cal cur force n HP) as H.
  destruct (process_date db personnel wg cal cur force n) as [k db1].
  cbn [snd] in H.
  destruct (tomorrow cur) as [next|e]; [now apply IH|].
  cbn [snd]. destruct (continues db personnel cur force); [now apply P_log|exact H].
Qed.

Lemma personnel_attendance_keeps db personnel s e force :
  P db -> P (snd (_process_personnel_attendance db personnel s e force)).
Proof.
  intros HP. unfold _process_personnel_attendance.
  destruct (work_group personnel); [now apply date_loop_keeps|now apply P_log].
Qed.

Lemma personnel_loop_keeps personnel_list :
  forall db request n errs,
    P db -> P (snd (personnel_loop db personnel_list request n errs)).
Proof.
  induction personnel_list as [|p rest IH]; intros db request n errs HP;
    cbn [personnel_loop]; [exact HP|].
  pose proof (personnel_attendance_keeps db p (req_start_date request)
                (req_end_date request) (force_reprocess request) HP) as H.
  destruct (_process_personnel_attendance db p (req_start_date request)
              (req_end_date request) (force_reprocess request)) as [[k|e] db1];
    cbn [snd] in H; apply IH; [exact H|now apply P_log].
Qed.

Lemma process_attendance_keeps db request :
  P db -> P (snd (process_attendance db request)).
Proof.
  intros HP. unfold process_attendance.
  destruct (select_personnel db request) as [|p rest]; [exact HP|].
  pose proof (personnel_loop_keeps (p :: rest) db request 0 [] HP) as H.
  destruct (personnel_loop db (p :: rest) request 0 []) as [[k errs] db1]. exact H.
Qed.

End RunInvariant.

Section SummaryKeys.

Lemma summary_for_key pid d s :
  summary_for pid d s = true <-> summary_key s = (pid, d).
Proof.
  unfold summary_for, summary_key. split.
  - intros H. apply andb_prop in H. destruct H as [H1 H2].
    apply Z.eqb_eq in H1. apply Z.eqb_eq in H2. congruence.
  - intros H. injection H as -> ->. now rewrite !Z.eqb_refl.
Qed.

Lemma keys_update_first pid d a rows :
  a_personnel_id a = Some pid -> a_date a = Some d ->
  map summary_key (update_first (summary_for pid d) (overlay a) rows)
  = map summary_key rows.
Proof.
  intros Hp Hd. induction rows as [|x rows IH]; [reflexivity|].
  cbn [update_first]. destruct (summary_for pid d x) eqn:E; cbn [map].
  - f_equal. apply summary_for_key in E. rewrite E.
    apply summary_for_key. now apply overlay_keeps_key.
  - now rewrite IH.
Qed.

Lemma one_summary_upsert db pid d a :
  a_personnel_id a = Some pid -> a_date a = Some d ->
  one_summary_per_day db -> one_summary_per_day (upsert_summary db pid d a).
Proof.
  intros Hp Hd Hn. unfold one_summary_per_day, upsert_summary in *.
  destruct (existing_summary db pid d) as [old|] eqn:E;
    cbn [set_daily_summaries daily_summaries].
  - now rewrite keys_update_first.
  - rewrite map_app. cbn [map].
    eapply Permutation_NoDup; [apply Permutation_cons_append|].
    constructor; [|exact Hn].
    intros Hin. apply in_map_iff in Hin. destruct Hin as (x & Hk & Hx).
    unfold existing_summary in E. pose proof (find_none _ _ E x Hx) as Hf.
    assert (Hkey : summary_key (inserted_row (next_id (daily_summaries db)) a) = (pid, d)).
    { apply summary_for_key. unfold inserted_row. now apply overlay_keeps_key. }
    rewrite Hkey in Hk. apply summary_for_key in Hk. congruence.
Qed.

End SummaryKeys.

(** X7.  If no two summaries share a person and a date before a batch run,
    none do after it, with or without [force_reprocess]: reprocessing
    overwrites and never duplicates. *)
Theorem batch_keeps_one_summary_per_day (db : DB) (request : AttendanceProcessingRequest) :
  one_summary_per_day db ->
  one_summary_per_day (snd (process_attendance db request)).
Proof.
  apply process_attendance_keeps.
  - intros lvl msg db0 H. exact H.
  - intros db0 pid d a Hp Hd. now apply one_summary_upsert.
  - intros db0 logs H. exact H.
Qed.

Lemma mark_processed_kept (l0 table logs : list AttendanceLog) :
  Forall2 same_punch l0 table -> Forall2 same_punch l0 (mark_processed logs table).
Proof.
  unfold mark_processed. induction 1 as [|x y l0 table Hxy _ IH]; cbn [map];
    constructor; [|exact IH].
  destruct (existsb (fun l => log_id l =? log_id y) logs); [|exact Hxy].
  destruct Hxy as (H1 & H2 & H3 & H4 & H5 & H6).
  repeat split; assumption || reflexivity.
Qed.

Lemma punches_kept_refl db : punches_kept db db.
Proof.
  unfold punches_kept. induction (attendance_logs db) as [|x l IH]; constructor;
    [repeat split; auto|exact IH].
Qed.

(** X8.  A batch run neither adds, removes nor reorders punches and never
    changes their id, person, timestamp, device or type; a punch that was
    flagged as processed stays flagged. *)
Theorem batch_keeps_punches (db : DB) (request : AttendanceProcessingRequest) :
  punches_kept db (snd (process_attendance db request)).
Proof.
  apply (process_attendance_keeps (punches_kept db)).
  - intros lvl msg db0 H. exact H.
  - intros db0 pid d a _ _ H. unfold punches_kept in *.
    now rewrite upsert_attendance_logs.
  - intros db0 logs H. unfold punches_kept in *.
    cbn [set_attendance_logs attendance_logs]. now apply mark_processed_kept.
  - apply punches_kept_refl.
Qed.

(** X9.  A batch run leaves the personnel, the holidays, the leave and
    mission requests and the shift assignments as they are, and its
    response carries no warning.  When no active person is selected the
    response carries the one error that says so.  Otherwise it counts the
    selected persons, and its errors are: none, unless the range is not
    empty and ends at [date.max]; then one "date value out of range" for
    each selected person with a work group, in the order of the selection. *)
Theorem batch_reads_only (db : DB) (request : AttendanceProcessingRequest) :
  let run := process_attendance db request in
  static_eq db (snd run)
  /\ warnings (fst run) = []
  /\ processed_personnel (fst run) = Z.of_nat (length (select_personnel db request))
  /\ (select_personnel db request <> [] ->
      errors (fst run) =
        if reaches_date_max request
        then map (fun p => personnel_error_text p OverflowError)
                 (filter has_work_group (select_personnel db request))
        else [])
  /\ (select_personnel db request = [] ->
      run = (mk_Response 0 0 ["No active personnel found for processing"] [], db)).
Proof.
  intros run. split; [apply (follows_process_attendance db request)|].
  subst run. unfold process_attendance.
  destruct (select_personnel db request) as [|p rest] eqn:E.
  - repeat split; congruence.
  - pose proof (personnel_loop_errors (p :: rest) db request 0 []) as Herr.
    destruct (personnel_loop db (p :: rest) request 0 []) as [[k errs] db1].
    cbn [fst snd errors] in *. repeat split; try congruence.
    intros _. rewrite Herr. unfold overflow_errors. cbn [app].
    destruct (reaches_date_max request).
    + f_equal. apply filter_ext. intros q. apply andb_true_r.
    + now rewrite filter_andb_false.
Qed.

(** Over the last two dates there are, the person with a work group gets
    both days summarised, then the increment raises: the response counts no
    day and carries the error; the person without a work group adds none. *)
Lemma batch_at_date_max_example :
  errors (fst (process_attendance last_days_db last_two_days))
  = ["Error processing personnel 1: date value out of range"]
  /\ processed_days (fst (process_attendance last_days_db last_two_days)) = 0
  /\ map (fun s => (ds_personnel_id s, ds_date s, ds_status s))
         (daily_summaries (snd (process_attendance last_days_db last_two_days)))
     = [(1, date_max - 1, "NoShift"); (1, date_max, "NoShift")]
  /\ logger (snd (process_attendance last_days_db last_two_days))
     = [(ERROR, PersonnelError 1 OverflowError); (WARNING, NoWorkGroup 2)].
Proof.
  split.
  - destruct (batch_reads_only last_days_db last_two_days) as (_ & _ & _ & Herr & _).
    rewrite Herr by discriminate. reflexivity.
  - vm_compute. repeat split; reflexivity.
Defined.

Lemma batch_keeps_one_summary_example :
  one_summary_per_day worked_db
  /\ one_summary_per_day (snd (process_attendance worked_db forced_three_days))
  /\ length (daily_summaries (snd (process_attendance worked_db forced_three_days)))
     = 3%nat.
Proof.
  assert (H : one_summary_per_day worked_db).
  { unfold one_summary_per_day. cbn. constructor; [intros []|constructor]. }
  split; [exact H|].
  split; [exact (batch_keeps_one_summary_per_day worked_db forced_three_days H)|].
  vm_compute. reflexivity.
Defined.

(** * One day, branch by branch *)

Section DayBranches.

Lemma find_app_skip {A} (p : A -> bool) (l : list A) (y : A) :
  p y = false -> find p (l ++ [y]) = find p l.
Proof.
  intros Hy. induction l as [|x l IH]; cbn [find app].
  - now rewrite Hy.
  - destruct (p x); [reflexivity|exact IH].
Qed.

Lemma upsert_other_key db pid d a pid' d' :
  (pid', d') <> (pid, d) ->
  a_personnel_id a = Some pid -> a_date a = Some d ->
  existing_summary (upsert_summary db pid d a) pid' d' = existing_summary db pid' d'.
Proof.
  intros Hne Hp Hd.
  assert (Hoff : forall x, summary_for pid d x = true -> summary_for pid' d' x = false).
  { intros x Hx. apply summary_for_key in Hx.
    destruct (summary_for pid' d' x) eqn:E; [|reflexivity].
    apply summary_for_key in E. congruence. }
  unfold upsert_summary, existing_summary.
  destruct (find (summary_for pid d) (daily_summaries db)) as [old|] eqn:E;
    cbn [set_daily_summaries daily_summaries].
  - clear E. induction (daily_summaries db) as [|x rows IH]; [reflexivity|].
    cbn [update_first]. destruct (summary_for pid d x) eqn:Ex; cbn [find].
    + rewrite (Hoff x Ex).
      rewrite (Hoff (overlay a x) (overlay_keeps_key pid d a Hp Hd x)). reflexivity.
    + now rewrite IH.
  - apply find_app_skip. apply Hoff. unfold inserted_row.
    now apply overlay_keeps_key.
Qed.

(** Every day that is processed performs one upsert for its own key, and
    the punch path then flags the fetched punches. *)
Lemma process_day_is_upsert db db' personnel wg cal d :
  _process_personnel_day db personnel wg cal d = Ok db' ->
  exists a,
    a_personnel_id a = Some (personnel_id personnel) /\ a_date a = Some d
    /\ (db' = upsert_summary db (personnel_id personnel) d a
        \/ exists logs,
             db' = set_attendance_logs (mark_processed logs (attendance_logs db))
                     (upsert_summary db (personnel_id personnel) d a)).
Proof.
  unfold _process_personnel_day.
  destruct (holiday_on db cal d) as [holiday|].
  { intros H; injection H as <-. eexists. split; [|split; [|left; reflexivity]];
      reflexivity. }
  destruct (approved_leave_on db (personnel_id personnel) d) as [lr|].
  { intros H; injection H as <-. unfold _create_leave_summary.
    destruct (leave_duration_status_notes lr) as [[? ?] ?].
    eexists. split; [|split; [|left; reflexivity]]; reflexivity. }
  destruct (approved_mission_on db (personnel_id personnel) d) as [mr|].
  { intros H; injection H as <-. unfold _create_mission_summary.
    destruct (mission_duration_status_notes mr) as [[? ?] ?].
    eexists. split; [|split; [|left; reflexivity]]; reflexivity. }
  destruct (_get_shift_for_date db wg d) as [[sh|]|e]; [| |discriminate].
  - intros H; injection H as <-. unfold _create_or_update_daily_summary.
    match goal with |- context [upsert_summary db _ d ?a] => exists a end.
    split; [reflexivity|]. split; [reflexivity|]. right.
    eexists. rewrite upsert_attendance_logs. reflexivity.
  - intros H; injection H as <-. eexists.
    split; [|split; [|left; reflexivity]]; reflexivity.
Qed.

End DayBranches.

Lemma day_frame (db db' : DB) (personnel : Personnel) (wg : WorkGroup) (cal : Calendar)
    (d : date) (pid' : Z) (d' : date) :
  _process_personnel_day db personnel wg cal d = Ok db' ->
  (pid', d') <> (personnel_id personnel, d) ->
  existing_summary db' pid' d' = existing_summary db pid' d'.
Proof.
  intros Hday Hne.
  destruct (process_day_is_upsert _ _ _ _ _ _ Hday) as (a & Hp & Hd & [-> | [logs ->]]).
  - now apply upsert_other_key.
  - change (existing_summary (set_attendance_logs ?v ?x) pid' d')
      with (existing_summary x pid' d').
    now apply upsert_other_key.
Qed.

(** X10.  Processing a day reads and writes the summary of that person and
    date only: the summary of every other person or date is what it was. *)
Theorem day_touches_own_summary_only (db db' : DB) (personnel : Personnel)
    (wg : WorkGroup) (cal : Calendar) (d : date) (pid' : Z) (d' : date) :
  _process_personnel_day db personnel wg cal d = Ok db' ->
  (pid', d') <> (personnel_id personnel, d) ->
  existing_summary db' pid' d' = existing_summary db pid' d'.
Proof.
  exact (day_frame db db' personnel wg cal d pid' d').
Qed.

Lemma zero_period_of_failure (db : DB) (personnel : Personnel) (wg : WorkGroup)
    (cal : Calendar) (d : date) :
  (exists e, _process_personnel_day db personnel wg cal d = Raise e) ->
  repetition_period_days wg = 0.
Proof.
  unfold _process_personnel_day, _get_shift_for_date, day_of_cycle_for.
  intros [e H].
  destruct (holiday_on db cal d); [discriminate|].
  destruct (approved_leave_on db (personnel_id personnel) d); [discriminate|].
  destruct (approved_mission_on db (personnel_id personnel) d); [discriminate|].
  destruct (Z.eqb_spec (repetition_period_days wg) 0) as [H0|Hn0]; [exact H0|].
  destruct (find _ (work_group_shifts db)); discriminate.
Qed.

(** X11.  A day fails exactly when it is no holiday, no approved leave or
    mission covers it, and the cycle of the work group has length 0; the
    failure is the division by zero, and a holiday, leave or mission day of
    such a work group is still processed. *)
Theorem day_fails_iff_zero_period (db : DB) (personnel : Personnel) (wg : WorkGroup)
    (cal : Calendar) (d : date) :
  (exists e, _process_personnel_day db personnel wg cal d = Raise e)
  <-> holiday_on db cal d = None
      /\ approved_leave_on db (personnel_id personnel) d = None
      /\ approved_mission_on db (personnel_id personnel) d = None
      /\ repetition_period_days wg = 0.
Proof.
  unfold _process_personnel_day, _get_shift_for_date, day_of_cycle_for.
  destruct (holiday_on db cal d) as [holiday|].
  { split; [intros [e H]; discriminate|intros (H & _); discriminate]. }
  destruct (approved_leave_on db (personnel_id personnel) d) as [lr|].
  { split; [intros [e H]; discriminate|intros (_ & H & _); discriminate]. }
  destruct (approved_mission_on db (personnel_id personnel) d) as [mr|].
  { split; [intros [e H]; discriminate|intros (_ & _ & H & _); discriminate]. }
  destruct (Z.eqb_spec (repetition_period_days wg) 0) as [H0|Hn0].
  - split; [intros _; repeat split; assumption|intros _; eexists; reflexivity].
  - split; [|intros (_ & _ & _ & H); contradiction].
    intros [e H]. destruct (find _ (work_group_shifts db)); discriminate.
Qed.

Lemma day_touches_own_summary_example :
  exists db',
    _process_personnel_day worked_db worker weekly_group (calendar weekly_group) 101
    = Ok db'
    /\ existing_summary db' 1 100 = Some worked_summary.
Proof.
  eexists. split; [reflexivity|].
  rewrite (day_touches_own_summary_only worked_db _ worker weekly_group
             (calendar weekly_group) 101 1 100 eq_refl);
    [reflexivity|intros H; discriminate H].
Defined.

Section PunchPath.

Variables (db : DB) (personnel : Personnel) (wg : WorkGroup) (cal : Calendar).
Variables (d : date) (sh : Shift).
Hypothesis Hpath : punch_path db personnel wg cal d sh.

Let pid := personnel_id personnel.
Let logs := _get_day_logs db pid d.
Let r := _calculate_attendance_times logs sh d.

Lemma punch_path_result :
  _process_personnel_day db personnel wg cal d =
    Ok (set_attendance_logs (mark_processed logs (attendance_logs db))
          (_create_or_update_daily_summary db personnel d sh r)).
Proof.
  destruct Hpath as (Hh & Hl & Hm & Hs).
  unfold _process_personnel_day. rewrite Hh, Hl, Hm, Hs.
  unfold _create_or_update_daily_summary. rewrite upsert_attendance_logs.
  reflexivity.
Qed.

Lemma punch_path_row :
  existing_summary
    (set_attendance_logs (mark_processed logs (attendance_logs db))
       (_create_or_update_daily_summary db personnel d sh r)) pid d
  = Some (mk_DailySummary
            (match existing_summary db pid d with
             | Some old => ds_id old
             | None => next_id (daily_summaries db)
             end)
            pid d (Some (shift_id sh)) (presence_duration r) (tardiness_duration r)
            (overtime_duration r) (undertime_duration r) (absent r) (status r)
            (first_entry_time r) (last_exit_time r) (expected_work_duration r)
            (notes r)).
Proof.
  change (existing_summary (set_attendance_logs ?v ?x) pid d)
    with (existing_summary x pid d).
  unfold _create_or_update_daily_summary. fold pid.
  rewrite upsert_lookup by reflexivity.
  destruct (existing_summary db pid d); reflexivity.
Qed.

End PunchPath.

(** X12.  On the punch path the summary of the day is overwritten in full:
    whatever row was there, the row afterwards keeps only its id, and every
    other column is the value just calculated from the punches of the day
    and the shift. *)
Theorem punch_path_overwrites (db : DB) (personnel : Personnel) (wg : WorkGroup)
    (cal : Calendar) (d : date) (sh : Shift) :
  punch_path db personnel wg cal d sh ->
  let r := _calculate_attendance_times
             (_get_day_logs db (personnel_id personnel) d) sh d in
  exists db',
    _process_personnel_day db personnel wg cal d = Ok db'
    /\ existing_summary db' (personnel_id personnel) d
       = Some (mk_DailySummary
                 (match existing_summary db (personnel_id personnel) d with
                  | Some old => ds_id old
                  | None => next_id (daily_summaries db)
                  end)
                 (personnel_id personnel) d (Some (shift_id sh))
                 (presence_duration r) (tardiness_duration r) (overtime_duration r)
                 (undertime_duration r) (absent r) (status r) (first_entry_time r)
                 (last_exit_time r) (expected_work_duration r) (notes r)).
Proof.
  intros Hpath r. eexists. split.
  - apply punch_path_result. exact Hpath.
  - apply punch_path_row.
Qed.

Lemma mark_processed_nil (table : list AttendanceLog) : mark_processed [] table = table.
Proof.
  unfold mark_processed. cbn [existsb].
  induction table as [|x l IH]; cbn [map]; congruence.
Qed.

(** X13.  A work day without a punch of the person is written as absent:
    status "Absent", [absent] set, no entry or exit time, and every
    duration 0, the expected work and the undertime included; no punch is
    flagged. *)
Theorem day_without_punches (db : DB) (personnel : Personnel) (wg : WorkGroup)
    (cal : Calendar) (d : date) (sh : Shift) :
  punch_path db personnel wg cal d sh ->
  (forall l, In l (attendance_logs db) -> in_day (personnel_id personnel) d l = false) ->
  exists db' s,
    _process_personnel_day db personnel wg cal d = Ok db'
    /\ existing_summary db' (personnel_id personnel) d = Some s
    /\ ds_status s = "Absent" /\ ds_absent s = true
    /\ ds_first_entry_time s = None /\ ds_last_exit_time s = None
    /\ ds_presence_duration s = 0 /\ ds_tardiness_duration s = 0
    /\ ds_overtime_duration s = 0 /\ ds_undertime_duration s = 0
    /\ ds_expected_work_duration s = 0
    /\ ds_shift_id s = Some (shift_id sh)
    /\ attendance_logs db' = attendance_logs db.
Proof.
  intros Hpath Hnone.
  assert (Hlogs : _get_day_logs db (personnel_id personnel) d = []).
  { unfold _get_day_logs.
    replace (filter (in_day (personnel_id personnel) d) (attendance_logs db))
      with (@nil AttendanceLog); [reflexivity|].
    symmetry. induction (attendance_logs db) as [|x l IH]; [reflexivity|].
    cbn [filter]. rewrite (Hnone x (or_introl eq_refl)).
    apply IH. intros y Hy. apply Hnone. now right. }
  eexists. eexists.
  split; [exact (punch_path_result db personnel wg cal d sh Hpath)|].
  split; [apply punch_path_row|].
  rewrite Hlogs. repeat split; try reflexivity.
  cbn [set_attendance_logs attendance_logs]. apply mark_processed_nil.
Qed.

Section Flags.

Variables (pid : Z) (d : date).

Lemma flagged_iff_in_day (table : list AttendanceLog) :
  NoDup (map log_id table) ->
  forall row, In row table ->
    existsb (fun l => log_id l =? log_id row)
      (order_by_timestamp (filter (in_day pid d) table))
    = in_day pid d row.
Proof.
  intros Hnd row Hrow.
  pose proof (order_by_timestamp_perm (filter (in_day pid d) table)) as Hperm.
  destruct (in_day pid d row) eqn:E.
  - apply existsb_exists. exists row. split; [|apply Z.eqb_refl].
    apply (Permutation_in _ (Permutation_sym Hperm)). apply filter_In. now split.
  - destruct (existsb _ _) eqn:Ex; [|reflexivity].
    apply existsb_exists in Ex. destruct Ex as (l & Hl & Hid).
    apply (Permutation_in _ Hperm) in Hl. apply filter_In in Hl.
    destruct Hl as [Hin Hday]. apply Z.eqb_eq in Hid.
    assert (l = row); [|congruence].
    clear - Hnd Hin Hrow Hid. induction table as [|x t IH]; [contradiction|].
    cbn [map] in Hnd. apply NoDup_cons_iff in Hnd. destruct Hnd as [Hx Hnd].
    destruct Hin as [-> | Hin], Hrow as [-> | Hrow]; auto.
    + exfalso. apply Hx. rewrite Hid. now apply in_map.
    + exfalso. apply Hx. rewrite <- Hid. now apply in_map.
Qed.

End Flags.

(** X14.  When the punch ids are distinct, the punch path flags exactly the
    punches of that person on that date and leaves every other punch as it
    is. *)
Theorem punch_path_flags_the_day (db : DB) (personnel : Personnel) (wg : WorkGroup)
    (cal : Calendar) (d : date) (sh : Shift) :
  punch_path db personnel wg cal d sh ->
  NoDup (map log_id (attendance_logs db)) ->
  exists db',
    _process_personnel_day db personnel wg cal d = Ok db'
    /\ attendance_logs db' =
         map (fun row => if in_day (personnel_id personnel) d row
                         then set_is_processed true row else row)
             (attendance_logs db).
Proof.
  intros Hpath Hnd. eexists.
  split; [exact (punch_path_result db personnel wg cal d sh Hpath)|].
  cbn [set_attendance_logs attendance_logs]. unfold mark_processed, _get_day_logs.
  apply map_ext_in. intros row Hrow.
  now rewrite (flagged_iff_in_day (personnel_id personnel) d _ Hnd row Hrow).
Qed.

Lemma office_day_101 :
  punch_path office_db worker weekly_group (calendar weekly_group) 101 standard_shift.
Proof. repeat split. Qed.

Lemma office_day_108 :
  punch_path office_db worker weekly_group (calendar weekly_group) 108 standard_shift.
Proof. repeat split. Qed.

Lemma punch_path_overwrites_example :
  exists db' s,
    _process_personnel_day office_db worker weekly_group (calendar weekly_group) 101
    = Ok db'
    /\ existing_summary db' 1 101 = Some s
    /\ ds_presence_duration s = 480 /\ ds_status s = "OK"
    /\ ds_shift_id s = Some 1.
Proof.
  destruct (punch_path_overwrites office_db worker weekly_group (calendar weekly_group)
              101 standard_shift office_day_101) as (db' & Hday & Hs).
  exists db'. eexists. split; [exact Hday|]. split; [exact Hs|].
  repeat split.
Defined.

Lemma day_without_punches_example :
  exists db' s,
    _process_personnel_day office_db worker weekly_group (calendar weekly_group) 108
    = Ok db'
    /\ existing_summary db' 1 108 = Some s
    /\ ds_status s = "Absent" /\ ds_expected_work_duration s = 0.
Proof.
  destruct (day_without_punches office_db worker weekly_group (calendar weekly_group)
              108 standard_shift office_day_108)
    as (db' & s & Hday & Hs & Hst & _ & _ & _ & _ & _ & _ & _ & He & _).
  - intros l [<- | [<- | []]]; reflexivity.
  - exists db', s. repeat split; assumption.
Defined.

Lemma punch_path_flags_example :
  exists db',
    _process_personnel_day office_db worker weekly_group (calendar weekly_group) 101
    = Ok db'
    /\ map is_processed (attendance_logs db') = [true; true].
Proof.
  destruct (punch_path_flags_the_day office_db worker weekly_group
              (calendar weekly_group) 101 standard_shift office_day_101)
    as (db' & Hday & Hl).
  - cbn. repeat constructor; cbn; intuition discriminate.
  - exists db'. split; [exact Hday|]. rewrite Hl. reflexivity.
Defined.

(** ** Leave, mission and the days without shift *)

(** X15.  The mission summary follows the same rule as the leave summary:
    presence is the mission duration when the mission type counts as work
    and 0 otherwise, the expected work is the mission duration in both
    cases, the status is "PartialMission" or "OnMission", and tardiness,
    overtime and undertime are 0.  The mission duration is, for an hourly
    mission with both times, the whole minutes from the start time to the
    end time, the end moved 24 hours on when it is earlier than the start;
    it is 480 otherwise. *)
Theorem mission_summary_rule (db : DB) (personnel : Personnel) (target_date : date)
    (mission_request : MissionRequest) :
  exists s,
    existing_summary (_create_mission_summary db personnel target_date mission_request)
      (personnel_id personnel) target_date = Some s
    /\ ds_presence_duration s =
         (if mission_counts_as_work (mission_type mission_request)
          then mission_minutes mission_request else 0)
    /\ ds_expected_work_duration s = mission_minutes mission_request
    /\ ds_status s = mission_label mission_request
    /\ ds_tardiness_duration s = 0 /\ ds_overtime_duration s = 0
    /\ ds_undertime_duration s = 0 /\ ds_absent s = false
    /\ mission_minutes mission_request
       = match mission_is_hourly mission_request,
               mission_start_time mission_request, mission_end_time mission_request with
         | true, Some st, Some et =>
             if et <? st then (et + usec_per_day - st) ÷ usec_per_minute
             else (et - st) ÷ usec_per_minute
         | _, _, _ => 480
         end.
Proof.
  assert (Hm : mission_minutes mission_request
               = match mission_is_hourly mission_request,
                       mission_start_time mission_request,
                       mission_end_time mission_request with
                 | true, Some st, Some et =>
                     if et <? st then (et + usec_per_day - st) ÷ usec_per_minute
                     else (et - st) ÷ usec_per_minute
                 | _, _, _ => 480
                 end).
  { unfold mission_minutes.
    destruct (mission_is_hourly mission_request),
      (mission_start_time mission_request) as [st|],
      (mission_end_time mission_request) as [et|]; try reflexivity.
    apply time_diff_interval. }
  assert (Hd : mission_duration_status_notes mission_request =
               (mission_minutes mission_request, mission_label mission_request,
                snd (mission_duration_status_notes mission_request))).
  { unfold mission_duration_status_notes, mission_minutes, mission_label.
    destruct (mission_is_hourly mission_request),
      (mission_start_time mission_request), (mission_end_time mission_request);
      reflexivity. }
  unfold _create_mission_summary. rewrite Hd.
  rewrite upsert_lookup by reflexivity.
  eexists. split; [reflexivity|].
  destruct (existing_summary db (personnel_id personnel) target_date);
    repeat split; reflexivity || exact Hm.
Qed.

(** An hourly mission from 13:00 to 15:45 of a type that counts as work:
    165 minutes of presence and of expected work. *)
Lemma mission_summary_example :
  exists s,
    existing_summary (_create_mission_summary empty_db worker 101 afternoon_visit) 1 101
    = Some s
    /\ ds_presence_duration s = 165
    /\ ds_expected_work_duration s = 165
    /\ ds_status s = "PartialMission".
Proof.
  destruct (mission_summary_rule empty_db worker 101 afternoon_visit)
    as (s & Hs & Hp & He & Hl & _ & _ & _ & _ & Hm).
  exists s. split; [exact Hs|]. rewrite Hp, He, Hl, Hm.
  repeat split; reflexivity.
Defined.

Lemma leave_summary_status (db : DB) (personnel : Personnel) (target_date : date)
    (leave_request : LeaveRequest) :
  exists s,
    existing_summary (_create_leave_summary db personnel target_date leave_request)
      (personnel_id personnel) target_date = Some s
    /\ ds_status s = leave_label leave_request.
Proof.
  assert (Hd : leave_duration_status_notes leave_request =
               (leave_minutes leave_request, leave_label leave_request,
                snd (leave_duration_status_notes leave_request))).
  { unfold leave_duration_status_notes, leave_minutes, leave_label.
    destruct (leave_is_hourly leave_request), (leave_start_time leave_request),
      (leave_end_time leave_request); reflexivity. }
  unfold _create_leave_summary. rewrite Hd.
  rewrite upsert_lookup by reflexivity.
  eexists. split; [reflexivity|].
  destruct (existing_summary db (personnel_id personnel) target_date); reflexivity.
Qed.

(** X16.  On a date that is no holiday and that an approved leave and an
    approved mission both cover, the leave is written and the mission is
    not looked at. *)
Theorem leave_before_mission (db : DB) (personnel : Personnel) (wg : WorkGroup)
    (cal : Calendar) (d : date) (lr : LeaveRequest) (mr : MissionRequest) :
  holiday_on db cal d = None ->
  approved_leave_on db (personnel_id personnel) d = Some lr ->
  approved_mission_on db (personnel_id personnel) d = Some mr ->
  _process_personnel_day db personnel wg cal d
  = Ok (_create_leave_summary db personnel d lr)
  /\ exists s,
       existing_summary (_create_leave_summary db personnel d lr)
         (personnel_id personnel) d = Some s
       /\ ds_status s = leave_label lr
       /\ ds_status s <> "OnMission" /\ ds_status s <> "PartialMission".
Proof.
  intros Hh Hl Hm. split.
  - unfold _process_personnel_day. now rewrite Hh, Hl.
  - destruct (leave_summary_status db personnel d lr) as (s & Hs & Hst).
    exists s. split; [exact Hs|]. split; [exact Hst|]. rewrite Hst.
    unfold leave_label.
    destruct (leave_is_hourly lr), (leave_start_time lr), (leave_end_time lr);
      split; discriminate.
Qed.

Lemma presence_within_span_example :
  chronological three_punches
  /\ 0 <= presence_duration (_calculate_attendance_times three_punches standard_shift 100)
          <= 240.
Proof.
  split; [exact three_punches_chronological|].
  exact (presence_within_span (punch 1 100 9 0) [punch 2 100 12 0; punch 3 100 13 0]
           standard_shift 100 three_punches_chronological).
Defined.

Lemma leave_before_mission_example :
  exists s,
    _process_personnel_day busy_db worker weekly_group (calendar weekly_group) 101
    = Ok (_create_leave_summary busy_db worker 101
            (mk_LeaveRequest 1 unpaid_leave 101 101 None None false "approved"))
    /\ existing_summary
         (_create_leave_summary busy_db worker 101
            (mk_LeaveRequest 1 unpaid_leave 101 101 None None false "approved")) 1 101
       = Some s
    /\ ds_status s = "OnLeave".
Proof.
  destruct (leave_before_mission busy_db worker weekly_group (calendar weekly_group) 101
              (mk_LeaveRequest 1 unpaid_leave 101 101 None None false "approved")
              site_visit eq_refl eq_refl eq_refl)
    as (Hday & s & Hs & Hst & _).
  exists s. repeat split; assumption.
Defined.

(** X17.  A shift returned by the resolver comes from an assignment of that
    work group whose day of cycle is the one computed for the date; with a
    cycle of at least one day that day lies in [1, repetition_period_days],
    so an assignment outside this range is never used. *)
Theorem resolved_shift_is_assigned (db : DB) (wg : WorkGroup) (d : date) (sh : Shift) :
  _get_shift_for_date db wg d = Ok (Some sh) ->
  exists a,
    In a (work_group_shifts db)
    /\ wgs_work_group_id a = work_group_id wg
    /\ shift a = sh
    /\ day_of_cycle a
       = (d - dt_date (wg_start_date wg)) mod repetition_period_days wg + 1
    /\ repetition_period_days wg <> 0
    /\ (1 <= repetition_period_days wg ->
        1 <= day_of_cycle a <= repetition_period_days wg).
Proof.
  unfold _get_shift_for_date, day_of_cycle_for.
  destruct (Z.eqb_spec (repetition_period_days wg) 0) as [H0|Hn0]; [discriminate|].
  destruct (find _ (work_group_shifts db)) as [a|] eqn:E; [|discriminate].
  intros H. injection H as <-.
  apply find_some in E. destruct E as [Hin Hm].
  apply andb_prop in Hm. destruct Hm as [Hw Hd].
  apply Z.eqb_eq in Hw. apply Z.eqb_eq in Hd.
  exists a. repeat split; try assumption.
  - rewrite Hd.
    pose proof (Z.mod_pos_bound (d - dt_date (wg_start_date wg))
                  (repetition_period_days wg) ltac:(lia)). lia.
  - rewrite Hd.
    pose proof (Z.mod_pos_bound (d - dt_date (wg_start_date wg))
                  (repetition_period_days wg) ltac:(lia)). lia.
Qed.

Lemma resolved_shift_example :
  exists a,
    In a (work_group_shifts office_db) /\ shift a = standard_shift
    /\ day_of_cycle a = 2.
Proof.
  destruct (resolved_shift_is_assigned office_db weekly_group 101 standard_shift eq_refl)
    as (a & Hin & _ & Hs & Hd & _).
  exists a. repeat split; assumption.
Defined.

(** X18.  A date that is no holiday, is covered by no approved leave or
    mission and has no assignment for its day of the cycle is written with
    status "NoShift" and the note "No shift assigned for this day"; the
    punches of the day are not flagged. *)
Theorem day_without_shift (db : DB) (personnel : Personnel) (wg : WorkGroup)
    (cal : Calendar) (d : date) :
  holiday_on db cal d = None ->
  approved_leave_on db (personnel_id personnel) d = None ->
  approved_mission_on db (personnel_id personnel) d = None ->
  repetition_period_days wg <> 0 ->
  (forall a, In a (work_group_shifts db) ->
     wgs_work_group_id a = work_group_id wg ->
     day_of_cycle a
     <> (d - dt_date (wg_start_date wg)) mod repetition_period_days wg + 1) ->
  exists db' s,
    _process_personnel_day db personnel wg cal d = Ok db'
    /\ existing_summary db' (personnel_id personnel) d = Some s
    /\ ds_status s = "NoShift"
    /\ ds_notes s = Some "No shift assigned for this day"
    /\ attendance_logs db' = attendance_logs db.
Proof.
  intros Hh Hl Hm Hn0 Hnone.
  assert (Hs : _get_shift_for_date db wg d = Ok None).
  { unfold _get_shift_for_date, day_of_cycle_for.
    destruct (Z.eqb_spec (repetition_period_days wg) 0) as [H0|_]; [contradiction|].
    destruct (find _ (work_group_shifts db)) as [a|] eqn:E; [|reflexivity].
    exfalso. apply find_some in E. destruct E as [Hin Hmatch].
    apply andb_prop in Hmatch. destruct Hmatch as [Hw Hd].
    apply Z.eqb_eq in Hw. apply Z.eqb_eq in Hd. exact (Hnone a Hin Hw Hd). }
  eexists. eexists. split.
  - unfold _process_personnel_day. rewrite Hh, Hl, Hm, Hs. reflexivity.
  - unfold _create_no_shift_summary. rewrite upsert_lookup by reflexivity.
    split; [reflexivity|].
    split; [|split; [|apply upsert_attendance_logs]];
      destruct (existing_summary db (personnel_id personnel) d); reflexivity.
Qed.

Lemma day_without_shift_example :
  exists db' s,
    _process_personnel_day office_db worker weekly_group (calendar weekly_group) 102
    = Ok db'
    /\ existing_summary db' 1 102 = Some s
    /\ ds_status s = "NoShift".
Proof.
  destruct (day_without_shift office_db worker weekly_group (calendar weekly_group) 102
              eq_refl eq_refl eq_refl)
    as (db' & s & Hday & Hs & Hst & _).
  - discriminate.
  - intros a [<- | []] _. discriminate.
  - exists db', s. repeat split; assumption.
Defined.

(** X19.  The first holiday summary of a day is a row with the status
    "Holiday", the note "Holiday: " and the name, no shift, no entry or exit
    time and every duration 0.  Written over an existing row, the holiday
    summary replaces the status and the note and keeps the id, the shift,
    the durations, the absent flag and the entry and exit times of that
    row. *)
Theorem holiday_summary_columns (db : DB) (personnel : Personnel) (d : date)
    (holiday : Holiday) :
  existing_summary (_create_holiday_summary db personnel d holiday)
    (personnel_id personnel) d
  = Some
      match existing_summary db (personnel_id personnel) d with
      | Some old =>
          mk_DailySummary (ds_id old) (personnel_id personnel) d (ds_shift_id old)
            (ds_presence_duration old) (ds_tardiness_duration old)
            (ds_overtime_duration old) (ds_undertime_duration old) (ds_absent old)
            "Holiday" (ds_first_entry_time old) (ds_last_exit_time old)
            (ds_expected_work_duration old)
            (Some ("Holiday: " ++ holiday_name holiday)%string)
      | None =>
          mk_DailySummary (next_id (daily_summaries db)) (personnel_id personnel) d None
            0 0 0 0 false "Holiday" None None 0
            (Some ("Holiday: " ++ holiday_name holiday)%string)
      end.
Proof.
  unfold _create_holiday_summary. rewrite upsert_lookup by reflexivity.
  destruct (existing_summary db (personnel_id personnel) d); reflexivity.
Qed.

(** * The batch: window, counts and reprocessing after an approval *)

Section Window.

Variables (personnel : Personnel) (wg : WorkGroup) (cal : Calendar).

Lemma process_date_outside db d force n :
  outside_window personnel d = true ->
  process_date db personnel wg cal d force n = (n, db).
Proof.
  unfold outside_window, process_date. intros H.
  destruct (d <? dt_date (start_date personnel)); [reflexivity|].
  cbn [orb] in H. now rewrite H.
Qed.

Lemma continues_outside db d force :
  outside_window personnel d = true -> continues db personnel d force = true.
Proof.
  unfold outside_window, continues. intros H.
  destruct (d <? dt_date (start_date personnel)); [reflexivity|].
  cbn [orb] in H. now rewrite H.
Qed.

(** Outside the employment every turn of the loop takes a [continue]
    branch.  At [date.max] its increment raises inside the [try], is logged
    by the [except], and the increment after the [try] raises again. *)
Lemma date_loop_outside fuel :
  forall db cur stop force n,
    (forall d, cur <= d <= stop -> outside_window personnel d = true) ->
    (Z.to_nat (stop - cur + 1) <= fuel)%nat ->
    date_loop fuel db personnel wg cal cur stop force n
    = if (cur <=? stop) && (date_max <=? stop)
      then (Raise OverflowError,
            log_to ERROR
              (DayError (personnel_id personnel) (Z.max cur date_max) OverflowError) db)
      else (Ok n, db).
Proof.
  induction fuel as [|fuel IH]; intros db cur stop force n Hall Hfuel.
  - cbn [date_loop]. destruct (Z.leb_spec cur stop); [lia|reflexivity].
  - rewrite date_loop_eq. destruct (Z.leb_spec cur stop) as [Hle|Hgt]; [|reflexivity].
    cbv zeta. rewrite continues_outside by (apply Hall; lia).
    rewrite process_date_outside by (apply Hall; lia).
    unfold tomorrow. destruct (Z.ltb_spec cur date_max) as [Hlt|Hge].
    + rewrite IH by (try (intros d Hd; apply Hall); lia).
      cbn [andb]. destruct (Z.leb_spec date_max stop).
      * destruct (Z.leb_spec (cur + 1) stop); [|lia].
        cbn [andb]. rewrite !Z.max_r by lia. reflexivity.
      * now rewrite andb_false_r.
    + cbn [andb]. destruct (Z.leb_spec date_max stop); [|lia].
      rewrite Z.max_l by lia. reflexivity.
Qed.

Lemma process_date_count db d force n :
  n <= fst (process_date db personnel wg cal d force n) <= n + 1.
Proof.
  unfold process_date.
  destruct (d <? dt_date (start_date personnel)); [cbn; lia|].
  destruct (match end_date personnel with Some e => dt_date e <? d | None => false end);
    [cbn; lia|].
  destruct (existing_summary db (personnel_id personnel) d), force;
    try (cbn; lia);
    destruct (_process_personnel_day db personnel wg cal d); cbn; lia.
Qed.

Lemma date_loop_count fuel :
  forall db cur stop force n k,
    fst (date_loop fuel db personnel wg cal cur stop force n) = Ok k ->
    n <= k <= n + Z.of_nat fuel.
Proof.
  induction fuel as [|fuel IH]; intros db cur stop force n k;
    [cbn [date_loop fst]; intros [= <-]; lia|].
  rewrite date_loop_eq.
  destruct (cur <=? stop); [|cbn [fst]; intros [= <-]; lia].
  cbv zeta.
  pose proof (process_date_count db cur force n) as H1.
  destruct (process_date db personnel wg cal cur force n) as [k1 db1].
  cbn [fst] in H1.
  destruct (tomorrow cur) as [next|e]; [|discriminate].
  intros Hk. specialize (IH db1 next stop force k1 k Hk). lia.
Qed.

End Window.

(** X20.  For a person whose employment starts after the last date of the
    range, or ended before its first date: when the range is empty or ends
    before [date.max], the call returns 0 processed days and leaves the
    session as it is, with no summary, no flag and no log record; when the
    range is not empty and ends at [date.max], the call writes no summary
    and no flag, logs the overflow of the increment on [date.max], and
    raises [OverflowError]. *)
Theorem range_outside_employment (db : DB) (personnel : Personnel) (wg : WorkGroup)
    (first_day last_day : date) (force : bool) :
  work_group personnel = Some wg ->
  last_day < dt_date (start_date personnel)
  \/ (exists e, end_date personnel = Some e /\ dt_date e < first_day) ->
  (last_day < date_max \/ last_day < first_day ->
   _process_personnel_attendance db personnel first_day last_day force = (Ok 0, db))
  /\ (first_day <= last_day -> last_day = date_max ->
      _process_personnel_attendance db personnel first_day last_day force
      = (Raise OverflowError,
         log_to ERROR (DayError (personnel_id personnel) date_max OverflowError) db)).
Proof.
  intros Hwg Hout.
  assert (Hloop :
    _process_personnel_attendance db personnel first_day last_day force
    = if (first_day <=? last_day) && (date_max <=? last_day)
      then (Raise OverflowError,
            log_to ERROR
              (DayError (personnel_id personnel) (Z.max first_day date_max)
                 OverflowError) db)
      else (Ok 0, db)).
  { unfold _process_personnel_attendance. rewrite Hwg.
    apply date_loop_outside; [|apply Nat.le_refl].
    intros d Hd. unfold outside_window.
    destruct Hout as [Hlate | (e & He & Hearly)].
    - destruct (Z.ltb_spec d (dt_date (start_date personnel))); [reflexivity|lia].
    - rewrite He. destruct (Z.ltb_spec (dt_date e) d); [apply orb_true_r|lia]. }
  rewrite Hloop. split.
  - intros Hends.
    destruct (Z.leb_spec first_day last_day); [|reflexivity].
    destruct (Z.leb_spec date_max last_day); [lia|reflexivity].
  - intros Hle ->.
    destruct (Z.leb_spec first_day date_max); [|lia].
    rewrite Z.leb_refl, Z.max_r by lia. reflexivity.
Qed.

(** A person hired on day 200 over days 100 to 102, and a person who left
    on day 50 over day 100 to [date.max]. *)
Lemma range_outside_employment_example :
  _process_personnel_attendance office_db newcomer 100 102 true = (Ok 0, office_db)
  /\ _process_personnel_attendance empty_db leaver 100 date_max false
     = (Raise OverflowError,
        mk_DB [] [] [] [] [] [] [] [(ERROR, DayError 5 date_max OverflowError)]).
Proof.
  split.
  - apply (range_outside_employment office_db newcomer weekly_group 100 102 true eq_refl).
    + left. reflexivity.
    + left. reflexivity.
  - refine (proj2 (range_outside_employment empty_db leaver _ 100 date_max false
                     eq_refl _) _ eq_refl).
    + right. eexists. split; reflexivity.
    + discriminate.
Defined.

Lemma personnel_loop_count personnel_list :
  forall db request n errs,
    n <= fst (fst (personnel_loop db personnel_list request n errs))
      <= n + Z.of_nat (length personnel_list)
             * Z.of_nat (days_in_range (req_start_date request) (req_end_date request)).
Proof.
  induction personnel_list as [|p rest IH]; intros db request n errs;
    cbn [personnel_loop].
  - cbn. lia.
  - assert (H : forall k,
               fst (_process_personnel_attendance db p (req_start_date request)
                      (req_end_date request) (force_reprocess request)) = Ok k ->
               0 <= k <= Z.of_nat (days_in_range (req_start_date request)
                                     (req_end_date request))).
    { unfold _process_personnel_attendance.
      destruct (work_group p) as [wg|]; [|cbn [fst]; intros k [= <-]; lia].
      intros k Hk.
      pose proof (date_loop_count p wg (calendar wg)
                    (days_in_range (req_start_date request) (req_end_date request))
                    db (req_start_date request) (req_end_date request)
                    (force_reprocess request) 0 k Hk). lia. }
    rewrite length_cons, Nat2Z.inj_succ.
    destruct (_process_personnel_attendance db p (req_start_date request)
                (req_end_date request) (force_reprocess request)) as [[k|e] db1];
      cbn [fst] in H.
    + specialize (H k eq_refl). specialize (IH db1 request (n + k) errs). nia.
    + cbv zeta.
      specialize (IH (log_to ERROR (PersonnelError (personnel_id p) e) db1) request n
                    (errs ++ [personnel_error_text p e])%list).
      nia.
Qed.

(** X21.  The number of processed days of a response is at least 0 and at
    most the number of processed personnel times the number of dates in the
    range. *)
Theorem processed_days_bounds (db : DB) (request : AttendanceProcessingRequest) :
  let response := fst (process_attendance db request) in
  0 <= processed_days response
    <= processed_personnel response
       * Z.of_nat (days_in_range (req_start_date request) (req_end_date request)).
Proof.
  intros response. subst response. unfold process_attendance.
  destruct (select_personnel db request) as [|p rest]; [cbn; lia|].
  pose proof (personnel_loop_count (p :: rest) db request 0 []) as H.
  destruct (personnel_loop db (p :: rest) request 0 []) as [[k errs] db1].
  cbn [fst processed_days processed_personnel] in *. lia.
Qed.

(** X22.  The difference of two times of day lies between 0 and 1439
    minutes; equal times are 0 minutes apart, not 24 hours; and for two
    different times on whole minutes the way there and the way back add up
    to 24 hours. *)
Theorem time_diff_wraps (s e : time) :
  valid_time s -> valid_time e ->
  0 <= _time_diff_minutes s e <= 1439
  /\ (s = e -> _time_diff_minutes s e = 0)
  /\ (forall a b, s = a * usec_per_minute -> e = b * usec_per_minute -> a <> b ->
        _time_diff_minutes s e + _time_diff_minutes e s = 1440).
Proof.
  intros Hs He. split; [|split].
  - rewrite time_diff_interval.
    pose proof (interval_minutes_bounds s e Hs He). lia.
  - intros ->. rewrite time_diff_forward by lia.
    rewrite Z.sub_diag. reflexivity.
  - intros a b -> -> Hne. unfold valid_time, usec_per_day in *.
    destruct (Z.lt_total a b) as [Hlt | [Heq | Hgt]]; [|contradiction|].
    + rewrite (time_diff_forward (a * usec_per_minute) (b * usec_per_minute))
        by (unfold usec_per_minute; lia).
      rewrite (time_diff_wrap (b * usec_per_minute) (a * usec_per_minute))
        by (unfold usec_per_minute; lia).
      replace (b * usec_per_minute - a * usec_per_minute)
        with ((b - a) * usec_per_minute) by lia.
      replace (a * usec_per_minute + usec_per_day - b * usec_per_minute)
        with ((a + 1440 - b) * usec_per_minute) by (unfold usec_per_day, usec_per_minute; lia).
      rewrite !Z.quot_mul by (unfold usec_per_minute; lia). lia.
    + rewrite (time_diff_wrap (a * usec_per_minute) (b * usec_per_minute))
        by (unfold usec_per_minute; lia).
      rewrite (time_diff_forward (b * usec_per_minute) (a * usec_per_minute))
        by (unfold usec_per_minute; lia).
      replace (a * usec_per_minute - b * usec_per_minute)
        with ((a - b) * usec_per_minute) by lia.
      replace (b * usec_per_minute + usec_per_day - a * usec_per_minute)
        with ((b + 1440 - a) * usec_per_minute) by (unfold usec_per_day, usec_per_minute; lia).
      rewrite !Z.quot_mul by (unfold usec_per_minute; lia). lia.
Qed.

Lemma time_diff_wraps_example :
  _time_diff_minutes (hm 22 0) (hm 6 0) + _time_diff_minutes (hm 6 0) (hm 22 0) = 1440.
Proof.
  refine (proj2 (proj2 (time_diff_wraps (hm 22 0) (hm 6 0) _ _))
            (22 * 60) (6 * 60) eq_refl eq_refl _).
  - unfold valid_time. vm_compute. split; [discriminate|reflexivity].
  - unfold valid_time. vm_compute. split; [discriminate|reflexivity].
  - discriminate.
Defined.

(** A property that every successful day and every log record keep is kept
    by the loops over the dates and over the personnel. *)
Section DayInvariant.

Variable P : DB -> Prop.
Hypothesis P_log : forall lvl msg db, P db -> P (log_to lvl msg db).
Hypothesis P_day :
  forall db db' personnel wg cal d,
    P db -> _process_personnel_day db personnel wg cal d = Ok db' -> P db'.

Lemma process_date_inv db personnel wg cal d force n :
  P db -> P (snd (process_date db personnel wg cal d force n)).
Proof.
  intros HP. unfold process_date.
  destruct (d <? dt_date (start_date personnel)); [exact HP|].
  destruct (match end_date personnel with Some e => dt_date e <? d | None => false end);
    [exact HP|].
  destruct (existing_summary db (personnel_id personnel) d), force; try exact HP;
    destruct (_process_personnel_day db personnel wg cal d) as [db'|e] eqn:E;
    cbn [snd]; try (now apply P_log); eapply P_day; eassumption.
Qed.

Lemma date_loop_inv fuel :
  forall db personnel wg cal cur stop force n,
    P db -> P (snd (date_loop fuel db personnel wg cal cur stop force n)).
Proof.
  induction fuel as [|fuel IH]; intros db personnel wg cal cur stop force n HP;
    [exact HP|].
  rewrite date_loop_eq.
  destruct (cur <=? stop); [|exact HP].
  cbv zeta.
  pose proof (process_date_inv db personnel wg cal cur force n HP) as H.
  destruct (process_date db personnel wg cal cur force n) as [k db1].
  cbn [snd] in H.
  destruct (tomorrow cur) as [next|e]; [now apply IH|].
  cbn [snd]. destruct (continues db personnel cur force); [now apply P_log|exact H].
Qed.

Lemma personnel_loop_inv personnel_list :
  forall db request n errs,
    P db -> P (snd (personnel_loop db personnel_list request n errs)).
Proof.
  induction personnel_list as [|p rest IH]; intros db request n errs HP;
    cbn [personnel_loop]; [exact HP|].
  assert (H : P (snd (_process_personnel_attendance db p (req_start_date request)
                        (req_end_date request) (force_reprocess request)))).
  { unfold _process_personnel_attendance.
    destruct (work_group p); [now apply date_loop_inv|now apply P_log]. }
  destruct (_process_personnel_attendance db p (req_start_date request)
              (req_end_date request) (force_reprocess request)) as [[k|e] db1];
    cbn [snd] in H; apply IH; [exact H|now apply P_log].
Qed.

End DayInvariant.

Section Approval.

Variables (db : DB) (lr : LeaveRequest) (p : Personnel) (wg : WorkGroup) (d : date).
Hypothesis Hlr : In lr (leave_requests db).
Hypothesis Happroved : leave_status lr = "approved".
Hypothesis Hpid : personnel_id p = leave_personnel_id lr.
Hypothesis Hwg : work_group p = Some wg.
Hypothesis Hd : leave_start_date lr <= d <= leave_end_date lr.
Hypothesis Hdate : d <= date_max.
Hypothesis Hwindow : outside_window p d = false.

Let covered (db1 : DB) : Prop :=
  static_eq db db1 /\ summarised_as leave_day_statuses (personnel_id p) d db1.

Lemma leave_day_written db1 p' wg' cal' :
  static_eq db db1 -> personnel_id p' = personnel_id p ->
  exists db2,
    _process_personnel_day db1 p' wg' cal' d = Ok db2
    /\ summarised_as leave_day_statuses (personnel_id p) d db2.
Proof.
  intros Hst Hp'. unfold _process_personnel_day.
  destruct (holiday_on db1 cal' d) as [holiday|].
  { eexists. split; [reflexivity|]. rewrite <- Hp'.
    unfold summarised_as, _create_holiday_summary.
    rewrite upsert_lookup by reflexivity. eexists. split; [reflexivity|].
    destruct (existing_summary db1 (personnel_id p') d); now left. }
  destruct (find_exists
              (fun r => (leave_personnel_id r =? personnel_id p')
                        && String.eqb (leave_status r) "approved"
                        && (leave_start_date r <=? d)
                        && (d <=? leave_end_date r))
              (leave_requests db1) lr) as [lr' Hlr'].
  { destruct Hst as (_ & _ & Hl & _). now rewrite Hl. }
  { rewrite Hp', Hpid, Happroved, Z.eqb_refl. cbn [andb String.eqb].
    apply andb_true_intro; split; apply Z.leb_le; lia. }
  unfold approved_leave_on. rewrite Hlr'.
  eexists. split; [reflexivity|]. rewrite <- Hp'.
  destruct (leave_summary_status db1 p' d lr') as (s & Hs & Hlabel).
  exists s. split; [exact Hs|]. rewrite Hlabel. unfold leave_label, leave_day_statuses.
  destruct (leave_is_hourly lr'), (leave_start_time lr'), (leave_end_time lr');
    cbn; auto.
Qed.

Lemma covered_log lvl msg db1 : covered db1 -> covered (log_to lvl msg db1).
Proof. intros [Hs Hq]. split; [|exact Hq]. destruct Hs as (?&?&?&?&?). repeat split; assumption. Qed.

Lemma covered_day db1 db2 p' wg' cal' d' :
  covered db1 -> _process_personnel_day db1 p' wg' cal' d' = Ok db2 -> covered db2.
Proof.
  intros [Hs Hq] Hday. split.
  - eapply static_eq_trans; [exact Hs|].
    apply (follows_process_day true db1 db2 p' wg' cal' d'); [discriminate|exact Hday].
  - destruct (Z.eq_dec (personnel_id p') (personnel_id p)) as [Hp'|Hp'];
      [destruct (Z.eq_dec d' d) as [->|Hd']|].
    + destruct (leave_day_written db1 p' wg' cal' Hs Hp') as (db2' & Hday' & Hq').
      rewrite Hday in Hday'. injection Hday' as <-. exact Hq'.
    + destruct Hq as (s & Hsum & Hin). exists s. split; [|exact Hin].
      rewrite <- Hsum.
      apply (day_frame db1 db2 p' wg' cal' d'); [exact Hday|]. congruence.
    + destruct Hq as (s & Hsum & Hin). exists s. split; [|exact Hin].
      rewrite <- Hsum.
      apply (day_frame db1 db2 p' wg' cal' d'); [exact Hday|]. congruence.
Qed.

Lemma leave_date_covered db1 n :
  static_eq db db1 ->
  covered (snd (process_date db1 p wg (calendar wg) d true n)).
Proof.
  intros Hs. unfold process_date.
  unfold outside_window in Hwindow. apply orb_false_elim in Hwindow.
  destruct Hwindow as [H1 H2]. rewrite H1, H2.
  destruct (leave_day_written db1 p wg (calendar wg) Hs eq_refl) as (db2 & Hday & Hq).
  rewrite Hday.
  destruct (existing_summary db1 (personnel_id p) d); cbn [snd];
    (split; [|exact Hq]);
    (eapply static_eq_trans; [exact Hs|]);
    apply (follows_process_day true db1 db2 p wg (calendar wg) d);
    (discriminate || exact Hday).
Qed.

Lemma leave_range_covered fuel :
  forall db1 cur stop n,
    fuel = Z.to_nat (stop - cur + 1) -> cur <= d <= stop ->
    static_eq db db1 ->
    covered (snd (date_loop fuel db1 p wg (calendar wg) cur stop true n)).
Proof.
  induction fuel as [|fuel IH]; intros db1 cur stop n Hfuel Hrange Hs; [lia|].
  rewrite date_loop_eq. destruct (Z.leb_spec cur stop); [|lia].
  cbv zeta.
  destruct (Z.eq_dec cur d) as [->|Hne].
  - pose proof (leave_date_covered db1 n Hs) as Hc.
    destruct (process_date db1 p wg (calendar wg) d true n) as [k db2].
    cbn [snd] in Hc.
    destruct (tomorrow d) as [next|e].
    + apply (date_loop_inv covered covered_log covered_day). exact Hc.
    + cbn [snd]. destruct (continues db1 p d true); [now apply covered_log|exact Hc].
  - pose proof (follows_process_date db1 p wg (calendar wg) cur true n) as Hf.
    destruct (process_date db1 p wg (calendar wg) cur true n) as [k db2].
    unfold tomorrow. destruct (Z.ltb_spec cur date_max); [|lia].
    apply IH; [lia|lia|].
    eapply static_eq_trans; [exact Hs|apply Hf].
Qed.

Lemma leave_personnel_covered personnel_list :
  forall db1 n errs,
    static_eq db db1 -> In p personnel_list ->
    covered
      (snd (personnel_loop db1 personnel_list
              (approval_reprocessing (leave_personnel_id lr) (leave_start_date lr)
                 (leave_end_date lr)) n errs)).
Proof.
  induction personnel_list as [|a rest IH]; intros db1 n errs Hs Hin; [contradiction|].
  cbn [personnel_loop].
  cbn [approval_reprocessing req_start_date req_end_date force_reprocess].
  destruct Hin as [-> | Hin].
  - assert (Hc : covered (snd (_process_personnel_attendance db1 p (leave_start_date lr)
                                 (leave_end_date lr) true))).
    { unfold _process_personnel_attendance. rewrite Hwg.
      apply leave_range_covered; [reflexivity|exact Hd|exact Hs]. }
    destruct (_process_personnel_attendance db1 p (leave_start_date lr)
                (leave_end_date lr) true) as [[k|e] db2]; cbn [snd] in Hc;
      apply (personnel_loop_inv covered covered_log covered_day);
      [exact Hc|now apply covered_log].
  - pose proof (follows_personnel_attendance db1 a (leave_start_date lr)
                  (leave_end_date lr) true) as Hf.
    destruct (_process_personnel_attendance db1 a (leave_start_date lr)
                (leave_end_date lr) true) as [[k|e] db2]; cbn [snd] in Hf;
      (apply IH; [|exact Hin]); (eapply static_eq_trans; [exact Hs|]).
    + apply Hf.
    + eapply static_eq_trans; [apply Hf|]. apply (follows_log_to true).
Qed.

End Approval.

(** X23.  The run that the approval of a leave request triggers (the person
    of the request, its date range, [force_reprocess] set) leaves every date
    of the range that lies in the employment window of an active person
    with a work group summarised as a leave day, or as a holiday when the
    calendar has one on that date, whatever summary the date had before.
    This holds up to and including [date.max], the last date there is: the
    increment that raises there comes after the day has been written. *)
Theorem approval_reprocesses_leave_days (db : DB) (lr : LeaveRequest) (p : Personnel)
    (wg : WorkGroup) (d : date) :
  In lr (leave_requests db) ->
  leave_status lr = "approved" ->
  In p (personnel_table db) ->
  is_active p = true ->
  personnel_id p = leave_personnel_id lr ->
  work_group p = Some wg ->
  leave_start_date lr <= d <= leave_end_date lr ->
  d <= date_max ->
  outside_window p d = false ->
  summarised_as leave_day_statuses (personnel_id p) d
    (snd (process_attendance db
            (approval_reprocessing (leave_personnel_id lr) (leave_start_date lr)
               (leave_end_date lr)))).
Proof.
  intros Hlr Happ Hp Hact Hpid Hwg Hd Hdate Hwin.
  assert (Hsel : In p (select_personnel db
                         (approval_reprocessing (leave_personnel_id lr)
                            (leave_start_date lr) (leave_end_date lr)))).
  { unfold select_personnel, approval_reprocessing. cbn [personnel_ids].
    apply filter_In. split; [exact Hp|].
    rewrite Hact, Hpid. cbn [existsb]. now rewrite Z.eqb_refl. }
  unfold process_attendance.
  destruct (select_personnel db _) as [|a rest] eqn:E; [contradiction|].
  pose proof (leave_personnel_covered db lr p wg d Hlr Happ Hpid Hwg Hd Hdate Hwin
                (a :: rest) db 0 [] (static_eq_refl db) Hsel) as [_ Hc].
  destruct (personnel_loop db (a :: rest) _ 0 []) as [[k errs] db1]. exact Hc.
Qed.

Lemma approval_reprocesses_example :
  summarised_as leave_day_statuses 1 102
    (snd (process_attendance leave_db (approval_reprocessing 1 101 102))).
Proof.
  apply (approval_reprocesses_leave_days leave_db
           (mk_LeaveRequest 1 annual_leave 101 102 None None false "approved")
           worker weekly_group 102);
    try reflexivity; try (now left).
  - cbn. lia.
  - discriminate.
Defined.

(** * The callers of the processor *)

Section CreateLeave.

Lemma ordpairs_app_last {A} (R : A -> A -> Prop) (l : list A) (x : A) :
  ForallOrdPairs R l -> Forall (fun a => R a x) l -> ForallOrdPairs R (l ++ [x]).
Proof.
  induction 1 as [|a l Ha Hl IH]; intros Hx; cbn [app].
  - constructor; constructor.
  - constructor.
    + apply Forall_app. split; [exact Ha|].
      constructor; [exact (Forall_inv Hx)|constructor].
    + apply IH. exact (Forall_inv_tail Hx).
Qed.

Variables (leave_types : list (Z * LeaveType)) (db db' : DB).
Variables (rq : LeaveRequestCreate) (row : LeaveRequest).
Hypothesis Hcreated : create_leave_request leave_types db rq = Returns (row, db').

Lemma created_row_and_checks :
  exists lt,
    row = mk_LeaveRequest (new_personnel_id rq) lt (new_start_date rq) (new_end_date rq)
            (new_start_time rq) (new_end_time rq) (new_is_hourly rq) "pending"
    /\ db' = set_leave_requests (leave_requests db ++ [row])%list db
    /\ new_start_date rq <= new_end_date rq
    /\ (new_is_hourly rq = true ->
        exists st et, new_start_time rq = Some st /\ new_end_time rq = Some et
                      /\ st < et)
    /\ find (fun r => (leave_personnel_id r =? new_personnel_id rq)
                      && pending_or_approved r
                      && (leave_start_date r <=? new_end_date rq)
                      && (new_start_date rq <=? leave_end_date r))
            (leave_requests db) = None.
Proof.
  unfold create_leave_request in Hcreated.
  destruct (find _ (personnel_table db)); [|discriminate].
  destruct (find _ leave_types) as [[i lt]|]; [|discriminate].
  destruct (Z.ltb_spec (new_end_date rq) (new_start_date rq)); [discriminate|].
  destruct (find _ (leave_requests db)) eqn:Hfind.
  { destruct (new_is_hourly rq); [|discriminate].
    destruct (new_start_time rq), (new_end_time rq); try discriminate.
    destruct (_ <=? _); discriminate. }
  exists lt.
  destruct (new_is_hourly rq) eqn:Hh.
  - destruct (new_start_time rq) as [st|], (new_end_time rq) as [et|];
      try discriminate.
    destruct (Z.leb_spec et st); [discriminate|].
    injection Hcreated as <- <-.
    repeat split; try assumption; try reflexivity.
    intros _. exists st, et. repeat split. assumption.
  - injection Hcreated as <- <-.
    repeat split; try assumption; try reflexivity. discriminate.
Qed.

End CreateLeave.

(** X24.  A leave request that the creation endpoint accepts keeps the
    rule that the pending and approved requests of a person do not share a
    date: if the rule held for the table before, it holds with the new
    request added. *)
Theorem created_leave_keeps_disjoint (leave_types : list (Z * LeaveType)) (db db' : DB)
    (rq : LeaveRequestCreate) (row : LeaveRequest) :
  no_overlapping_leaves db ->
  create_leave_request leave_types db rq = Returns (row, db') ->
  no_overlapping_leaves db'
  /\ leave_requests db' = (leave_requests db ++ [row])%list.
Proof.
  intros Hinv Hc.
  destruct (created_row_and_checks leave_types db db' rq row Hc)
    as (lt & Hrow & Hdb & _ & _ & Hnone).
  split; [|rewrite Hdb; reflexivity].
  unfold no_overlapping_leaves. rewrite Hdb. cbn [set_leave_requests leave_requests].
  apply ordpairs_app_last; [exact Hinv|].
  apply Forall_forall. intros r Hr.
  pose proof (find_none _ _ Hnone r Hr) as Hf. cbn beta in Hf.
  unfold disjoint_leaves. intros Hp Ha _.
  rewrite Hrow in *. cbn [leave_personnel_id leave_start_date leave_end_date] in *.
  rewrite Hp, Z.eqb_refl, Ha in Hf. cbn [andb] in Hf.
  apply andb_false_iff in Hf. destruct Hf as [Hf|Hf].
  - apply Z.leb_gt in Hf. right. lia.
  - apply Z.leb_gt in Hf. left. lia.
Qed.

(** X25.  A leave request that the creation endpoint accepts is stored as
    pending, with a first date not after its last date and, when hourly,
    with both times set and the start before the end, so that its duration
    is the plain difference of the two times; being pending, it changes
    what the processor finds for no person and no date. *)
Theorem created_leave_is_pending (leave_types : list (Z * LeaveType)) (db db' : DB)
    (rq : LeaveRequestCreate) (row : LeaveRequest) :
  create_leave_request leave_types db rq = Returns (row, db') ->
  leave_status row = "pending"
  /\ leave_start_date row <= leave_end_date row
  /\ (leave_is_hourly row = true ->
      exists st et,
        leave_start_time row = Some st /\ leave_end_time row = Some et /\ st < et
        /\ leave_minutes row = (et - st) ÷ usec_per_minute)
  /\ (forall pid d, approved_leave_on db' pid d = approved_leave_on db pid d).
Proof.
  intros Hc.
  destruct (created_row_and_checks leave_types db db' rq row Hc)
    as (lt & Hrow & Hdb & Hdates & Htimes & _).
  assert (Hst : leave_status row = "pending") by (rewrite Hrow; reflexivity).
  split; [exact Hst|].
  split; [rewrite Hrow; exact Hdates|]. split.
  - intros Hh. rewrite Hrow in Hh. cbn [leave_is_hourly] in Hh.
    destruct (Htimes Hh) as (st & et & Hs & He & Hlt).
    exists st, et. rewrite Hrow. cbn [leave_start_time leave_end_time].
    repeat split; try assumption.
    unfold leave_minutes. cbn [leave_is_hourly leave_start_time leave_end_time].
    rewrite Hh, Hs, He. apply time_diff_forward. lia.
  - intros pid d. unfold approved_leave_on. rewrite Hdb.
    cbn [set_leave_requests leave_requests].
    apply find_app_skip. rewrite Hst.
    cbn [String.eqb]. rewrite andb_false_r. reflexivity.
Qed.

Lemma created_leave_example :
  exists row db',
    no_overlapping_leaves leave_db
    /\ create_leave_request leave_type_table leave_db hourly_request = Returns (row, db')
    /\ no_overlapping_leaves db'
    /\ length (leave_requests db') = 2%nat.
Proof.
  assert (H0 : no_overlapping_leaves leave_db).
  { unfold no_overlapping_leaves. cbn. constructor; constructor. }
  eexists. eexists. split; [exact H0|]. split; [reflexivity|].
  destruct (created_leave_keeps_disjoint leave_type_table leave_db _ hourly_request _
              H0 eq_refl) as [Hinv Hl].
  split; [exact Hinv|]. rewrite Hl. reflexivity.
Defined.

Lemma created_leave_pending_example :
  exists row db',
    create_leave_request leave_type_table leave_db hourly_request = Returns (row, db')
    /\ leave_status row = "pending"
    /\ approved_leave_on db' 1 110 = None.
Proof.
  eexists. eexists. split; [reflexivity|].
  destruct (created_leave_is_pending leave_type_table leave_db _ hourly_request _
              eq_refl) as (Hst & _ & _ & Hsame).
  split; [exact Hst|]. rewrite Hsame. reflexivity.
Defined.

(** X26.  The single-day endpoint processes the day of any person that has
    a work group with a cycle of non-zero length: it does not look at the
    active flag, at the employment window or at an existing summary, and
    after it the day has a summary. *)
Theorem reprocess_always_writes (db : DB) (pid : Z) (d : date) (p : Personnel)
    (wg : WorkGroup) :
  find (fun x => personnel_id x =? pid) (personnel_table db) = Some p ->
  work_group p = Some wg ->
  repetition_period_days wg <> 0 ->
  exists db',
    reprocess_daily_summary db pid d = Returns db'
    /\ existing_summary db' pid d <> None
    /\ static_eq db db'.
Proof.
  intros Hfind Hwg Hn0.
  assert (Hpid : personnel_id p = pid).
  { apply find_some in Hfind. destruct Hfind as [_ H]. now apply Z.eqb_eq in H. }
  unfold reprocess_daily_summary. rewrite Hfind, Hwg.
  destruct (_process_personnel_day db p wg (calendar wg) d) as [db'|e] eqn:E.
  - exists db'. split; [reflexivity|]. split.
    + rewrite <- Hpid. eapply process_day_writes. exact E.
    + apply (follows_process_day true db db' p wg (calendar wg) d);
        [discriminate|exact E].
  - exfalso.
    assert (Hr : exists e, _process_personnel_day db p wg (calendar wg) d = Raise e)
      by (now exists e).
    apply zero_period_of_failure in Hr. contradiction.
Qed.

Lemma reprocess_outside_window_example :
  exists db',
    reprocess_daily_summary staff_db 3 101 = Returns db'
    /\ existing_summary db' 3 101 <> None
    /\ _process_personnel_attendance staff_db newcomer 101 101 true = (Ok 0, staff_db).
Proof.
  destruct (reprocess_always_writes staff_db 3 101 newcomer weekly_group eq_refl eq_refl)
    as (db' & Hr & Hs & _).
  - discriminate.
  - exists db'. split; [exact Hr|]. split; [exact Hs|]. reflexivity.
Defined.

(** * Processing a day again *)

Section Again.

Lemma attr_or_idem {A} (o : option A) (v : A) : attr_or o (attr_or o v) = attr_or o v.
Proof. destruct o; reflexivity. Qed.

Lemma overlay_idem a x : overlay a (overlay a x) = overlay a x.
Proof.
  unfold overlay.
  cbn [ds_id ds_personnel_id ds_date ds_shift_id ds_presence_duration
       ds_tardiness_duration ds_overtime_duration ds_undertime_duration ds_absent
       ds_status ds_first_entry_time ds_last_exit_time ds_expected_work_duration
       ds_notes].
  now rewrite !attr_or_idem.
Qed.

Lemma update_first_fixed {A} (p : A -> bool) (f : A -> A) (l : list A) (x : A) :
  find p l = Some x -> f x = x -> update_first p f l = l.
Proof.
  induction l as [|y l IH]; intros Hfind Hfx; [reflexivity|].
  cbn [find update_first] in *. destruct (p y).
  - injection Hfind as ->. now rewrite Hfx.
  - now rewrite IH.
Qed.

Lemma set_daily_summaries_same db : set_daily_summaries (daily_summaries db) db = db.
Proof. destruct db; reflexivity. Qed.

Lemma set_attendance_logs_same db : set_attendance_logs (attendance_logs db) db = db.
Proof. destruct db; reflexivity. Qed.

Lemma upsert_fixed db pid d a :
  a_personnel_id a = Some pid -> a_date a = Some d ->
  upsert_summary (upsert_summary db pid d a) pid d a = upsert_summary db pid d a.
Proof.
  intros Hp Hd.
  pose proof (upsert_lookup db pid d a Hp Hd) as Hlook.
  set (db1 := upsert_summary db pid d a) in *.
  unfold upsert_summary at 1. rewrite Hlook.
  rewrite (update_first_fixed _ _ _ _ Hlook).
  - apply set_daily_summaries_same.
  - destruct (existing_summary db pid d); [apply overlay_idem|].
    unfold inserted_row. apply overlay_idem.
Qed.

Lemma upsert_set_logs db pid d a v :
  upsert_summary (set_attendance_logs v db) pid d a
  = set_attendance_logs v (upsert_summary db pid d a).
Proof.
  unfold upsert_summary.
  change (existing_summary (set_attendance_logs v db) pid d)
    with (existing_summary db pid d).
  destruct (existing_summary db pid d); reflexivity.
Qed.

Variable f : AttendanceLog -> AttendanceLog.
Hypothesis f_timestamp : forall x, timestamp (f x) = timestamp x.
Hypothesis f_person : forall x, log_personnel_id (f x) = log_personnel_id x.

Lemma filter_map_in_day pid d l :
  filter (in_day pid d) (map f l) = map f (filter (in_day pid d) l).
Proof.
  induction l as [|x l IH]; [reflexivity|]. cbn [map filter].
  assert (H : in_day pid d (f x) = in_day pid d x)
    by (unfold in_day; now rewrite f_timestamp, f_person).
  rewrite H. destruct (in_day pid d x); cbn [map]; now rewrite IH.
Qed.

Lemma insert_map x l :
  insert_by_timestamp (f x) (map f l) = map f (insert_by_timestamp x l).
Proof.
  induction l as [|y l IH]; [reflexivity|]. cbn [map insert_by_timestamp].
  rewrite !f_timestamp. destruct (dt_ltb (timestamp x) (timestamp y)); cbn [map];
    [reflexivity|now rewrite IH].
Qed.

Lemma order_map l :
  order_by_timestamp (map f l) = map f (order_by_timestamp l).
Proof.
  unfold order_by_timestamp. change (@nil AttendanceLog) with (map f []) at 1.
  generalize (@nil AttendanceLog) as acc.
  induction l as [|x l IH]; intros acc; cbn [map fold_left]; [reflexivity|].
  rewrite insert_map. apply IH.
Qed.

Lemma pairs_map l :
  total_presence_of (pairs_by_position (map f l))
  = total_presence_of (pairs_by_position l).
Proof.
  induction l as [| a | a b l IH] using list_pair_ind; try reflexivity.
  cbn [map pairs_by_position]. rewrite !total_presence_cons, !f_timestamp.
  now rewrite IH.
Qed.

Lemma last_map (l : list AttendanceLog) (x : AttendanceLog) :
  last (map f l) (f x) = f (last l x).
Proof.
  induction l as [|a l IH]; [reflexivity|].
  destruct l as [|b l]; [reflexivity|]. exact IH.
Qed.

(** The calculation looks at the timestamps of the punches only. *)
Lemma calc_map l sh d :
  _calculate_attendance_times (map f l) sh d = _calculate_attendance_times l sh d.
Proof.
  destruct l as [|log0 rest]; [reflexivity|].
  unfold _calculate_attendance_times. cbn [map].
  change (f log0 :: map f rest) with (map f (log0 :: rest)).
  unfold with_first_and_last, with_presence, with_incomplete_flag.
  rewrite last_map, !f_timestamp, !length_map, !pair_logs_positions, pairs_map.
  reflexivity.
Qed.

End Again.

Lemma flag_timestamp logs x : timestamp (flag_if_fetched logs x) = timestamp x.
Proof. unfold flag_if_fetched. destruct (existsb _ logs); reflexivity. Qed.

Lemma flag_person logs x :
  log_personnel_id (flag_if_fetched logs x) = log_personnel_id x.
Proof. unfold flag_if_fetched. destruct (existsb _ logs); reflexivity. Qed.

Lemma flag_id logs x : log_id (flag_if_fetched logs x) = log_id x.
Proof. unfold flag_if_fetched. destruct (existsb _ logs); reflexivity. Qed.

Lemma existsb_flagged logs l i :
  existsb (fun x => log_id x =? i) (map (flag_if_fetched logs) l)
  = existsb (fun x => log_id x =? i) l.
Proof.
  induction l as [|x l IH]; [reflexivity|]. cbn [map existsb].
  now rewrite flag_id, IH.
Qed.

Lemma mark_processed_again logs table :
  mark_processed (map (flag_if_fetched logs) logs) (mark_processed logs table)
  = mark_processed logs table.
Proof.
  unfold mark_processed. rewrite map_map. apply map_ext. intros row.
  fold (flag_if_fetched logs row).
  rewrite flag_id, existsb_flagged.
  unfold flag_if_fetched. destruct (existsb _ logs); reflexivity.
Qed.

Lemma static_queries db db' :
  static_eq db db' ->
  (forall cal d, holiday_on db' cal d = holiday_on db cal d)
  /\ (forall pid d, approved_leave_on db' pid d = approved_leave_on db pid d)
  /\ (forall pid d, approved_mission_on db' pid d = approved_mission_on db pid d)
  /\ (forall wg d, _get_shift_for_date db' wg d = _get_shift_for_date db wg d).
Proof.
  intros (_ & Hh & Hl & Hm & Hw).
  unfold holiday_on, approved_leave_on, approved_mission_on, _get_shift_for_date.
  rewrite Hh, Hl, Hm, Hw. repeat split.
Qed.

Lemma static_upsert db pid d a : static_eq db (upsert_summary db pid d a).
Proof. unfold upsert_summary. destruct (existing_summary db pid d); repeat split. Qed.

Lemma punch_day_again (db : DB) (personnel : Personnel) (wg : WorkGroup)
    (cal : Calendar) (d : date) (sh : Shift) :
  punch_path db personnel wg cal d sh ->
  forall db1,
    db1 = set_attendance_logs
            (mark_processed (_get_day_logs db (personnel_id personnel) d)
               (attendance_logs db))
            (_create_or_update_daily_summary db personnel d sh
               (_calculate_attendance_times
                  (_get_day_logs db (personnel_id personnel) d) sh d)) ->
    _process_personnel_day db1 personnel wg cal d = Ok db1.
Proof.
  intros (Hh & Hl & Hm & Hs) db1 Hdb1.
  set (logs := _get_day_logs db (personnel_id personnel) d) in *.
  set (r := _calculate_attendance_times logs sh d) in *.
  assert (Hstatic : static_eq db db1).
  { rewrite Hdb1. unfold _create_or_update_daily_summary.
    pose proof (static_upsert db (personnel_id personnel) d
                  (mk_SummaryAttrs (Some (personnel_id personnel)) (Some d)
                     (Some (Some (shift_id sh))) (Some (presence_duration r))
                     (Some (tardiness_duration r)) (Some (overtime_duration r))
                     (Some (undertime_duration r)) (Some (absent r)) (Some (status r))
                     (Some (first_entry_time r)) (Some (last_exit_time r))
                     (Some (expected_work_duration r)) (Some (notes r))))
      as (H1 & H2 & H3 & H4 & H5).
    repeat split; assumption. }
  assert (Htable : attendance_logs db1 = map (flag_if_fetched logs) (attendance_logs db)).
  { rewrite Hdb1. reflexivity. }
  assert (Hlogs : _get_day_logs db1 (personnel_id personnel) d
                  = map (flag_if_fetched logs) logs).
  { unfold _get_day_logs. rewrite Htable.
    rewrite (filter_map_in_day _ (flag_timestamp logs) (flag_person logs)).
    now rewrite (order_map _ (flag_timestamp logs)). }
  assert (Hup : _create_or_update_daily_summary db1 personnel d sh r = db1).
  { rewrite Hdb1. unfold _create_or_update_daily_summary.
    now rewrite upsert_set_logs, upsert_fixed. }
  destruct (static_queries db db1 Hstatic) as (Qh & Ql & Qm & Qs).
  unfold _process_personnel_day. rewrite Qh, Ql, Qm, Qs, Hh, Hl, Hm, Hs.
  rewrite Hlogs, (calc_map _ (flag_timestamp logs)). fold r. rewrite Hup.
  f_equal. rewrite Htable.
  change (map (flag_if_fetched logs) (attendance_logs db))
    with (mark_processed logs (attendance_logs db)).
  rewrite mark_processed_again.
  change (mark_processed logs (attendance_logs db))
    with (map (flag_if_fetched logs) (attendance_logs db)).
  rewrite <- Htable. apply set_attendance_logs_same.
Qed.

(** X27.  Processing a day that has just been processed changes nothing:
    the second pass writes the same summary over the first and flags the
    same punches. *)
Theorem processing_a_day_again (db db1 : DB) (personnel : Personnel) (wg : WorkGroup)
    (cal : Calendar) (d : date) :
  _process_personnel_day db personnel wg cal d = Ok db1 ->
  _process_personnel_day db1 personnel wg cal d = Ok db1.
Proof.
  intros Hday.
  destruct (holiday_on db cal d) as [holiday|] eqn:Eh;
    [|destruct (approved_leave_on db (personnel_id personnel) d) as [lr|] eqn:El;
      [|destruct (approved_mission_on db (personnel_id personnel) d) as [mr|] eqn:Em;
        [|destruct (_get_shift_for_date db wg d) as [[sh|]|e] eqn:Es]]].
  - pose proof (follows_process_day true db db1 personnel wg cal d
                  ltac:(discriminate) Hday) as (Hstatic & _).
    destruct (static_queries db db1 Hstatic) as (Qh & _).
    unfold _process_personnel_day in *. rewrite Qh, Eh in *.
    injection Hday as <-. unfold _create_holiday_summary.
    now rewrite upsert_fixed.
  - pose proof (follows_process_day true db db1 personnel wg cal d
                  ltac:(discriminate) Hday) as (Hstatic & _).
    destruct (static_queries db db1 Hstatic) as (Qh & Ql & _).
    unfold _process_personnel_day in *. rewrite Qh, Ql, Eh, El in *.
    injection Hday as <-. unfold _create_leave_summary.
    destruct (leave_duration_status_notes lr) as [[? ?] ?].
    now rewrite upsert_fixed.
  - pose proof (follows_process_day true db db1 personnel wg cal d
                  ltac:(discriminate) Hday) as (Hstatic & _).
    destruct (static_queries db db1 Hstatic) as (Qh & Ql & Qm & _).
    unfold _process_personnel_day in *. rewrite Qh, Ql, Qm, Eh, El, Em in *.
    injection Hday as <-. unfold _create_mission_summary.
    destruct (mission_duration_status_notes mr) as [[? ?] ?].
    now rewrite upsert_fixed.
  - apply (punch_day_again db personnel wg cal d sh); [repeat split; assumption|].
    rewrite (punch_path_result db personnel wg cal d sh) in Hday
      by (repeat split; assumption).
    now injection Hday as <-.
  - pose proof (follows_process_day true db db1 personnel wg cal d
                  ltac:(discriminate) Hday) as (Hstatic & _).
    destruct (static_queries db db1 Hstatic) as (Qh & Ql & Qm & Qs).
    unfold _process_personnel_day in *. rewrite Qh, Ql, Qm, Qs, Eh, El, Em, Es in *.
    injection Hday as <-. unfold _create_no_shift_summary.
    now rewrite upsert_fixed.
  - unfold _process_personnel_day in Hday. rewrite Eh, El, Em, Es in Hday.
    discriminate.
Qed.

Lemma processing_a_day_again_example :
  exists db1,
    _process_personnel_day office_db worker weekly_group (calendar weekly_group) 101
    = Ok db1
    /\ _process_personnel_day db1 worker weekly_group (calendar weekly_group) 101
       = Ok db1
    /\ map is_processed (attendance_logs db1) = [true; true].
Proof.
  eexists. split; [reflexivity|]. split; [|reflexivity].
  exact (processing_a_day_again office_db _ worker weekly_group (calendar weekly_group)
           101 eq_refl).
Defined.
